(** * TaskFlow API: a shallow embedding of the request handlers

    The server is an Express application over four Mongoose models
    (User, Employee, Task, Config).  Each route handler is embedded as a
    function from the request (resolved caller, route parameter, body), the
    instant of the request and the state of the world to a response and the
    next state of the world.

    Conventions of the embedding.
    - A collection is the list of its documents in insertion order.
    - A document is a record with one field per schema path; a path that is
      unset ([undefined]) or [null] is [None].
    - A request body is a finite map from key to JavaScript value; object
      spread is map insertion / left-biased union.
    - [await]ed calls run to completion before the next statement: a handler
      is one sequential computation, and a rejected promise is an exception
      that the handler's [catch] turns into the 500 response.
    - An identifier is the string of its 24 hexadecimal digits in lower
      case ([canonical_id]), the form in which the database holds it and
      in which a response prints it.  The mapper's cast of a route
      parameter, which throws on another length or alphabet and folds
      case, is the identity on this form; a theorem about a route
      parameter states this form as a hypothesis.
    - An update applies the schema paths found among the top-level keys
      of the body and the handler's own [$push].  Update operators and
      dotted paths are not interpreted; a theorem about an update states
      as a hypothesis that the keys of the body name fields
      ([plain_keys]).
    - A number is an integer and is printed with all its digits.  A string
      is the sequence of the bytes of its UTF-8 encoding.
    - A stored object is minimised: an object left without keys is not
      stored ([minimize]).
    - The clock, the fresh identifier, the salt and the outcome of the
      outbound HTTP call are inputs of a handler.

    Line numbers are those of the server's source file. *)

From Stdlib Require Import ZArith Ascii String List Bool Lia.
From stdpp Require Import gmap strings list fin_maps pretty.

#[local] Set Warnings "-register-all".
#[local] Set Default Proof Using "Type".
#[local] Open Scope string_scope.
#[local] Open Scope list_scope.

(** ** JavaScript values *)

Abbreviation ObjectId := string.
(** A Date is its number of milliseconds since the epoch. *)
Abbreviation Date := Z.

Inductive jsval : Type :=
  | JNull
  | JBool (b : bool)
  | JNum (n : Z)
  | JStr (s : string)
  | JDate (ms : Z)
  | JArr (l : list jsval)
  | JObj (o : gmap string jsval).

(** The spread [{...a, k: v}] and [{k: v, ...a}] of object literals. *)
Definition spread_then (a : gmap string jsval) (k : string) (v : jsval)
  : gmap string jsval := <[k := v]> a.
Definition then_spread (k : string) (v : jsval) (a : gmap string jsval)
  : gmap string jsval := a ∪ {[k := v]}.

(** What the mapper keeps of a value when it serialises a document with
    the schema option [minimize] (the default): an object left without
    keys is dropped, at every depth, except where it is an element of an
    array.  [None] is [undefined]. *)
Fixpoint minimize (arrayChild : bool) (v : jsval) {struct v} : option jsval :=
  match v with
  | JObj o =>
      let o' := omap (minimize false) o in
      if arrayChild then Some (JObj o')
      else if bool_decide (o' = ∅) then None else Some (JObj o')
  | JArr l => Some (JArr (omap (minimize true) l))
  | _ => Some v
  end.

(** Truthiness of an optional string ([undefined], [null] and [''] are
    falsy). *)
Definition truthy (s : option string) : bool :=
  match s with
  | Some s => negb (String.eqb s "")
  | None => false
  end.

(** ** Exceptions and the result of a fallible call *)

Inductive Exception : Type :=
  | ValidationError
  | CastError
  | DuplicateKey
  | ConflictingUpdateOperators
  | ImmutableField
  | TypeError
  | IllegalArguments
  | JsonWebTokenError.

Inductive result (A : Type) : Type :=
  | Ok (a : A)
  | Throw (e : Exception).
Arguments Ok {A} a.
Arguments Throw {A} e.

#[global] Instance result_ret : MRet result := fun A a => Ok a.
#[global] Instance result_bind : MBind result := fun A B f m =>
  match m with
  | Ok a => f a
  | Throw e => Throw e
  end.

(** ** Schemas: one record per model (lines 23-62) *)

Record User : Type := {
  user_id : ObjectId;
  user_email : option string;
  user_password : option string;
  user_name : option string;
  user_role : option string;
  user_createdAt : option Date
}.

Record Employee : Type := {
  emp_id : ObjectId;
  emp_userId : option ObjectId;
  emp_name : option string;
  emp_position : option string;
  emp_telegramTag : option string;
  emp_createdAt : option Date
}.

Record HistoryEntry : Type := {
  h_timestamp : option Date;
  h_action : option string;
  h_changes : option jsval
}.

Record Task : Type := {
  task_id : ObjectId;
  task_userId : option ObjectId;
  task_title : option string;
  task_description : option string;
  task_employeeId : option ObjectId;
  task_deadline : option Date;
  task_priority : option string;
  task_status : option string;
  task_result : option string;
  task_completedAt : option Date;
  task_history : list HistoryEntry;
  task_createdAt : option Date;
  task_updatedAt : option Date
}.

Record Config : Type := {
  cfg_id : ObjectId;
  cfg_userId : option ObjectId;
  cfg_botToken : option string;
  cfg_chatId : option string
}.

(** What the server takes from its runtime and its libraries is a variable
    of this section. *)
Section Server.

(** ** Casting a value to the type of a schema path

    [Ok None] is a path set to [null]. *)

(** The instant that a date string (not the empty one) is cast to;
    [None] for an invalid date. *)
Variable Date_parse : string -> option Z.

Definition castString (v : jsval) : result (option string) :=
  match v with
  | JNull => Ok None
  | JStr s => Ok (Some s)
  | JNum n => Ok (Some (pretty n))
  | JBool true => Ok (Some "true")
  | JBool false => Ok (Some "false")
  | JDate _ | JArr _ | JObj _ => Throw CastError
  end.

Definition castObjectId (v : jsval) : result (option ObjectId) :=
  match v with
  | JNull => Ok None
  | JStr s => Ok (Some s)
  | _ => Throw CastError
  end.

(** The instants that a Date can hold: 100,000,000 days either side of
    the epoch. *)
Definition max_time : Z := 8640000000000000%Z.

Definition castDate (v : jsval) : result (option Date) :=
  match v with
  | JNull => Ok None
  | JDate ms => Ok (Some ms)
  | JNum n =>
      if (Z.abs n <=? max_time)%Z then Ok (Some n) else Throw CastError
  | JStr s =>
      if String.eqb s "" then Ok None
      else match Date_parse s with
           | Some ms => Ok (Some ms)
           | None => Throw CastError
           end
  | _ => Throw CastError
  end.

(** A path of a new document: the cast of the given value, or the
    schema default when the key is absent. *)
Definition init_path {A} (cast : jsval -> result (option A))
    (default : option A) (given : option jsval) : result (option A) :=
  match given with
  | Some v => cast v
  | None => Ok default
  end.

(** A path under an update: the cast of the given value, or the stored
    value when the key is absent. *)
Definition set_path {A} (cast : jsval -> result (option A))
    (stored : option A) (given : option jsval) : result (option A) :=
  match given with
  | Some v => cast v
  | None => Ok stored
  end.

Definition role_enum : list string := ["admin"; "manager"; "employee"].
Definition priority_enum : list string := ["low"; "medium"; "high"].
Definition status_enum : list string := ["new"; "in_progress"; "completed"].

(** [required: true]: the path is set, and a string is not empty. *)
Definition required_string (s : option string) : bool := truthy s.
Definition required {A} (x : option A) : bool :=
  match x with Some _ => true | None => false end.
(** [enum: [...]]: a value that is set is one of the listed ones. *)
Definition in_enum (values : list string) (s : option string) : bool :=
  match s with
  | Some s => bool_decide (s ∈ values)
  | None => true
  end.

Definition User_validate (u : User) : bool :=
  required_string (user_email u) && required_string (user_password u)
  && required_string (user_name u) && in_enum role_enum (user_role u).

Definition Employee_validate (e : Employee) : bool :=
  required (emp_userId e) && required_string (emp_name e).

Definition Task_validate (t : Task) : bool :=
  required (task_userId t) && required_string (task_title t)
  && required (task_employeeId t) && required (task_deadline t)
  && in_enum priority_enum (task_priority t)
  && in_enum status_enum (task_status t).

Definition Config_validate (c : Config) : bool :=
  required (cfg_userId c).

(** The [_id] of a new document: the one given, else (none given, or
    [null]) a generated one. *)
Definition init_id (fresh : ObjectId) (given : option jsval) : result ObjectId :=
  match given with
  | Some v =>
      i ← castObjectId v;
      match i with
      | Some i => Ok i
      | None => Ok fresh
      end
  | None => Ok fresh
  end.

(** A history subdocument: [{timestamp, action, changes}]; [changes] is
    of any type and is stored minimised. *)
Definition castHistoryEntry (now : Date) (v : jsval) : result HistoryEntry :=
  match v with
  | JObj o =>
      ts ← init_path castDate (Some now) (o !! "timestamp");
      act ← init_path castString None (o !! "action");
      Ok {| h_timestamp := ts; h_action := act;
            h_changes := o !! "changes" ≫= minimize false |}
  | _ => Throw CastError
  end.

Fixpoint castHistory (now : Date) (l : list jsval) : result (list HistoryEntry) :=
  match l with
  | [] => Ok []
  | v :: l =>
      h ← castHistoryEntry now v;
      hs ← castHistory now l;
      Ok (h :: hs)
  end.

Definition castHistoryArray (now : Date) (v : jsval) : result (list HistoryEntry) :=
  match v with
  | JArr l => castHistory now l
  | _ => Throw CastError
  end.

(** [new Employee(obj)]: the document of [obj] under [EmployeeSchema]. *)
Definition Employee_new (fresh : ObjectId) (now : Date)
    (obj : gmap string jsval) : result Employee :=
  i ← init_id fresh (obj !! "_id");
  uid ← init_path castObjectId None (obj !! "userId");
  name ← init_path castString None (obj !! "name");
  position ← init_path castString None (obj !! "position");
  tag ← init_path castString None (obj !! "telegramTag");
  created ← init_path castDate (Some now) (obj !! "createdAt");
  Ok {| emp_id := i; emp_userId := uid; emp_name := name;
        emp_position := position; emp_telegramTag := tag;
        emp_createdAt := created |}.

(** [new Task(obj)]: the document of [obj] under [TaskSchema]. *)
Definition Task_new (fresh : ObjectId) (now : Date)
    (obj : gmap string jsval) : result Task :=
  i ← init_id fresh (obj !! "_id");
  uid ← init_path castObjectId None (obj !! "userId");
  title ← init_path castString None (obj !! "title");
  description ← init_path castString None (obj !! "description");
  eid ← init_path castObjectId None (obj !! "employeeId");
  deadline ← init_path castDate None (obj !! "deadline");
  priority ← init_path castString (Some "medium") (obj !! "priority");
  status ← init_path castString (Some "new") (obj !! "status");
  res ← init_path castString None (obj !! "result");
  completed ← init_path castDate None (obj !! "completedAt");
  history ← match obj !! "history" with
            | Some v => castHistoryArray now v
            | None => Ok []
            end;
  created ← init_path castDate (Some now) (obj !! "createdAt");
  updated ← init_path castDate (Some now) (obj !! "updatedAt");
  Ok {| task_id := i; task_userId := uid; task_title := title;
        task_description := description; task_employeeId := eid;
        task_deadline := deadline; task_priority := priority;
        task_status := status; task_result := res;
        task_completedAt := completed; task_history := history;
        task_createdAt := created; task_updatedAt := updated |}.

(** [new Config(obj)]: the document of [obj] under [ConfigSchema]. *)
Definition Config_new (fresh : ObjectId) (obj : gmap string jsval)
    : result Config :=
  i ← init_id fresh (obj !! "_id");
  uid ← init_path castObjectId None (obj !! "userId");
  token ← init_path castString None (obj !! "botToken");
  chat ← init_path castString None (obj !! "chatId");
  Ok {| cfg_id := i; cfg_userId := uid; cfg_botToken := token;
        cfg_chatId := chat |}.


(** ** The database and the outside world *)

Record Db : Type := {
  users : list User;
  employees : list Employee;
  tasks : list Task;
  configs : list Config
}.

Definition set_users (d : Db) (l : list User) : Db :=
  {| users := l; employees := employees d; tasks := tasks d;
     configs := configs d |}.
Definition set_employees (d : Db) (l : list Employee) : Db :=
  {| users := users d; employees := l; tasks := tasks d;
     configs := configs d |}.
Definition set_tasks (d : Db) (l : list Task) : Db :=
  {| users := users d; employees := employees d; tasks := l;
     configs := configs d |}.
Definition set_configs (d : Db) (l : list Config) : Db :=
  {| users := users d; employees := employees d; tasks := tasks d;
     configs := l |}.

(** One [axios.post] to the [sendMessage] method of the bot API. *)
Record TelegramCall : Type := {
  call_botToken : jsval;
  call_chat_id : jsval;
  call_text : string
}.

Record World : Type := {
  db : Db;
  outbox : list TelegramCall
}.

Definition with_db (w : World) (d : Db) : World :=
  {| db := d; outbox := outbox w |}.

(** ** Collections: queries *)

(** The first document that matches, as [findOne] returns it. *)
Definition find_first {A} (P : A -> bool) (l : list A) : option A :=
  List.find P l.

Fixpoint replace_first {A} (P : A -> bool) (x : A) (l : list A) : list A :=
  match l with
  | [] => []
  | y :: l => if P y then x :: l else y :: replace_first P x l
  end.

Fixpoint remove_first {A} (P : A -> bool) (l : list A) : list A :=
  match l with
  | [] => []
  | y :: l => if P y then l else y :: remove_first P l
  end.

(** [.sort({ createdAt: -1 })]: newest first, [null] last; documents with
    the same instant keep their order. *)
Definition date_leb (a b : option Date) : bool :=
  match a, b with
  | None, _ => true
  | Some _, None => false
  | Some x, Some y => (x <=? y)%Z
  end.

Fixpoint insert_desc {A} (key : A -> option Date) (x : A) (l : list A)
    : list A :=
  match l with
  | [] => [x]
  | y :: l' =>
      if date_leb (key y) (key x) then x :: y :: l'
      else y :: insert_desc key x l'
  end.

Definition sort_desc {A} (key : A -> option Date) (l : list A) : list A :=
  foldr (insert_desc key) [] l.

(** The filters [{ userId }] and [{ _id, userId }]. *)
Definition owned_by (uid : ObjectId) (owner : option ObjectId) : bool :=
  bool_decide (owner = Some uid).
Definition is_doc (id uid : ObjectId) (i : ObjectId) (owner : option ObjectId)
    : bool :=
  bool_decide (i = id) && owned_by uid owner.

Definition User_findOne_email (email : option string) (d : Db) : option User :=
  find_first (fun u => bool_decide (user_email u = email)) (users d).

Definition User_findById (id : option ObjectId) (d : Db) : option User :=
  match id with
  | Some id => find_first (fun u => bool_decide (user_id u = id)) (users d)
  | None => None
  end.

Definition Employee_find (uid : ObjectId) (d : Db) : list Employee :=
  List.filter (fun e => owned_by uid (emp_userId e)) (employees d).

Definition Employee_findById (id : ObjectId) (d : Db) : option Employee :=
  find_first (fun e => bool_decide (emp_id e = id)) (employees d).

Definition Task_find (uid : ObjectId) (d : Db) : list Task :=
  List.filter (fun t => owned_by uid (task_userId t)) (tasks d).

Definition Task_findOne (id uid : ObjectId) (d : Db) : option Task :=
  find_first (fun t => is_doc id uid (task_id t) (task_userId t)) (tasks d).

Definition Task_countDocuments (uid eid : ObjectId) (d : Db) : nat :=
  length (List.filter
    (fun t => owned_by uid (task_userId t)
              && bool_decide (task_employeeId t = Some eid)) (tasks d)).

Definition Config_findOne (uid : ObjectId) (d : Db) : option Config :=
  find_first (fun c => owned_by uid (cfg_userId c)) (configs d).

(** [.populate('employeeId')]: the reference is replaced by the employee
    with that [_id], or by [null] when there is none. *)
Record PopulatedTask : Type := {
  pt_task : Task;
  pt_employeeId : option Employee
}.

Definition populate (d : Db) (t : Task) : PopulatedTask :=
  {| pt_task := t;
     pt_employeeId := task_employeeId t ≫= fun eid => Employee_findById eid d |}.

(** ** Collections: writes *)

(** [doc.save()] of a new document: validation, then insertion under the
    unique indexes ([_id], and the paths declared [unique]). *)
Definition User_save (u : User) (d : Db) : result Db :=
  if negb (User_validate u) then Throw ValidationError
  else if bool_decide (user_id u ∈ map user_id (users d)) then Throw DuplicateKey
  else if bool_decide (user_email u ∈ map user_email (users d))
  then Throw DuplicateKey
  else Ok (set_users d (users d ++ [u])).

Definition Employee_save (e : Employee) (d : Db) : result Db :=
  if negb (Employee_validate e) then Throw ValidationError
  else if bool_decide (emp_id e ∈ map emp_id (employees d))
  then Throw DuplicateKey
  else Ok (set_employees d (employees d ++ [e])).

Definition Task_save (t : Task) (d : Db) : result Db :=
  if negb (Task_validate t) then Throw ValidationError
  else if bool_decide (task_id t ∈ map task_id (tasks d)) then Throw DuplicateKey
  else Ok (set_tasks d (tasks d ++ [t])).

Definition Config_save_new (c : Config) (d : Db) : result Db :=
  if negb (Config_validate c) then Throw ValidationError
  else if bool_decide (cfg_id c ∈ map cfg_id (configs d)) then Throw DuplicateKey
  else if bool_decide (cfg_userId c ∈ map cfg_userId (configs d))
  then Throw DuplicateKey
  else Ok (set_configs d (configs d ++ [c])).

(** [doc.save()] of a document that was loaded and modified. *)
Definition Config_save (c : Config) (d : Db) : result Db :=
  if negb (Config_validate c) then Throw ValidationError
  else Ok (set_configs d
             (replace_first (fun c' => bool_decide (cfg_id c' = cfg_id c)) c
                (configs d))).

(** An update cannot change the [_id] of the document it matches. *)
Definition check_immutable_id (id : ObjectId) (update : gmap string jsval)
    : result unit :=
  match update !! "_id" with
  | Some v =>
      i ← castObjectId v;
      if bool_decide (i = Some id) then Ok tt else Throw ImmutableField
  | None => Ok tt
  end.

(** The paths of [EmployeeSchema] that the update sets. *)
Definition Employee_set (update : gmap string jsval) (e : Employee)
    : result Employee :=
  uid ← set_path castObjectId (emp_userId e) (update !! "userId");
  name ← set_path castString (emp_name e) (update !! "name");
  position ← set_path castString (emp_position e) (update !! "position");
  tag ← set_path castString (emp_telegramTag e) (update !! "telegramTag");
  created ← set_path castDate (emp_createdAt e) (update !! "createdAt");
  Ok {| emp_id := emp_id e; emp_userId := uid; emp_name := name;
        emp_position := position; emp_telegramTag := tag;
        emp_createdAt := created |}.

Definition blank_employee : Employee :=
  {| emp_id := ""; emp_userId := None; emp_name := None;
     emp_position := None; emp_telegramTag := None; emp_createdAt := None |}.

(** [Employee.findOneAndUpdate({ _id, userId }, update, { new: true })].
    The update is cast before the query is sent. *)
Definition Employee_findOneAndUpdate (id uid : ObjectId)
    (update : gmap string jsval) (d : Db) : result (Db * option Employee) :=
  _ ← Employee_set update blank_employee;
  let P := fun e => is_doc id uid (emp_id e) (emp_userId e) in
  match find_first P (employees d) with
  | None => Ok (d, None)
  | Some e =>
      _ ← check_immutable_id (emp_id e) update;
      e' ← Employee_set update e;
      Ok (set_employees d (replace_first P e' (employees d)), Some e')
  end.

Definition Employee_findOneAndDelete (id uid : ObjectId) (d : Db)
    : Db * option Employee :=
  let P := fun e => is_doc id uid (emp_id e) (emp_userId e) in
  match find_first P (employees d) with
  | None => (d, None)
  | Some e => (set_employees d (remove_first P (employees d)), Some e)
  end.

(** The paths of [TaskSchema] that the update sets. *)
Definition Task_set (now : Date) (update : gmap string jsval) (t : Task)
    : result Task :=
  uid ← set_path castObjectId (task_userId t) (update !! "userId");
  title ← set_path castString (task_title t) (update !! "title");
  description ← set_path castString (task_description t) (update !! "description");
  eid ← set_path castObjectId (task_employeeId t) (update !! "employeeId");
  deadline ← set_path castDate (task_deadline t) (update !! "deadline");
  priority ← set_path castString (task_priority t) (update !! "priority");
  status ← set_path castString (task_status t) (update !! "status");
  res ← set_path castString (task_result t) (update !! "result");
  completed ← set_path castDate (task_completedAt t) (update !! "completedAt");
  history ← match update !! "history" with
            | Some v => castHistoryArray now v
            | None => Ok (task_history t)
            end;
  created ← set_path castDate (task_createdAt t) (update !! "createdAt");
  updated ← set_path castDate (task_updatedAt t) (update !! "updatedAt");
  Ok {| task_id := task_id t; task_userId := uid; task_title := title;
        task_description := description; task_employeeId := eid;
        task_deadline := deadline; task_priority := priority;
        task_status := status; task_result := res;
        task_completedAt := completed; task_history := history;
        task_createdAt := created; task_updatedAt := updated |}.

(** The entries that [$push: { history: entry }] appends. *)
Definition castPush (now : Date) (update : gmap string jsval)
    : result (list HistoryEntry) :=
  match update !! "$push" with
  | None => Ok []
  | Some (JObj o) =>
      match o !! "history" with
      | Some v => h ← castHistoryEntry now v; Ok [h]
      | None => Ok []
      end
  | Some _ => Throw CastError
  end.

Definition push_history (t : Task) (hs : list HistoryEntry) : Task :=
  {| task_id := task_id t; task_userId := task_userId t;
     task_title := task_title t; task_description := task_description t;
     task_employeeId := task_employeeId t; task_deadline := task_deadline t;
     task_priority := task_priority t; task_status := task_status t;
     task_result := task_result t; task_completedAt := task_completedAt t;
     task_history := task_history t ++ hs;
     task_createdAt := task_createdAt t; task_updatedAt := task_updatedAt t |}.

(** The update as the database applies it to a task: a path that is both
    set and pushed to is a conflict. *)
Definition Task_applyUpdate (now : Date) (update : gmap string jsval)
    (t : Task) : result Task :=
  pushed ← castPush now update;
  if bool_decide (is_Some (update !! "history"))
     && negb (bool_decide (pushed = []))
  then Throw ConflictingUpdateOperators
  else t' ← Task_set now update t; Ok (push_history t' pushed).

Definition blank_task : Task :=
  {| task_id := ""; task_userId := None; task_title := None;
     task_description := None; task_employeeId := None;
     task_deadline := None; task_priority := None; task_status := None;
     task_result := None; task_completedAt := None; task_history := [];
     task_createdAt := None; task_updatedAt := None |}.

(** [Task.findOneAndUpdate({ _id, userId }, update, { new: true })]. *)
Definition Task_findOneAndUpdate (now : Date) (id uid : ObjectId)
    (update : gmap string jsval) (d : Db) : result (Db * option Task) :=
  _ ← Task_applyUpdate now update blank_task;
  let P := fun t => is_doc id uid (task_id t) (task_userId t) in
  match find_first P (tasks d) with
  | None => Ok (d, None)
  | Some t =>
      _ ← check_immutable_id (task_id t) update;
      t' ← Task_applyUpdate now update t;
      Ok (set_tasks d (replace_first P t' (tasks d)), Some t')
  end.

Definition Task_findOneAndDelete (id uid : ObjectId) (d : Db)
    : Db * option Task :=
  let P := fun t => is_doc id uid (task_id t) (task_userId t) in
  match find_first P (tasks d) with
  | None => (d, None)
  | Some t => (set_tasks d (remove_first P (tasks d)), Some t)
  end.

(** ** Tokens and password hashes *)

Record JwtClaims : Type := {
  jwt_userId : option ObjectId;
  jwt_iat : Z;
  jwt_exp : option Z
}.

(** A token is either a signed set of claims or any other string. *)
Inductive Jwt : Type :=
  | JwtRaw (s : string)
  | JwtSigned (secret : string) (claims : JwtClaims).

(** [process.env.JWT_SECRET]. *)
Variable env_JWT_SECRET : option string.

Definition JWT_SECRET : string :=
  if truthy env_JWT_SECRET
  then default "" env_JWT_SECRET
  else "your-secret-key-change-in-production".

Definition thirty_days : Z := (30 * 24 * 60 * 60)%Z.

(** [jwt.sign({ userId }, secret, { expiresIn: '30d' })]; the claims are
    in seconds. *)
Definition jwt_sign (userId : ObjectId) (secret : string) (now : Date) : Jwt :=
  JwtSigned secret
    {| jwt_userId := Some userId; jwt_iat := (now / 1000)%Z;
       jwt_exp := Some (now / 1000 + thirty_days)%Z |}.

Definition jwt_verify (token : Jwt) (secret : string) (now : Date)
    : result JwtClaims :=
  match token with
  | JwtRaw _ => Throw JsonWebTokenError
  | JwtSigned s claims =>
      if negb (String.eqb s secret) then Throw JsonWebTokenError
      else match jwt_exp claims with
           | Some exp =>
               if (exp <=? now / 1000)%Z then Throw JsonWebTokenError
               else Ok claims
           | None => Ok claims
           end
  end.

(** The digest of a password under a salt, as bcrypt computes it. *)
Variable bcrypt_digest : string -> string -> string.

(** [bcrypt.hash(password, 10)] with the generated [salt]. *)
Definition bcrypt_hash (salt : string) (password : option string)
    : result string :=
  match password with
  | Some p => Ok ("$2a$10$" +:+ salt +:+ bcrypt_digest salt p)
  | None => Throw IllegalArguments
  end.

(** The salt that a hash carries after its prefix. *)
Definition salt_of (hash : string) : string := String.substring 7 22 hash.

(** [bcrypt.compare(password, hash)]: the password is hashed again under
    the salt stored in the hash. *)
Definition bcrypt_compare (password hash : option string) : result bool :=
  match password, hash with
  | Some p, Some h =>
      Ok (String.eqb
            ("$2a$10$" +:+ salt_of h +:+ bcrypt_digest (salt_of h) p) h)
  | _, _ => Throw IllegalArguments
  end.

(** ** Responses *)

Record UserView : Type := {
  view_id : ObjectId;
  view_email : option string;
  view_name : option string;
  view_role : option string
}.

Record Stats : Type := {
  stats_total : nat;
  stats_new : nat;
  stats_inProgress : nat;
  stats_completed : nat;
  stats_overdue : nat
}.

Inductive Json : Type :=
  | JsonError (error : string)
  | JsonMessage (message : string)
  | JsonAuth (token : Jwt) (user : UserView)
  | JsonUser (user : UserView)
  | JsonEmployees (l : list Employee)
  | JsonEmployee (e : Employee)
  | JsonTasks (l : list PopulatedTask)
  | JsonTask (t : PopulatedTask)
  | JsonNull
  | JsonConfig (c : Config)
  | JsonStats (s : Stats)
  | JsonHealth (status message : string).

Record Response : Type := {
  status : nat;
  json : Json
}.

Definition respond (code : nat) (j : Json) : Response :=
  {| status := code; json := j |}.

Definition public_view (u : User) : UserView :=
  {| view_id := user_id u; view_email := user_email u;
     view_name := user_name u; view_role := user_role u |}.

(** ** Authentication *)

(** [authMiddleware], lines 74-94.  [header] is the Authorization header
    with ['Bearer '] removed. *)
Definition authMiddleware (header : option Jwt) (now : Date) (d : Db)
    : Response + User :=
  match header with
  | None | Some (JwtRaw "") =>
      inl (respond 401 (JsonError "Требуется авторизация"))
  | Some token =>
      match jwt_verify token JWT_SECRET now with
      | Throw _ => inl (respond 401 (JsonError "Неверный токен"))
      | Ok decoded =>
          match User_findById (jwt_userId decoded) d with
          | None => inl (respond 401 (JsonError "Пользователь не найден"))
          | Some user => inr user
          end
      end
  end.

(** A route registered with [authMiddleware]. *)
Definition protected (handler : User -> World -> Response * World)
    (header : option Jwt) (now : Date) (w : World) : Response * World :=
  match authMiddleware header now (db w) with
  | inl r => (r, w)
  | inr user => handler user w
  end.

(** ** The Telegram helper *)

(** What [axios.post] does: it resolves, or it rejects with an error that
    has a [message] and, when the server answered, may carry
    [response.data.description]. *)
Inductive AxiosOutcome : Type :=
  | AxiosResolved
  | AxiosRejected (description : option string) (message : string).

Record TelegramResult : Type := {
  success : bool;
  error : option string
}.

(** [sendTelegramNotification], lines 97-109. *)
Definition sendTelegramNotification (botToken chatId : jsval)
    (message : string) (outcome : AxiosOutcome) (w : World)
    : TelegramResult * World :=
  let w' := {| db := db w;
               outbox := outbox w ++ [{| call_botToken := botToken;
                                         call_chat_id := chatId;
                                         call_text := message |}] |} in
  match outcome with
  | AxiosResolved => ({| success := true; error := None |}, w')
  | AxiosRejected description message =>
      ({| success := false;
          error := Some (if truthy description then default "" description
                         else message) |}, w')
  end.

(** ** Auth routes *)

(** The fields that the two routes destructure from the body. *)
Record Credentials : Type := {
  cred_email : option string;
  cred_password : option string;
  cred_name : option string
}.

(** [POST /api/auth/register], lines 114-153. *)
Definition post_auth_register (body : Credentials) (now : Date)
    (fresh : ObjectId) (salt : string) (w : World) : Response * World :=
  match User_findOne_email (cred_email body) (db w) with
  | Some existingUser =>
      (respond 400 (JsonError "Email уже зарегистрирован"), w)
  | None =>
      let saved :=
        hashedPassword ← bcrypt_hash salt (cred_password body);
        let user := {| user_id := fresh; user_email := cred_email body;
                       user_password := Some hashedPassword;
                       user_name := cred_name body;
                       user_role := Some "manager";
                       user_createdAt := Some now |} in
        d ← User_save user (db w);
        Ok (user, d) in
      match saved with
      | Ok (user, d) =>
          let token := jwt_sign (user_id user) JWT_SECRET now in
          (respond 201 (JsonAuth token (public_view user)), with_db w d)
      | Throw _ => (respond 500 (JsonError "Ошибка регистрации"), w)
      end
  end.

(** [POST /api/auth/login], lines 156-188. *)
Definition post_auth_login (body : Credentials) (now : Date) (w : World)
    : Response * World :=
  match User_findOne_email (cred_email body) (db w) with
  | None => (respond 401 (JsonError "Неверный email или пароль"), w)
  | Some user =>
      match bcrypt_compare (cred_password body) (user_password user) with
      | Throw _ => (respond 500 (JsonError "Ошибка входа"), w)
      | Ok false => (respond 401 (JsonError "Неверный email или пароль"), w)
      | Ok true =>
          let token := jwt_sign (user_id user) JWT_SECRET now in
          (respond 200 (JsonAuth token (public_view user)), w)
      end
  end.

(** [GET /api/auth/me], lines 191-200. *)
Definition get_auth_me (user : User) (w : World) : Response * World :=
  (respond 200 (JsonUser (public_view user)), w).

(** ** Employee routes *)

(** [GET /api/employees], lines 205-212. *)
Definition get_employees (user : User) (w : World) : Response * World :=
  let employees := sort_desc emp_createdAt (Employee_find (user_id user) (db w)) in
  (respond 200 (JsonEmployees employees), w).

(** [POST /api/employees], lines 215-226. *)
Definition post_employees (body : gmap string jsval) (now : Date)
    (fresh : ObjectId) (user : User) (w : World) : Response * World :=
  let saved :=
    employee ← Employee_new fresh now
                 (spread_then body "userId" (JStr (user_id user)));
    d ← Employee_save employee (db w);
    Ok (employee, d) in
  match saved with
  | Ok (employee, d) => (respond 201 (JsonEmployee employee), with_db w d)
  | Throw _ => (respond 500 (JsonError "Ошибка создания сотрудника"), w)
  end.

(** [PUT /api/employees/:id], lines 229-245. *)
Definition put_employees_id (id : ObjectId) (body : gmap string jsval)
    (user : User) (w : World) : Response * World :=
  match Employee_findOneAndUpdate id (user_id user) body (db w) with
  | Ok (d, None) => (respond 404 (JsonError "Сотрудник не найден"), with_db w d)
  | Ok (d, Some employee) => (respond 200 (JsonEmployee employee), with_db w d)
  | Throw _ => (respond 500 (JsonError "Ошибка обновления сотрудника"), w)
  end.

(** [DELETE /api/employees/:id], lines 248-273. *)
Definition delete_employees_id (id : ObjectId) (user : User) (w : World)
    : Response * World :=
  let taskCount := Task_countDocuments (user_id user) id (db w) in
  if (0 <? taskCount)%nat
  then (respond 400 (JsonError "Нельзя удалить сотрудника с активными задачами"), w)
  else
    match Employee_findOneAndDelete id (user_id user) (db w) with
    | (d, None) => (respond 404 (JsonError "Сотрудник не найден"), with_db w d)
    | (d, Some employee) =>
        (respond 200 (JsonMessage "Сотрудник удалён"), with_db w d)
    end.

(** ** Notification texts *)

Definition LF : string := String "010"%char "".

(** [${x}] in a template literal; an unset path reads [undefined].  A
    path set to [null], which a document does not keep apart from an unset
    one, reads [null] in the source. *)
Definition interpolate (s : option string) : string := default "undefined" s.

(** [s.replace(/\s/g, '')].  A string is the sequence of the bytes of
    its UTF-8 encoding; the white space characters are U+0009 to U+000D
    and U+0020 (one byte), U+00A0 (two bytes), and U+1680, U+2000 to
    U+200A, U+2028, U+2029, U+202F, U+205F, U+3000 and U+FEFF (three
    bytes). *)
Definition is_space (c : ascii) : bool :=
  let n := nat_of_ascii c in
  ((9 <=? n)%nat && (n <=? 13)%nat) || (n =? 32)%nat.

Definition is_space2 (a b : ascii) : bool :=
  (nat_of_ascii a =? 194)%nat && (nat_of_ascii b =? 160)%nat.

Definition is_space3 (a b c : ascii) : bool :=
  let x := nat_of_ascii a in
  let y := nat_of_ascii b in
  let z := nat_of_ascii c in
  ((x =? 225)%nat && (y =? 154)%nat && (z =? 128)%nat)
  || ((x =? 226)%nat && (y =? 128)%nat
      && (((128 <=? z)%nat && (z <=? 138)%nat)
          || (z =? 168)%nat || (z =? 169)%nat || (z =? 175)%nat))
  || ((x =? 226)%nat && (y =? 129)%nat && (z =? 159)%nat)
  || ((x =? 227)%nat && (y =? 128)%nat && (z =? 128)%nat)
  || ((x =? 239)%nat && (y =? 187)%nat && (z =? 191)%nat).

Fixpoint remove_spaces (s : string) : string :=
  match s with
  | EmptyString => EmptyString
  | String a s1 =>
      if is_space a then remove_spaces s1
      else match s1 with
           | EmptyString => String a EmptyString
           | String b s2 =>
               if is_space2 a b then remove_spaces s2
               else match s2 with
                    | EmptyString => String a (remove_spaces s1)
                    | String c s3 =>
                        if is_space3 a b c then remove_spaces s3
                        else String a (remove_spaces s1)
                    end
           end
  end.

(** [new Date(d).toLocaleDateString('ru-RU')]. *)
Variable toLocaleDateString_ruRU : Date -> string.

(** [employee.telegramTag ? '@' + employee.telegramTag : employee.name] *)
Definition assignee_line (employee : Employee) : string :=
  if truthy (emp_telegramTag employee)
  then "@" +:+ default "" (emp_telegramTag employee)
  else interpolate (emp_name employee).

(** [employee.telegramTag || employee.name.replace(/\s/g, '')] *)
Definition assignee_hashtag (employee : Employee) : result string :=
  if truthy (emp_telegramTag employee)
  then Ok (default "" (emp_telegramTag employee))
  else match emp_name employee with
       | Some name => Ok (remove_spaces name)
       | None => Throw TypeError
       end.

Definition priority_label (priority : option string) : string :=
  if bool_decide (priority = Some "high") then "Высокий"
  else if bool_decide (priority = Some "medium") then "Средний"
  else "Низкий".

(** The text of lines 305-313. *)
Definition new_task_message (task : PopulatedTask) : result string :=
  match pt_employeeId task with
  | None => Throw TypeError
  | Some employee =>
      hashtag ← assignee_hashtag employee;
      Ok ("🆕 <b>Новая задача</b>" +:+ LF +:+ LF
          +:+ "👤 Исполнитель: " +:+ assignee_line employee +:+ LF
          +:+ "📋 Задача: " +:+ interpolate (task_title (pt_task task)) +:+ LF
          +:+ "📝 Описание: " +:+ interpolate (task_description (pt_task task)) +:+ LF
          +:+ "⏰ Срок: "
          +:+ match task_deadline (pt_task task) with
             | Some deadline => toLocaleDateString_ruRU deadline
             | None => "Invalid Date"
             end +:+ LF
          +:+ "🔥 Приоритет: " +:+ priority_label (task_priority (pt_task task))
          +:+ LF +:+ LF
          +:+ "#задача #" +:+ hashtag)
  end.

(** The text of lines 356-362.  [task] is [null] when the update matched no
    document. *)
Definition completed_message (task : option PopulatedTask) : result string :=
  match task ≫= pt_employeeId, task with
  | Some employee, Some task =>
      hashtag ← assignee_hashtag employee;
      Ok ("✅ <b>Задача выполнена</b>" +:+ LF +:+ LF
          +:+ "👤 Исполнитель: " +:+ assignee_line employee +:+ LF
          +:+ "📋 Задача: " +:+ interpolate (task_title (pt_task task)) +:+ LF
          +:+ "✨ Результат: "
          +:+ (if truthy (task_result (pt_task task))
              then default "" (task_result (pt_task task))
              else "Не указан") +:+ LF +:+ LF
          +:+ "#выполнено #" +:+ hashtag)
  | _, _ => Throw TypeError
  end.

(** [config && config.botToken && config.chatId] *)
Definition credentials (config : option Config) : option (string * string) :=
  match config with
  | Some config =>
      if truthy (cfg_botToken config) && truthy (cfg_chatId config)
      then Some (default "" (cfg_botToken config),
                 default "" (cfg_chatId config))
      else None
  | None => None
  end.

(** ** Task routes *)

(** [GET /api/tasks], lines 278-287. *)
Definition get_tasks (user : User) (w : World) : Response * World :=
  let tasks := sort_desc (fun t => task_createdAt (pt_task t))
                 (map (populate (db w)) (Task_find (user_id user) (db w))) in
  (respond 200 (JsonTasks tasks), w).

(** [POST /api/tasks], lines 290-323. *)
Definition post_tasks (body : gmap string jsval) (now : Date)
    (fresh : ObjectId) (outcome : AxiosOutcome) (user : User) (w : World)
    : Response * World :=
  let saved :=
    task ← Task_new fresh now
             (spread_then (spread_then body "userId" (JStr (user_id user)))
                "history" (JArr []));
    d ← Task_save task (db w);
    Ok (task, d) in
  match saved with
  | Throw _ => (respond 500 (JsonError "Ошибка создания задачи"), w)
  | Ok (task, d) =>
      let w := with_db w d in
      let task := populate d task in
      let notified :=
        match credentials (Config_findOne (user_id user) d) with
        | Some (botToken, chatId) =>
            message ← new_task_message task;
            Ok (snd (sendTelegramNotification (JStr botToken) (JStr chatId)
                       message outcome w))
        | None => Ok w
        end in
      match notified with
      | Ok w' => (respond 201 (JsonTask task), w')
      | Throw _ => (respond 500 (JsonError "Ошибка создания задачи"), w)
      end
  end.

(** [{ timestamp: new Date(), action: 'updated', changes: req.body }] *)
Definition historyEntry (now : Date) (body : gmap string jsval) : jsval :=
  JObj (<["changes" := JObj body]>
          (<["action" := JStr "updated"]>
             (<["timestamp" := JDate now]> ∅))).

(** [req.body.status === 'completed' && oldTask.status !== 'completed'] *)
Definition completes (body : gmap string jsval) (oldTask : Task) : bool :=
  match body !! "status" with
  | Some (JStr s) =>
      String.eqb s "completed"
      && negb (bool_decide (task_status oldTask = Some "completed"))
  | _ => false
  end.

(** [PUT /api/tasks/:id], lines 326-373. *)
Definition put_tasks_id (id : ObjectId) (body : gmap string jsval)
    (now : Date) (outcome : AxiosOutcome) (user : User) (w : World)
    : Response * World :=
  match Task_findOne id (user_id user) (db w) with
  | None => (respond 404 (JsonError "Задача не найдена"), w)
  | Some oldTask =>
      let update :=
        spread_then (spread_then body "updatedAt" (JDate now))
          "$push" (JObj {["history" := historyEntry now body]}) in
      match Task_findOneAndUpdate now id (user_id user) update (db w) with
      | Throw _ => (respond 500 (JsonError "Ошибка обновления задачи"), w)
      | Ok (d, task) =>
          let w := with_db w d in
          let task := populate d <$> task in
          let notified :=
            if completes body oldTask
            then match credentials (Config_findOne (user_id user) d) with
                 | Some (botToken, chatId) =>
                     message ← completed_message task;
                     Ok (snd (sendTelegramNotification (JStr botToken)
                                (JStr chatId) message outcome w))
                 | None => Ok w
                 end
            else Ok w in
          match notified with
          | Ok w' =>
              (respond 200 (match task with
                            | Some task => JsonTask task
                            | None => JsonNull
                            end), w')
          | Throw _ => (respond 500 (JsonError "Ошибка обновления задачи"), w)
          end
      end
  end.

(** [DELETE /api/tasks/:id], lines 376-391. *)
Definition delete_tasks_id (id : ObjectId) (user : User) (w : World)
    : Response * World :=
  match Task_findOneAndDelete id (user_id user) (db w) with
  | (d, None) => (respond 404 (JsonError "Задача не найдена"), with_db w d)
  | (d, Some task) => (respond 200 (JsonMessage "Задача удалена"), with_db w d)
  end.

(** ** Config routes *)

(** [GET /api/config], lines 396-409. *)
Definition get_config (fresh : ObjectId) (user : User) (w : World)
    : Response * World :=
  match Config_findOne (user_id user) (db w) with
  | Some config => (respond 200 (JsonConfig config), w)
  | None =>
      let saved :=
        config ← Config_new fresh
                   (<["chatId" := JStr ""]>
                      (<["botToken" := JStr ""]>
                         (<["userId" := JStr (user_id user)]> ∅)));
        d ← Config_save_new config (db w);
        Ok (config, d) in
      match saved with
      | Ok (config, d) => (respond 200 (JsonConfig config), with_db w d)
      | Throw _ => (respond 500 (JsonError "Ошибка получения конфигурации"), w)
      end
  end.

(** [PUT /api/config], lines 412-431. *)
Definition put_config (body : gmap string jsval) (fresh : ObjectId)
    (user : User) (w : World) : Response * World :=
  let saved :=
    match Config_findOne (user_id user) (db w) with
    | None =>
        config ← Config_new fresh
                   (then_spread "userId" (JStr (user_id user)) body);
        d ← Config_save_new config (db w);
        Ok (config, d)
    | Some config =>
        botToken ← init_path castString None (body !! "botToken");
        chatId ← init_path castString None (body !! "chatId");
        let config := {| cfg_id := cfg_id config;
                         cfg_userId := cfg_userId config;
                         cfg_botToken := botToken;
                         cfg_chatId := chatId |} in
        d ← Config_save config (db w);
        Ok (config, d)
    end in
  match saved with
  | Ok (config, d) => (respond 200 (JsonConfig config), with_db w d)
  | Throw _ => (respond 500 (JsonError "Ошибка обновления конфигурации"), w)
  end.

Definition js_truthy (v : option jsval) : bool :=
  match v with
  | None | Some JNull => false
  | Some (JBool b) => b
  | Some (JNum n) => negb (n =? 0)%Z
  | Some (JStr s) => negb (String.eqb s "")
  | Some (JDate _) | Some (JArr _) | Some (JObj _) => true
  end.

(** [POST /api/config/test-telegram], lines 434-456. *)
Definition post_config_test_telegram (body : gmap string jsval)
    (outcome : AxiosOutcome) (user : User) (w : World) : Response * World :=
  let botToken := body !! "botToken" in
  let chatId := body !! "chatId" in
  if negb (js_truthy botToken) || negb (js_truthy chatId)
  then (respond 400 (JsonError "Укажите токен бота и ID чата"), w)
  else
    let (result, w) :=
      sendTelegramNotification (default JNull botToken) (default JNull chatId)
        ("🎉 <b>Тестовое сообщение</b>" +:+ LF +:+ LF
         +:+ "Интеграция Telegram работает корректно!") outcome w in
    if success result
    then (respond 200 (JsonMessage "Сообщение отправлено успешно!"), w)
    else (respond 400 (JsonError (default "" (error result))), w).

(** ** Stats route *)

(** [new Date(t.deadline)]; a [null] deadline is the epoch. *)
Definition deadline_instant (t : Task) : Date := default 0%Z (task_deadline t).

(** [GET /api/stats], lines 460-477. *)
Definition get_stats (now : Date) (user : User) (w : World)
    : Response * World :=
  let tasks := Task_find (user_id user) (db w) in
  let stats :=
    {| stats_total := length tasks;
       stats_new :=
         length (List.filter
           (fun t => bool_decide (task_status t = Some "new")) tasks);
       stats_inProgress :=
         length (List.filter
           (fun t => bool_decide (task_status t = Some "in_progress")) tasks);
       stats_completed :=
         length (List.filter
           (fun t => bool_decide (task_status t = Some "completed")) tasks);
       stats_overdue :=
         length (List.filter
           (fun t => negb (bool_decide (task_status t = Some "completed"))
                     && (deadline_instant t <? now)%Z) tasks) |} in
  (respond 200 (JsonStats stats), w).

(** [GET /api/health], lines 480-482. *)
Definition get_health (w : World) : Response * World :=
  (respond 200 (JsonHealth "OK" "TaskFlow API работает"), w).

(** ** The authenticated routes *)

Inductive Request : Type :=
  | GET_auth_me
  | GET_employees
  | POST_employees (body : gmap string jsval) (fresh : ObjectId)
  | PUT_employees_id (id : ObjectId) (body : gmap string jsval)
  | DELETE_employees_id (id : ObjectId)
  | GET_tasks
  | POST_tasks (body : gmap string jsval) (fresh : ObjectId)
      (outcome : AxiosOutcome)
  | PUT_tasks_id (id : ObjectId) (body : gmap string jsval)
      (outcome : AxiosOutcome)
  | DELETE_tasks_id (id : ObjectId)
  | GET_config (fresh : ObjectId)
  | PUT_config (body : gmap string jsval) (fresh : ObjectId)
  | POST_config_test_telegram (body : gmap string jsval)
      (outcome : AxiosOutcome)
  | GET_stats.

Definition handler (req : Request) (now : Date)
    : User -> World -> Response * World :=
  match req with
  | GET_auth_me => get_auth_me
  | GET_employees => get_employees
  | POST_employees body fresh => post_employees body now fresh
  | PUT_employees_id id body => put_employees_id id body
  | DELETE_employees_id id => delete_employees_id id
  | GET_tasks => get_tasks
  | POST_tasks body fresh outcome => post_tasks body now fresh outcome
  | PUT_tasks_id id body outcome => put_tasks_id id body now outcome
  | DELETE_tasks_id id => delete_tasks_id id
  | GET_config fresh => get_config fresh
  | PUT_config body fresh => put_config body fresh
  | POST_config_test_telegram body outcome =>
      post_config_test_telegram body outcome
  | GET_stats => get_stats now
  end.

(** [app.METHOD(path, authMiddleware, handler)] *)
Definition serve (req : Request) (header : option Jwt) (now : Date)
    (w : World) : Response * World :=
  protected (handler req now) header now w.

(** ** What a response discloses *)

(** The documents that are the response, or its elements. *)
Definition employees_of (j : Json) : list Employee :=
  match j with
  | JsonEmployees l => l
  | JsonEmployee e => [e]
  | _ => []
  end.

Definition tasks_of (j : Json) : list Task :=
  match j with
  | JsonTasks l => map pt_task l
  | JsonTask t => [pt_task t]
  | _ => []
  end.

Definition configs_of (j : Json) : list Config :=
  match j with
  | JsonConfig c => [c]
  | _ => []
  end.

(** The assignees embedded in the tasks of the response. *)
Definition assignees_of (j : Json) : list Employee :=
  match j with
  | JsonTasks l => omap pt_employeeId l
  | JsonTask t => omap pt_employeeId [t]
  | _ => []
  end.

(** The List, Get, Update and Delete operations on Employee and Task
    records, and the Get of the Config record. *)
Definition reads_or_changes_records (req : Request) : bool :=
  match req with
  | GET_employees | PUT_employees_id _ _ | DELETE_employees_id _
  | GET_tasks | PUT_tasks_id _ _ _ | DELETE_tasks_id _
  | GET_config _ | GET_stats => true
  | _ => false
  end.

(** ** Statistics as the specification words them *)

Definition is_overdue (now : Date) (t : Task) : Prop :=
  task_status t ≠ Some "completed" ∧ (deadline_instant t < now)%Z.

#[global] Instance is_overdue_dec now t : Decision (is_overdue now t).
Proof. unfold is_overdue. apply _. Defined.

(** The number of the caller's tasks that satisfy [P]. *)
Definition count_tasks (uid : ObjectId) (P : Task -> Prop)
    `{!∀ t, Decision (P t)} (d : Db) : nat :=
  length (filter (fun t => task_userId t = Some uid ∧ P t) (tasks d)).

Definition stats_spec (uid : ObjectId) (now : Date) (d : Db) : Stats :=
  {| stats_total := count_tasks uid (fun _ => True) d;
     stats_new := count_tasks uid (fun t => task_status t = Some "new") d;
     stats_inProgress :=
       count_tasks uid (fun t => task_status t = Some "in_progress") d;
     stats_completed :=
       count_tasks uid (fun t => task_status t = Some "completed") d;
     stats_overdue := count_tasks uid (is_overdue now) d |}.

(** ** Sample data *)

(** Identifiers: 24 hexadecimal digits. *)
Definition alice_id : ObjectId := "0000000000000000000a11ce".
Definition bob_id : ObjectId := "000000000000000000000b0b".
Definition carol_id : ObjectId := "0000000000000000000000e1".
Definition dave_id : ObjectId := "0000000000000000000000e2".
Definition nobody_id : ObjectId := "0000000000000000000000e7".
Definition report_id : ObjectId := "0000000000000000000000f1".
Definition memo_id : ObjectId := "0000000000000000000000f2".
Definition audit_id : ObjectId := "0000000000000000000000f3".
Definition draft_id : ObjectId := "0000000000000000000000f4".
Definition alice_config_id : ObjectId := "0000000000000000000000c1".
Definition other_config_id : ObjectId := "0000000000000000000000c2".
Definition erin_id : ObjectId := "00000000000000000000e141".

Definition alice : User :=
  {| user_id := alice_id; user_email := Some "alice@example.org";
     user_password := Some "$2a$10$saltAdigestA"; user_name := Some "Alice";
     user_role := Some "manager"; user_createdAt := Some 1000%Z |}.

Definition bob : User :=
  {| user_id := bob_id; user_email := Some "bob@example.org";
     user_password := Some "$2a$10$saltBdigestB"; user_name := Some "Bob";
     user_role := Some "manager"; user_createdAt := Some 2000%Z |}.

(** An employee of Bob's. *)
Definition carol : Employee :=
  {| emp_id := carol_id; emp_userId := Some bob_id; emp_name := Some "Carol";
     emp_position := Some "Engineer"; emp_telegramTag := None;
     emp_createdAt := Some 3000%Z |}.

(** An employee of Alice's. *)
Definition dave : Employee :=
  {| emp_id := dave_id; emp_userId := Some alice_id; emp_name := Some "Dave";
     emp_position := None; emp_telegramTag := Some "dave";
     emp_createdAt := Some 4000%Z |}.

Definition db0 : Db :=
  {| users := [alice; bob]; employees := [carol; dave]; tasks := [];
     configs := [] |}.

Definition world0 : World := {| db := db0; outbox := [] |}.

Definition alice_config : Config :=
  {| cfg_id := alice_config_id; cfg_userId := Some alice_id; cfg_botToken := Some "123:ABC";
     cfg_chatId := Some "-1001" |}.

(** The same world once Alice has configured the bot. *)
Definition world1 : World :=
  {| db := set_configs db0 [alice_config]; outbox := [] |}.

(** A task body as the client sends it. *)
Definition task_body (employeeId : ObjectId) (deadline : Z)
    : gmap string jsval :=
  <["title" := JStr "Report"]>
    (<["employeeId" := JStr employeeId]>
       (<["deadline" := JNum deadline]>
          (<["priority" := JStr "high"]> ∅))).

(** A task of Alice's, assigned to Dave. *)
Definition report : Task :=
  {| task_id := report_id; task_userId := Some alice_id; task_title := Some "Report";
     task_description := None; task_employeeId := Some dave_id;
     task_deadline := Some 5000%Z; task_priority := Some "high";
     task_status := Some "new"; task_result := None;
     task_completedAt := None; task_history := [];
     task_createdAt := Some 6000%Z; task_updatedAt := Some 6000%Z |}.

Definition world2 : World :=
  {| db := set_tasks (set_configs db0 [alice_config]) [report]; outbox := [] |}.

(** A task of Alice's, assigned to Carol, who is Bob's employee. *)
Definition audit : Task :=
  {| task_id := audit_id; task_userId := Some alice_id; task_title := Some "Report";
     task_description := None; task_employeeId := Some carol_id;
     task_deadline := Some 5000%Z; task_priority := Some "high";
     task_status := Some "new"; task_result := None;
     task_completedAt := None; task_history := [];
     task_createdAt := Some 6000%Z; task_updatedAt := Some 6000%Z |}.

Definition world3 : World := {| db := set_tasks db0 [audit]; outbox := [] |}.

(** A task of Alice's whose assignee does not exist. *)
Definition draft : Task :=
  {| task_id := draft_id; task_userId := Some alice_id;
     task_title := Some "Report"; task_description := None;
     task_employeeId := Some nobody_id; task_deadline := Some 5000%Z;
     task_priority := Some "high"; task_status := Some "new";
     task_result := None; task_completedAt := None; task_history := [];
     task_createdAt := Some 6000%Z; task_updatedAt := Some 6000%Z |}.

Definition world5 : World :=
  {| db := set_tasks (set_configs db0 [alice_config]) [draft]; outbox := [] |}.

(** A token of Alice's, issued at 6000 under the default secret. *)
Definition alice_token : Jwt :=
  JwtSigned "your-secret-key-change-in-production"
    {| jwt_userId := Some alice_id; jwt_iat := 6%Z;
       jwt_exp := Some 2592006%Z |}.

Definition completed_body : gmap string jsval :=
  {["status" := JStr "completed"]}.
Definition in_progress_body : gmap string jsval :=
  {["status" := JStr "in_progress"]}.
Definition reassign_body : gmap string jsval := {["userId" := JStr bob_id]}.
(** A task body that names another owner and a history. *)
Definition forged_body : gmap string jsval :=
  <["userId" := JStr bob_id]>
    (<["history" := JArr [JObj ∅]]> (task_body dave_id 5000)).

Definition unknown_login : Credentials :=
  {| cred_email := Some "eve@example.org"; cred_password := Some "guess";
     cred_name := None |}.
Definition wrong_login : Credentials :=
  {| cred_email := Some "alice@example.org"; cred_password := Some "guess";
     cred_name := None |}.
Definition erin_registration : Credentials :=
  {| cred_email := Some "erin@example.org"; cred_password := Some "secret";
     cred_name := Some "Erin" |}.
Definition nameless_registration : Credentials :=
  {| cred_email := Some "erin@example.org"; cred_password := Some "secret";
     cred_name := None |}.

Definition no_dates : string -> option Z := fun _ => None.
Definition plain_date : Date -> string := fun d => pretty d.
Definition plain_digest : string -> string -> string :=
  fun salt password => salt +:+ password.

(** The account that [erin_registration] creates at 9000 with the
    identifier e141 and the salt pepper. *)
Definition erin : User :=
  {| user_id := erin_id; user_email := Some "erin@example.org";
     user_password :=
       Some ("$2a$10$" +:+ "pepper" +:+ plain_digest "pepper" "secret");
     user_name := Some "Erin"; user_role := Some "manager";
     user_createdAt := Some 9000%Z |}.

Definition world4 : World :=
  with_db world0 (set_users (db world0) (users (db world0) ++ [erin])).

(** * The vocabulary of the properties *)

(** Some task of the caller's references the employee. *)
Definition has_tasks (uid id : ObjectId) (d : Db) : Prop :=
  exists t, t ∈ tasks d /\ task_userId t = Some uid
            /\ task_employeeId t = Some id.

(** The employee exists under the caller's ownership. *)
Definition has_employee (uid id : ObjectId) (d : Db) : Prop :=
  exists e, e ∈ employees d /\ emp_id e = id /\ emp_userId e = Some uid.

(** Inversion of a chain of binds that ends in [Ok]. *)
Ltac bind_inv H :=
  repeat match type of H with
         | mbind _ ?m = Ok _ =>
             let E := fresh "E" in
             destruct m eqn:E; simpl in H; [|discriminate H]
         | (match ?m with Ok _ => _ | Throw _ => _ end) = Ok _ =>
             let E := fresh "E" in
             destruct m eqn:E; simpl in H; [|discriminate H]
         end.

(** The update document that Task Update sends. *)
Definition task_update (now : Date) (body : gmap string jsval)
    : gmap string jsval :=
  spread_then (spread_then body "updatedAt" (JDate now))
    "$push" (JObj {["history" := historyEntry now body]}).

(** The history entry that Task Update appends. *)
Definition updated_entry (now : Date) (body : gmap string jsval)
    : HistoryEntry :=
  {| h_timestamp := Some now; h_action := Some "updated";
     h_changes := minimize false (JObj body) |}.

(** The caller's Config has both a bot token and a chat identifier. *)
Definition has_credentials (uid : ObjectId) (d : Db) (botToken chatId : string)
    : Prop :=
  exists c, Config_findOne uid d = Some c
            /\ cfg_botToken c = Some botToken /\ botToken ≠ ""
            /\ cfg_chatId c = Some chatId /\ chatId ≠ "".

(** Every route of the application. *)
Inductive Call : Type :=
  | POST_auth_register (body : Credentials) (fresh : ObjectId) (salt : string)
  | POST_auth_login (body : Credentials)
  | GET_health
  | Authorized (req : Request) (header : option Jwt).

Definition app (c : Call) (now : Date) (w : World) : Response * World :=
  match c with
  | POST_auth_register body fresh salt =>
      post_auth_register body now fresh salt w
  | POST_auth_login body => post_auth_login body now w
  | GET_health => get_health w
  | Authorized req header => serve req header now w
  end.

(** One request leaves a collection as it is, inserts one document, updates
    one document in place or deletes one document. *)
Inductive edit {A} (inserted : A -> Prop) (updated : A -> A -> Prop)
    (deleted : A -> Prop) : list A -> list A -> Prop :=
  | edit_none l : edit inserted updated deleted l l
  | edit_insert l x :
      inserted x -> edit inserted updated deleted l (l ++ [x])
  | edit_update l1 x l2 x' :
      updated x x' ->
      edit inserted updated deleted (l1 ++ x :: l2) (l1 ++ x' :: l2)
  | edit_delete l1 x l2 :
      deleted x -> edit inserted updated deleted (l1 ++ x :: l2) (l1 ++ l2).

Definition owns_employee (uid : ObjectId) (e : Employee) : Prop :=
  emp_userId e = Some uid.
Definition owns_task (uid : ObjectId) (t : Task) : Prop :=
  task_userId t = Some uid.
Definition owns_config (uid : ObjectId) (c : Config) : Prop :=
  cfg_userId c = Some uid.

(** A task keeps its identifier and its history only grows. *)
Definition same_task (t t' : Task) : Prop :=
  task_id t' = task_id t /\ task_history t `prefix_of` task_history t'.

(** The changes that a request of the caller [uid] makes. *)
Definition employee_edit (uid : ObjectId) : relation (list Employee) :=
  edit (owns_employee uid)
    (fun e e' => owns_employee uid e /\ emp_id e' = emp_id e)
    (owns_employee uid).

Definition task_edit (uid : ObjectId) (req : Request) : relation (list Task) :=
  edit (fun t => owns_task uid t /\ task_history t = [])
    (fun t t' => owns_task uid t /\ same_task t t')
    (fun t => owns_task uid t /\ req = DELETE_tasks_id (task_id t)).

Definition config_edit (uid : ObjectId) : relation (list Config) :=
  edit (owns_config uid) (fun _ _ => False) (fun _ => False).

(** One Task Update of a run: its body, its caller, its instant and what
    happens to the notification. *)
Record UpdateCall : Type := {
  upd_body : gmap string jsval;
  upd_outcome : AxiosOutcome;
  upd_header : option Jwt;
  upd_now : Date
}.

(** A run of Task Updates of the task [id], one after the other. *)
Fixpoint run_updates (id : ObjectId) (us : list UpdateCall) (w : World)
    : list Response * World :=
  match us with
  | [] => ([], w)
  | u :: us =>
      let (r, w) := serve (PUT_tasks_id id (upd_body u) (upd_outcome u))
                      (upd_header u) (upd_now u) w in
      let (rs, w) := run_updates id us w in
      (r :: rs, w)
  end.

(** The reason that the helper reports for a rejected call. *)
Definition failure_reason (description : option string) (message : string)
    : string :=
  match description with
  | Some d => if decide (d = "") then message else d
  | None => message
  end.

(** Some account has this email. *)
Definition email_taken (email : option string) (d : Db) : Prop :=
  exists u, u ∈ users d /\ user_email u = email.

(** The password is the one that the hash was made of. *)
Definition password_matches (password hash : string) : Prop :=
  "$2a$10$" +:+ salt_of hash +:+ bcrypt_digest (salt_of hash) password = hash.

(** The token that Register and Login issue for the account [uid]. *)
Definition issued_token (uid : ObjectId) (now : Date) : Jwt :=
  JwtSigned JWT_SECRET
    {| jwt_userId := Some uid; jwt_iat := (now / 1000)%Z;
       jwt_exp := Some (now / 1000 + 2592000)%Z |}.

(** The response discloses employees of the caller only, as records of
    their own or as assignees embedded in tasks. *)
Definition discloses_own_employees_only (uid : ObjectId) (r : Response)
    : Prop :=
  forall e, e ∈ employees_of (json r) ++ assignees_of (json r) ->
            emp_userId e = Some uid.

(** ** Sessions, runs of calls and the state of the collections *)

(** The token has not reached its expiry, if it has one. *)
Definition unexpired (claims : JwtClaims) (now : Date) : Prop :=
  forall exp, jwt_exp claims = Some exp -> (now / 1000 < exp)%Z.

(** A run of calls, each at its own instant. *)
Fixpoint run (cs : list (Call * Date)) (w : World) : World :=
  match cs with
  | [] => w
  | (c, now) :: cs => run cs (snd (app c now w))
  end.

(** [a] is not newer than [b]; a document without an instant counts as
    older than every document that has one. *)
Definition not_newer (a b : option Date) : Prop :=
  match a, b with
  | None, _ => True
  | Some _, None => False
  | Some x, Some y => (x <= y)%Z
  end.

(** Newest first: no document comes after one that is older than it. *)
Definition newest_first {A} (key : A -> option Date) (l : list A) : Prop :=
  forall (i j : nat) (x y : A),
    (i < j)%nat -> l !! i = Some x -> l !! j = Some y ->
    not_newer (key y) (key x).

(** The task exists under the caller's ownership. *)
Definition has_task (uid id : ObjectId) (d : Db) : Prop :=
  exists t, t ∈ tasks d /\ task_id t = id /\ task_userId t = Some uid.

(** The unique indexes of the four collections hold: [_id] in each of
    them, [email] of User and [userId] of Config. *)
Definition unique_indexes (d : Db) : Prop :=
  NoDup (map user_id (users d)) /\ NoDup (map user_email (users d))
  /\ NoDup (map emp_id (employees d))
  /\ NoDup (map task_id (tasks d))
  /\ NoDup (map cfg_id (configs d)) /\ NoDup (map cfg_userId (configs d)).

(** The document that Employee Create and Task Create build. *)
Definition employee_doc (body : gmap string jsval) (uid : ObjectId)
    : gmap string jsval :=
  spread_then body "userId" (JStr uid).
Definition task_doc (body : gmap string jsval) (uid : ObjectId)
    : gmap string jsval :=
  spread_then (spread_then body "userId" (JStr uid)) "history" (JArr []).

(** The status codes that the handlers of the authenticated routes use. *)
Definition handler_statuses : list nat := [200; 201; 400; 404; 500]%nat.

(** ** The requests that the embedding covers *)

Fixpoint all_chars (P : ascii -> bool) (s : string) : bool :=
  match s with
  | EmptyString => true
  | String c s => P c && all_chars P s
  end.

Definition is_hex_digit (c : ascii) : bool :=
  let n := nat_of_ascii c in
  ((48 <=? n)%nat && (n <=? 57)%nat) || ((97 <=? n)%nat && (n <=? 102)%nat).

(** An identifier in the form in which the database holds it: 24
    hexadecimal digits in lower case.  A route parameter in this form is
    its own cast. *)
Definition canonical_id (s : string) : bool :=
  (String.length s =? 24)%nat && all_chars is_hex_digit s.

(** A key that names a field and nothing else: it is not empty, does not
    start an update operator, is not a dotted path, is not one of the
    property names that the mapper skips, and is neither the version key
    nor the virtual [id] that the mapper adds to a schema. *)
Definition plain_key (k : string) : bool :=
  match k with
  | EmptyString => false
  | String c _ => negb (Ascii.eqb c "$")
  end
  && all_chars (fun c => negb (Ascii.eqb c ".")) k
  && negb (bool_decide
             (k ∈ ["__proto__"; "constructor"; "prototype"; "__v"; "id"])).

Definition plain_keys (body : gmap string jsval) : Prop :=
  map_Forall (fun k _ => plain_key k = true) body.

(** A value of a JSON text without parts: [null], a boolean, a number or
    a string. *)
Definition scalar (v : jsval) : bool :=
  match v with
  | JNull | JBool _ | JNum _ | JStr _ => true
  | JDate _ | JArr _ | JObj _ => false
  end.

Definition flat (body : gmap string jsval) : Prop :=
  map_Forall (fun _ v => scalar v = true) body.

#[global] Instance plain_keys_dec body : Decision (plain_keys body).
Proof. unfold plain_keys. apply _. Defined.

#[global] Instance flat_dec body : Decision (flat body).
Proof. unfold flat. apply _. Defined.

(** A field of a body that is left out or is a string. *)
Definition absent_or_string (given : option jsval) : Prop :=
  given = None \/ exists s, given = Some (JStr s).

(** A field of a body that is left out or is one of the listed strings. *)
Definition absent_or_among (values : list string) (given : option jsval)
    : Prop :=
  given = None \/ exists s, given = Some (JStr s) /\ s ∈ values.

(** ** Further sample data *)

(** Logins that submit no password, for an account that exists and for one
    that does not. *)
Definition passwordless_known : Credentials :=
  {| cred_email := Some "alice@example.org"; cred_password := None;
     cred_name := None |}.
Definition passwordless_unknown : Credentials :=
  {| cred_email := Some "eve@example.org"; cred_password := None;
     cred_name := None |}.


(** A salt as bcrypt generates it: 22 characters. *)
Definition salt22 : string := "N9qo8uLOickgx2ZMRZoMye".

(** The token that Register or Login issues for Erin during the tenth
    second, under the default secret, and the view of her account. *)
Definition erin_token : Jwt :=
  JwtSigned "your-secret-key-change-in-production"
    {| jwt_userId := Some erin_id; jwt_iat := 9%Z;
       jwt_exp := Some 2592009%Z |}.
Definition erin_view : UserView :=
  {| view_id := erin_id; view_email := Some "erin@example.org";
     view_name := Some "Erin"; view_role := Some "manager" |}.

(** An employee that Alice adds at 9100. *)
Definition frank_id : ObjectId := "0000000000000000000000e3".
Definition employee_body : gmap string jsval := {["name" := JStr "Frank"]}.
(** The same body with a creation instant that is not a date. *)
Definition undated_employee_body : gmap string jsval :=
  <["createdAt" := JStr "soon"]> employee_body.
(** The same body with another owner written into it. *)
Definition forged_employee_body : gmap string jsval :=
  <["userId" := JStr bob_id]> employee_body.
Definition frank : Employee :=
  {| emp_id := frank_id; emp_userId := Some alice_id;
     emp_name := Some "Frank"; emp_position := None; emp_telegramTag := None;
     emp_createdAt := Some 9100%Z |}.

(** Config bodies: the credentials of a bot, and the same for another
    owner. *)
Definition bot_body : gmap string jsval :=
  <["botToken" := JStr "999:XYZ"]> {["chatId" := JStr "-2002"]}.

(** Erin registers; Alice adds an employee, opens her Config, creates a
    task for Dave, updates it and tries to delete Dave. *)
Definition sample_run : list (Call * Date) :=
  [(POST_auth_register erin_registration erin_id salt22, 9000%Z);
   (Authorized (POST_employees employee_body frank_id) (Some alice_token),
    9100%Z);
   (Authorized (GET_config alice_config_id) (Some alice_token), 9200%Z);
   (Authorized (POST_tasks (task_body dave_id 5000) report_id AxiosResolved)
      (Some alice_token), 9300%Z);
   (Authorized (PUT_tasks_id report_id completed_body AxiosResolved)
      (Some alice_token), 9400%Z);
   (Authorized (DELETE_employees_id dave_id) (Some alice_token), 9500%Z)].

(** * Properties *)

(** ** Lists and collections *)

Lemma find_first_Some {A} (P : A -> bool) (l : list A) (x : A) :
  find_first P l = Some x ->
  exists l1 l2, l = l1 ++ x :: l2 /\ P x = true
                /\ (forall y, y ∈ l1 -> P y = false).
Proof.
  unfold find_first. induction l as [|y l IH]; simpl; [discriminate|].
  destruct (P y) eqn:Hy.
  - intros [= ->]. exists [], l. split; [done|]. split; [done|].
    intros y' Hy'. by apply elem_of_nil in Hy'.
  - intros H. destruct (IH H) as (l1 & l2 & -> & Hx & Hl1).
    exists (y :: l1), l2. split; [done|]. split; [done|].
    intros y' [->|Hy']%elem_of_cons; auto.
Qed.

Lemma find_first_None {A} (P : A -> bool) (l : list A) :
  find_first P l = None <-> forall y, y ∈ l -> P y = false.
Proof.
  unfold find_first. induction l as [|y l IH]; simpl.
  - split; [|done]. intros _ y Hy. by apply elem_of_nil in Hy.
  - destruct (P y) eqn:Hy.
    + split; [discriminate|]. intros H.
      specialize (H y (list_elem_of_here _ _)). congruence.
    + rewrite IH. split.
      * intros H y' [->|Hy']%elem_of_cons; auto.
      * intros H y' Hy'. apply H. by apply list_elem_of_further.
Qed.

Lemma find_first_is_Some {A} (P : A -> bool) (l : list A) (x : A) :
  x ∈ l -> P x = true -> is_Some (find_first P l).
Proof.
  intros Hx HP. destruct (find_first P l) eqn:E; [by eexists|].
  rewrite find_first_None in E. rewrite (E x Hx) in HP. discriminate.
Qed.

Lemma replace_first_split {A} (P : A -> bool) (z : A) (l1 l2 : list A) (x : A) :
  P x = true -> (forall y, y ∈ l1 -> P y = false) ->
  replace_first P z (l1 ++ x :: l2) = l1 ++ z :: l2.
Proof.
  intros Hx. induction l1 as [|y l1 IH]; simpl; intros Hl1.
  - by rewrite Hx.
  - rewrite (Hl1 y (list_elem_of_here _ _)). f_equal. apply IH.
    intros y' Hy'. apply Hl1. by apply list_elem_of_further.
Qed.

Lemma remove_first_split {A} (P : A -> bool) (l1 l2 : list A) (x : A) :
  P x = true -> (forall y, y ∈ l1 -> P y = false) ->
  remove_first P (l1 ++ x :: l2) = l1 ++ l2.
Proof.
  intros Hx. induction l1 as [|y l1 IH]; simpl; intros Hl1.
  - by rewrite Hx.
  - rewrite (Hl1 y (list_elem_of_here _ _)). f_equal. apply IH.
    intros y' Hy'. apply Hl1. by apply list_elem_of_further.
Qed.

Lemma elem_of_List_filter {A} (P : A -> bool) (l : list A) (x : A) :
  x ∈ List.filter P l <-> x ∈ l /\ P x = true.
Proof. rewrite !list_elem_of_In. apply filter_In. Qed.

Lemma insert_desc_perm {A} (key : A -> option Date) (x : A) (l : list A) :
  insert_desc key x l ≡ₚ x :: l.
Proof.
  induction l as [|y l IH]; simpl; [done|].
  destruct (date_leb (key y) (key x)); [done|].
  rewrite IH. apply Permutation_swap.
Qed.

Lemma sort_desc_perm {A} (key : A -> option Date) (l : list A) :
  sort_desc key l ≡ₚ l.
Proof.
  unfold sort_desc. induction l as [|x l IH]; simpl; [done|].
  by rewrite insert_desc_perm, IH.
Qed.

Lemma elem_of_sort_desc {A} (key : A -> option Date) (l : list A) (x : A) :
  x ∈ sort_desc key l <-> x ∈ l.
Proof. by rewrite sort_desc_perm. Qed.

Lemma with_db_id (w : World) : with_db w (db w) = w.
Proof. by destruct w. Qed.

Lemma owned_by_true (uid : ObjectId) (owner : option ObjectId) :
  owned_by uid owner = true <-> owner = Some uid.
Proof. unfold owned_by. apply bool_decide_eq_true. Qed.

Lemma is_doc_true (id uid i : ObjectId) (owner : option ObjectId) :
  is_doc id uid i owner = true <-> i = id /\ owner = Some uid.
Proof.
  unfold is_doc. rewrite andb_true_iff, bool_decide_eq_true, owned_by_true.
  done.
Qed.

Lemma is_doc_false (id uid i : ObjectId) (owner : option ObjectId) :
  is_doc id uid i owner = false <-> ~ (i = id /\ owner = Some uid).
Proof. rewrite <- is_doc_true. by destruct (is_doc id uid i owner). Qed.

(** ** Deleting an employee *)

Lemma Task_countDocuments_pos (uid id : ObjectId) (d : Db) :
  (0 <? Task_countDocuments uid id d)%nat = true <-> has_tasks uid id d.
Proof.
  unfold Task_countDocuments, has_tasks. rewrite Nat.ltb_lt.
  set (P := fun t => owned_by uid (task_userId t)
                     && bool_decide (task_employeeId t = Some id)).
  assert (HP : forall t, P t = true <->
                 task_userId t = Some uid /\ task_employeeId t = Some id).
  { intros t. unfold P.
    by rewrite andb_true_iff, owned_by_true, bool_decide_eq_true. }
  split.
  - intros Hlen. destruct (List.filter P (tasks d)) as [|t l] eqn:E.
    + by apply Nat.lt_irrefl in Hlen.
    + assert (Ht : t ∈ List.filter P (tasks d)) by (rewrite E; left).
      apply elem_of_List_filter in Ht as [Ht HPt]. apply HP in HPt.
      exists t. by destruct HPt.
  - intros (t & Ht & Hu & He).
    assert (Hin : t ∈ List.filter P (tasks d)).
    { apply elem_of_List_filter. split; [done|]. by apply HP. }
    destruct (List.filter P (tasks d)); [by apply elem_of_nil in Hin|].
    apply Nat.lt_0_succ.
Qed.


(** ** Statistics *)

Lemma count_tasks_filter (uid : ObjectId) (P : Task -> Prop)
    `{!forall t, Decision (P t)} (b : Task -> bool) (d : Db) :
  (forall t, b t = true <-> P t) ->
  length (List.filter b (Task_find uid d)) = count_tasks uid P d.
Proof.
  intros Hb. unfold Task_find, count_tasks.
  induction (tasks d) as [|t l IH]; [done|].
  rewrite filter_cons. simpl.
  destruct (owned_by uid (task_userId t)) eqn:Ho.
  - apply owned_by_true in Ho. simpl. destruct (b t) eqn:Hbt.
    + rewrite decide_True by (split; [done|by apply Hb]). simpl. by rewrite IH.
    + rewrite decide_False; [done|]. intros [_ HP]. apply Hb in HP. congruence.
  - rewrite decide_False; [done|]. intros [Hu _].
    apply owned_by_true in Hu. congruence.
Qed.

Lemma count_tasks_snoc (uid : ObjectId) (P : Task -> Prop)
    `{!forall t, Decision (P t)} (d : Db) (t : Task) :
  count_tasks uid P (set_tasks d (tasks d ++ [t])) =
    (count_tasks uid P d
     + if decide (task_userId t = Some uid /\ P t) then 1 else 0)%nat.
Proof.
  unfold count_tasks. simpl. rewrite filter_app, length_app.
  f_equal. rewrite filter_cons, filter_nil. by case_decide.
Qed.

(** C7.  Stats answers with the counts, over the caller's tasks at the
    time of the request, of all tasks, of the tasks in each status, and of
    the overdue tasks (not completed, deadline strictly before now); a task
    of the caller's with a past deadline adds one to the overdue count when
    its status is new and nothing when its status is completed. *)
Theorem stats_counts (now : Date) (user : User) (w : World) :
  get_stats now user w =
    (respond 200 (JsonStats (stats_spec (user_id user) now (db w))), w)
  /\ forall (t : Task) (deadline : Date),
       task_userId t = Some (user_id user) ->
       task_deadline t = Some deadline -> (deadline < now)%Z ->
       let d' := set_tasks (db w) (tasks (db w) ++ [t]) in
       (task_status t = Some "new" ->
        stats_overdue (stats_spec (user_id user) now d') =
          S (stats_overdue (stats_spec (user_id user) now (db w))))
       /\ (task_status t = Some "completed" ->
           stats_overdue (stats_spec (user_id user) now d') =
             stats_overdue (stats_spec (user_id user) now (db w))).
Proof.
  split.
  - unfold get_stats, stats_spec. do 3 f_equal.
    f_equal; try (apply count_tasks_filter; intros t;
                  by rewrite bool_decide_eq_true).
    + rewrite <- (count_tasks_filter _ (fun _ => True) (fun _ => true)); [|done].
      f_equal. induction (Task_find _ _) as [|t l IH]; simpl; congruence.
    + apply count_tasks_filter. intros t. unfold is_overdue.
      rewrite andb_true_iff, negb_true_iff, bool_decide_eq_false, Z.ltb_lt.
      done.
  - intros t deadline Hown Hdl Hlt d'. subst d'. simpl.
    rewrite count_tasks_snoc.
    assert (Hinst : deadline_instant t = deadline).
    { unfold deadline_instant. by rewrite Hdl. }
    split; intros Hst.
    + rewrite decide_True; [lia|]. unfold is_overdue.
      rewrite Hst, Hinst. repeat split; [done|done|lia].
    + rewrite decide_False; [lia|]. unfold is_overdue. intros [_ [Hne _]].
      by apply Hne.
Qed.

(** ** Creating records *)

Lemma Employee_save_Ok (e : Employee) (d d' : Db) :
  Employee_save e d = Ok d' ->
  d' = set_employees d (employees d ++ [e]) /\ Employee_validate e = true.
Proof.
  unfold Employee_save. destruct (Employee_validate e); simpl; [|discriminate].
  case_bool_decide; [discriminate|]. by intros [= <-].
Qed.

Lemma Task_save_Ok (t : Task) (d d' : Db) :
  Task_save t d = Ok d' ->
  d' = set_tasks d (tasks d ++ [t]) /\ Task_validate t = true
  /\ task_id t ∉ map task_id (tasks d).
Proof.
  unfold Task_save. destruct (Task_validate t); simpl; [|discriminate].
  case_bool_decide; [discriminate|]. by intros [= <-].
Qed.

Lemma Employee_new_userId (fresh : ObjectId) (now : Date)
    (body : gmap string jsval) (uid : ObjectId) (e : Employee) :
  Employee_new fresh now (spread_then body "userId" (JStr uid)) = Ok e ->
  emp_userId e = Some uid.
Proof.
  unfold Employee_new, spread_then. rewrite lookup_insert_eq.
  intros H. simpl in H. bind_inv H. by injection H as <-.
Qed.

Lemma Task_new_userId_history (fresh : ObjectId) (now : Date)
    (body : gmap string jsval) (uid : ObjectId) (t : Task) :
  Task_new fresh now
    (spread_then (spread_then body "userId" (JStr uid)) "history" (JArr []))
    = Ok t ->
  task_userId t = Some uid /\ task_history t = [].
Proof.
  unfold Task_new, spread_then. rewrite lookup_insert_eq.
  rewrite (lookup_insert_ne _ "history" "userId") by done.
  rewrite lookup_insert_eq.
  intros H. simpl in H. bind_inv H. by injection H as <-.
Qed.

(** The database after Employee Create and after Task Create. *)
Lemma post_employees_db (body : gmap string jsval) (now : Date)
    (fresh : ObjectId) (user : User) (w : World) :
  snd (post_employees body now fresh user w) = w
  \/ exists e,
       snd (post_employees body now fresh user w)
       = with_db w (set_employees (db w) (employees (db w) ++ [e]))
       /\ emp_userId e = Some (user_id user).
Proof.
  unfold post_employees.
  destruct (Employee_new _ _ _) as [e|] eqn:Hnew; simpl; [|by left].
  destruct (Employee_save e (db w)) as [d|] eqn:Hsave; simpl; [|by left].
  right. exists e. apply Employee_save_Ok in Hsave as [-> _].
  by apply Employee_new_userId in Hnew.
Qed.

Lemma post_tasks_db (body : gmap string jsval) (now : Date)
    (fresh : ObjectId) (outcome : AxiosOutcome) (user : User) (w : World) :
  db (snd (post_tasks body now fresh outcome user w)) = db w
  \/ exists t,
       db (snd (post_tasks body now fresh outcome user w))
       = set_tasks (db w) (tasks (db w) ++ [t])
       /\ task_userId t = Some (user_id user) /\ task_history t = [].
Proof.
  unfold post_tasks.
  destruct (Task_new _ _ _) as [t|] eqn:Hnew; simpl; [|by left].
  destruct (Task_save t (db w)) as [d|] eqn:Hsave; simpl; [|by left].
  apply Task_save_Ok in Hsave as (-> & _ & _).
  apply Task_new_userId_history in Hnew as [Hu Hh].
  right. exists t. split; [|done].
  destruct (credentials _) as [[botToken chatId]|]; simpl; [|done].
  destruct (new_task_message _) as [message|]; simpl; [|done].
  by destruct outcome.
Qed.

Lemma truthy_Some (s : option string) :
  truthy s = true <-> exists v, s = Some v /\ v ≠ "".
Proof.
  destruct s as [v|]; simpl.
  - rewrite negb_true_iff, String.eqb_neq. split; [eauto|].
    by intros (? & [= <-] & ?).
  - split; [discriminate|]. by intros (? & ? & ?).
Qed.


Lemma credentials_Some (uid : ObjectId) (d : Db) (botToken chatId : string) :
  credentials (Config_findOne uid d) = Some (botToken, chatId)
  <-> has_credentials uid d botToken chatId.
Proof.
  unfold credentials, has_credentials.
  destruct (Config_findOne uid d) as [c|].
  - destruct (truthy (cfg_botToken c)) eqn:Ht; simpl.
    + destruct (truthy (cfg_chatId c)) eqn:Hc; simpl.
      * apply truthy_Some in Ht as (tok & Ht & Htok).
        apply truthy_Some in Hc as (chat & Hc & Hchat).
        rewrite Ht, Hc. simpl. split.
        -- intros [= <- <-]. by exists c.
        -- intros (c' & [= ->] & Ht' & _ & Hc' & _). congruence.
      * split; [discriminate|].
        intros (c' & [= ->] & _ & _ & Hc' & Hne).
        assert (truthy (cfg_chatId c') = true) by (apply truthy_Some; eauto).
        congruence.
    + split; [discriminate|].
      intros (c' & [= ->] & Ht' & Hne & _).
      assert (truthy (cfg_botToken c') = true) by (apply truthy_Some; eauto).
      congruence.
  - split; [discriminate|]. by intros (c' & ? & _).
Qed.


Lemma employee_doc_lookup (body : gmap string jsval) (uid : ObjectId)
    (k : string) :
  k ≠ "userId" -> employee_doc body uid !! k = body !! k.
Proof. intros H. unfold employee_doc, spread_then. by rewrite lookup_insert_ne. Qed.


Lemma task_doc_lookup (body : gmap string jsval) (uid : ObjectId)
    (k : string) :
  k ≠ "userId" -> k ≠ "history" -> task_doc body uid !! k = body !! k.
Proof.
  intros H1 H2. unfold task_doc, spread_then. by rewrite !lookup_insert_ne.
Qed.


Lemma Task_save_valid (t : Task) (d : Db) :
  Task_validate t = true -> task_id t ∉ map task_id (tasks d) ->
  Task_save t d = Ok (set_tasks d (tasks d ++ [t])).
Proof.
  intros Hv Hid. unfold Task_save. rewrite Hv. simpl.
  by rewrite bool_decide_eq_false_2.
Qed.


(** The string that a field of a body is cast to, when it is left out
    or is a string. *)
Lemma init_path_absent_or_string (default : option string)
    (given : option jsval) :
  absent_or_string given ->
  init_path castString default given
  = Ok (match given with Some (JStr s) => Some s | _ => default end).
Proof. by intros [->|[s ->]]. Qed.

Lemma init_path_absent_or_among (values : list string)
    (default : option string) (given : option jsval) :
  absent_or_among values given ->
  init_path castString default given
  = Ok (match given with Some (JStr s) => Some s | _ => default end)
  /\ (default = None \/ (exists v, default = Some v /\ v ∈ values) ->
      in_enum values
        (match given with Some (JStr s) => Some s | _ => default end) = true).
Proof.
  intros [->|(s & -> & Hs)]; simpl; (split; [done|]).
  - intros [->|(v & -> & Hv)]; simpl; [done|]. by apply bool_decide_eq_true.
  - intros _. by apply bool_decide_eq_true.
Qed.

(** C9.  Employee Create and Task Create either fail and change nothing,
    or persist exactly one new record whose owner is the caller (and, for a
    task, whose history is empty), whatever the body contains, a userId or
    a history included.  And they do persist, for a body whose keys name
    fields: Employee Create with a name and a free identifier answers 201
    and stores the employee under the caller, and Task Create with a
    title, an assignee reference and a deadline stores the task under the
    caller with an empty history, whatever userId or history the body
    carries. *)
Theorem create_attaches_caller (body : gmap string jsval) (now : Date)
    (fresh : ObjectId) (outcome : AxiosOutcome) (user : User) (w : World) :
  (let (r, w') := post_employees body now fresh user w in
   (status r = 500 /\ w' = w)
   \/ exists e, r = respond 201 (JsonEmployee e)
                /\ w' = with_db w (set_employees (db w) (employees (db w) ++ [e]))
                /\ emp_userId e = Some (user_id user))
  /\ (let (r, w') := post_tasks body now fresh outcome user w in
      (status r = 500 /\ w' = w)
      \/ exists t, db w' = set_tasks (db w) (tasks (db w) ++ [t])
                   /\ task_userId t = Some (user_id user)
                   /\ task_history t = []
                   /\ (status r = 500
                       \/ r = respond 201 (JsonTask (populate (db w') t))))
  /\ (forall name,
        plain_keys body ->
        body !! "name" = Some (JStr name) -> name ≠ "" ->
        absent_or_string (body !! "position") ->
        absent_or_string (body !! "telegramTag") ->
        body !! "createdAt" = None -> body !! "_id" = None ->
        fresh ∉ map emp_id (employees (db w)) ->
        exists e,
          post_employees body now fresh user w
          = (respond 201 (JsonEmployee e),
             with_db w (set_employees (db w) (employees (db w) ++ [e])))
          /\ emp_id e = fresh /\ emp_userId e = Some (user_id user)
          /\ emp_name e = Some name /\ emp_createdAt e = Some now)
  /\ (forall title eid deadline,
        plain_keys body ->
        body !! "title" = Some (JStr title) -> title ≠ "" ->
        body !! "employeeId" = Some (JStr eid) -> canonical_id eid = true ->
        body !! "deadline" = Some (JNum deadline) ->
        (Z.abs deadline <= max_time)%Z ->
        absent_or_string (body !! "description") ->
        absent_or_string (body !! "result") ->
        absent_or_among priority_enum (body !! "priority") ->
        absent_or_among status_enum (body !! "status") ->
        body !! "completedAt" = None -> body !! "createdAt" = None ->
        body !! "updatedAt" = None -> body !! "_id" = None ->
        fresh ∉ map task_id (tasks (db w)) ->
        exists t,
          db (snd (post_tasks body now fresh outcome user w))
          = set_tasks (db w) (tasks (db w) ++ [t])
          /\ task_id t = fresh /\ task_userId t = Some (user_id user)
          /\ task_history t = []
          /\ task_title t = Some title /\ task_employeeId t = Some eid
          /\ task_deadline t = Some deadline
          /\ ((forall botToken chatId,
                 ~ has_credentials (user_id user) (db w) botToken chatId) ->
              fst (post_tasks body now fresh outcome user w)
              = respond 201
                  (JsonTask
                     (populate (set_tasks (db w) (tasks (db w) ++ [t])) t)))).
Proof.
  split; [|split; [|split]].
  - unfold post_employees.
    destruct (Employee_new _ _ _) as [e|] eqn:Hnew; simpl; [|by left].
    destruct (Employee_save e (db w)) as [d|] eqn:Hsave; simpl; [|by left].
    right. exists e. apply Employee_save_Ok in Hsave as [-> _].
    by apply Employee_new_userId in Hnew.
  - unfold post_tasks.
    destruct (Task_new _ _ _) as [t|] eqn:Hnew; simpl; [|by left].
    destruct (Task_save t (db w)) as [d|] eqn:Hsave; simpl; [|by left].
    apply Task_save_Ok in Hsave as (-> & _ & _).
    apply Task_new_userId_history in Hnew as [Hu Hh].
    destruct (credentials _) as [[botToken chatId]|]; simpl.
    + destruct (new_task_message _) as [message|]; simpl.
      * right. exists t. destruct outcome; simpl; repeat split; try done;
          by right.
      * right. exists t. repeat split; try done. by left.
    + right. exists t. repeat split; try done. by right.
  - intros name _ Hname Hne Hpos Htag Hcreated Hid Hfresh.
    set (str := fun given : option jsval =>
                  match given with Some (JStr s) => Some s | _ => None end).
    set (e := {| emp_id := fresh; emp_userId := Some (user_id user);
                 emp_name := Some name;
                 emp_position := str (body !! "position");
                 emp_telegramTag := str (body !! "telegramTag");
                 emp_createdAt := Some now |}).
    assert (Hnew : Employee_new fresh now (employee_doc body (user_id user))
                   = Ok e).
    { unfold Employee_new.
      rewrite (employee_doc_lookup body _ "_id"),
        (employee_doc_lookup body _ "name"),
        (employee_doc_lookup body _ "position"),
        (employee_doc_lookup body _ "telegramTag"),
        (employee_doc_lookup body _ "createdAt") by done.
      unfold employee_doc, spread_then. rewrite lookup_insert_eq.
      rewrite Hid, Hname, Hcreated.
      rewrite (init_path_absent_or_string None _ Hpos),
        (init_path_absent_or_string None _ Htag). done. }
    assert (Hsave : Employee_save e (db w)
                    = Ok (set_employees (db w) (employees (db w) ++ [e]))).
    { unfold Employee_save, Employee_validate. simpl.
      rewrite (proj2 (String.eqb_neq _ _) Hne). simpl.
      by rewrite bool_decide_eq_false_2. }
    exists e. split; [|done].
    unfold post_employees. fold (employee_doc body (user_id user)).
    rewrite Hnew. simpl. by rewrite Hsave.
  - intros title eid deadline _ Htitle Hne Heid _ Hdeadline Hrange Hdesc
      Hres
      Hprio Hstatus Hcompleted Hcreated Hupdated Hid Hfresh.
    set (str := fun (default : option string) (given : option jsval) =>
                  match given with Some (JStr s) => Some s | _ => default end).
    set (t := {| task_id := fresh; task_userId := Some (user_id user);
                 task_title := Some title;
                 task_description := str None (body !! "description");
                 task_employeeId := Some eid; task_deadline := Some deadline;
                 task_priority := str (Some "medium") (body !! "priority");
                 task_status := str (Some "new") (body !! "status");
                 task_result := str None (body !! "result");
                 task_completedAt := None; task_history := [];
                 task_createdAt := Some now; task_updatedAt := Some now |}).
    destruct (init_path_absent_or_among _ (Some "medium") _ Hprio)
      as [Hp Hpe].
    destruct (init_path_absent_or_among _ (Some "new") _ Hstatus)
      as [Hs Hse].
    assert (Hnew : Task_new fresh now (task_doc body (user_id user)) = Ok t).
    { unfold Task_new.
      rewrite (task_doc_lookup body _ "_id"),
        (task_doc_lookup body _ "title"),
        (task_doc_lookup body _ "description"),
        (task_doc_lookup body _ "employeeId"),
        (task_doc_lookup body _ "deadline"),
        (task_doc_lookup body _ "priority"),
        (task_doc_lookup body _ "status"),
        (task_doc_lookup body _ "result"),
        (task_doc_lookup body _ "completedAt"),
        (task_doc_lookup body _ "createdAt"),
        (task_doc_lookup body _ "updatedAt") by done.
      unfold task_doc, spread_then. rewrite lookup_insert_eq.
      rewrite (lookup_insert_ne _ "history" "userId") by done.
      rewrite lookup_insert_eq.
      rewrite Hid, Htitle, Heid, Hdeadline, Hcompleted, Hcreated, Hupdated.
      rewrite (init_path_absent_or_string None _ Hdesc),
        (init_path_absent_or_string None _ Hres), Hp, Hs.
      simpl. by rewrite (proj2 (Z.leb_le _ _) Hrange). }
    assert (Hsave : Task_save t (db w)
                    = Ok (set_tasks (db w) (tasks (db w) ++ [t]))).
    { apply Task_save_valid; [|done].
      unfold Task_validate. simpl.
      rewrite (proj2 (String.eqb_neq _ _) Hne). simpl.
      rewrite andb_true_iff. split.
      - apply Hpe. right. exists "medium". split; [done|].
        unfold priority_enum. right. left.
      - apply Hse. right. exists "new". split; [done|].
        unfold status_enum. left. }
    exists t. unfold post_tasks. fold (task_doc body (user_id user)).
    rewrite Hnew. simpl. rewrite Hsave. simpl.
    change (Config_findOne (user_id user)
              (set_tasks (db w) (tasks (db w) ++ [t])))
      with (Config_findOne (user_id user) (db w)).
    destruct (credentials _) as [[botToken chatId]|] eqn:Hc; simpl.
    + split.
      { destruct (new_task_message _); simpl; [|done]. by destruct outcome. }
      do 6 (split; [done|]). intros Hnone.
      apply credentials_Some in Hc. by destruct (Hnone botToken chatId).
    + by repeat split.
Qed.

(** ** Updating records *)

Lemma Employee_findOneAndUpdate_Ok (id uid : ObjectId)
    (update : gmap string jsval) (d d' : Db) (oe : option Employee) :
  Employee_findOneAndUpdate id uid update d = Ok (d', oe) ->
  let P := fun e => is_doc id uid (emp_id e) (emp_userId e) in
  match oe with
  | None => d' = d /\ find_first P (employees d) = None
  | Some e' =>
      exists l1 e l2,
        employees d = l1 ++ e :: l2 /\ P e = true
        /\ (forall y, y ∈ l1 -> P y = false)
        /\ Employee_set update e = Ok e'
        /\ d' = set_employees d (l1 ++ e' :: l2)
  end.
Proof.
  intros H P. unfold Employee_findOneAndUpdate in H.
  destruct (Employee_set update blank_employee); simpl in H; [|discriminate].
  fold P in H. destruct (find_first P (employees d)) as [e|] eqn:Hfind.
  - destruct (check_immutable_id _ _); simpl in H; [|discriminate].
    destruct (Employee_set update e) as [e'|] eqn:Hset; simpl in H;
      [|discriminate].
    injection H as <- <-.
    apply find_first_Some in Hfind as (l1 & l2 & Hsplit & HPe & Hl1).
    exists l1, e, l2. repeat split; try done.
    by rewrite Hsplit, replace_first_split.
  - by injection H as <- <-.
Qed.

Lemma Task_findOneAndUpdate_Ok (now : Date) (id uid : ObjectId)
    (update : gmap string jsval) (d d' : Db) (ot : option Task) :
  Task_findOneAndUpdate now id uid update d = Ok (d', ot) ->
  let P := fun t => is_doc id uid (task_id t) (task_userId t) in
  match ot with
  | None => d' = d /\ find_first P (tasks d) = None
  | Some t' =>
      exists l1 t l2,
        find_first P (tasks d) = Some t
        /\ tasks d = l1 ++ t :: l2 /\ P t = true
        /\ (forall y, y ∈ l1 -> P y = false)
        /\ Task_applyUpdate now update t = Ok t'
        /\ d' = set_tasks d (l1 ++ t' :: l2)
  end.
Proof.
  intros H P. unfold Task_findOneAndUpdate in H.
  destruct (Task_applyUpdate now update blank_task); simpl in H; [|discriminate].
  fold P in H. destruct (find_first P (tasks d)) as [t|] eqn:Hfind.
  - destruct (check_immutable_id _ _); simpl in H; [|discriminate].
    destruct (Task_applyUpdate now update t) as [t'|] eqn:Hset; simpl in H;
      [|discriminate].
    injection H as <- <-.
    destruct (find_first_Some _ _ _ Hfind) as (l1 & l2 & Hsplit & HPe & Hl1).
    exists l1, t, l2. repeat split; try done.
    by rewrite Hsplit, replace_first_split.
  - by injection H as <- <-.
Qed.

Lemma task_update_lookup (now : Date) (body : gmap string jsval) (k : string) :
  k ≠ "$push" -> k ≠ "updatedAt" -> task_update now body !! k = body !! k.
Proof.
  intros H1 H2. unfold task_update, spread_then.
  by rewrite !lookup_insert_ne.
Qed.

Lemma castPush_task_update (now : Date) (body : gmap string jsval) :
  castPush now (task_update now body) = Ok [updated_entry now body].
Proof.
  unfold castPush, task_update, spread_then. rewrite lookup_insert_eq.
  rewrite lookup_singleton_eq. unfold historyEntry. simpl.
  rewrite (lookup_insert_ne _ "changes" "timestamp") by done.
  rewrite (lookup_insert_ne _ "action" "timestamp") by done.
  rewrite lookup_insert_eq. simpl.
  rewrite (lookup_insert_ne _ "changes" "action") by done.
  rewrite lookup_insert_eq. simpl.
  by rewrite lookup_insert_eq.
Qed.

(** What the update of Task Update does to the task it matches. *)
Lemma Task_applyUpdate_task_update (now : Date) (body : gmap string jsval)
    (t t' : Task) :
  Task_applyUpdate now (task_update now body) t = Ok t' ->
  body !! "history" = None
  /\ task_id t' = task_id t
  /\ task_history t' = task_history t ++ [updated_entry now body]
  /\ set_path castObjectId (task_userId t) (body !! "userId")
     = Ok (task_userId t')
  /\ set_path castString (task_title t) (body !! "title") = Ok (task_title t')
  /\ set_path castString (task_description t) (body !! "description")
     = Ok (task_description t')
  /\ set_path castObjectId (task_employeeId t) (body !! "employeeId")
     = Ok (task_employeeId t')
  /\ set_path castString (task_priority t) (body !! "priority")
     = Ok (task_priority t')
  /\ set_path castString (task_status t) (body !! "status")
     = Ok (task_status t')
  /\ set_path castString (task_result t) (body !! "result")
     = Ok (task_result t').
Proof.
  unfold Task_applyUpdate. rewrite castPush_task_update. simpl.
  rewrite (task_update_lookup now body "history") by done.
  destruct (body !! "history") as [v|] eqn:Hh; simpl.
  { discriminate. }
  destruct (Task_set now (task_update now body) t) as [a|] eqn:E; simpl;
    [|discriminate].
  intros [= <-]. unfold Task_set in E.
  rewrite (task_update_lookup now body "userId"),
    (task_update_lookup now body "title"),
    (task_update_lookup now body "description"),
    (task_update_lookup now body "employeeId"),
    (task_update_lookup now body "deadline"),
    (task_update_lookup now body "priority"),
    (task_update_lookup now body "status"),
    (task_update_lookup now body "result"),
    (task_update_lookup now body "completedAt"),
    (task_update_lookup now body "history"),
    (task_update_lookup now body "createdAt") in E by done.
  rewrite Hh in E. simpl in E. bind_inv E. by injection E as <-.
Qed.

Lemma set_path_JStr_string (stored : option string) (given : option jsval)
    (new : option string) (s : string) :
  set_path castString stored given = Ok new -> given = Some (JStr s) ->
  new = Some s.
Proof. intros H ->. simpl in H. by injection H. Qed.

Lemma set_path_JStr_id (stored : option ObjectId) (given : option jsval)
    (new : option ObjectId) (s : string) :
  set_path castObjectId stored given = Ok new -> given = Some (JStr s) ->
  new = Some s.
Proof. intros H ->. simpl in H. by injection H. Qed.

Lemma Config_findOne_set_tasks (uid : ObjectId) (d : Db) (l : list Task) :
  Config_findOne uid (set_tasks d l) = Config_findOne uid d.
Proof. done. Qed.

(** The outcomes of Task Update. *)
Lemma put_tasks_id_cases (id : ObjectId) (body : gmap string jsval)
    (now : Date) (outcome : AxiosOutcome) (user : User) (w w' : World)
    (r : Response) :
  put_tasks_id id body now outcome user w = (r, w') ->
  (Task_findOne id (user_id user) (db w) = None
   /\ r = respond 404 (JsonError "Задача не найдена") /\ w' = w)
  \/ exists oldTask,
       Task_findOne id (user_id user) (db w) = Some oldTask
       /\ ((r = respond 500 (JsonError "Ошибка обновления задачи") /\ w' = w)
           \/ exists l1 l2 t',
                tasks (db w) = l1 ++ oldTask :: l2
                /\ (forall y, y ∈ l1 ->
                      is_doc id (user_id user) (task_id y) (task_userId y)
                      = false)
                /\ Task_applyUpdate now (task_update now body) oldTask = Ok t'
                /\ db w' = set_tasks (db w) (l1 ++ t' :: l2)
                /\ ((r = respond 500 (JsonError "Ошибка обновления задачи")
                     /\ outbox w' = outbox w)
                    \/ (r = respond 200 (JsonTask (populate (db w') t'))
                        /\ exists calls,
                             outbox w' = outbox w ++ calls
                             /\ match credentials
                                        (Config_findOne (user_id user) (db w))
                                with
                                | Some (botToken, chatId) =>
                                    if completes body oldTask
                                    then exists message,
                                           completed_message
                                             (Some (populate (db w') t'))
                                           = Ok message
                                           /\ calls =
                                             [{| call_botToken := JStr botToken;
                                                 call_chat_id := JStr chatId;
                                                 call_text := message |}]
                                    else calls = []
                                | None => calls = []
                                end))).
Proof.
  unfold put_tasks_id.
  destruct (Task_findOne id (user_id user) (db w)) as [oldTask|] eqn:Hold.
  2: { intros [= <- <-]. by left. }
  intros H. right. exists oldTask. split; [done|].
  fold (task_update now body) in H.
  destruct (Task_findOneAndUpdate _ _ _ _ _) as [[d ot]|] eqn:Hupd.
  2: { injection H as <- <-. by left. }
  apply Task_findOneAndUpdate_Ok in Hupd. simpl in Hupd.
  unfold Task_findOne in Hold. destruct ot as [t'|].
  2: { destruct Hupd as [_ Hnone]. congruence. }
  destruct Hupd as (l1 & t & l2 & Hfind & Hsplit & HPt & Hl1 & Happly & ->).
  rewrite Hold in Hfind. injection Hfind as <-.
  right. exists l1, l2, t'. split; [done|]. split; [done|]. split; [done|].
  simpl in H. rewrite Config_findOne_set_tasks in H.
  destruct (completes body oldTask).
  - destruct (credentials _) as [[botToken chatId]|].
    + destruct (completed_message _) as [message|] eqn:Hmsg; simpl in H.
      * injection H as <- <-. destruct outcome; simpl; (split; [done|]);
          right; (split; [done|]); eexists; (split; [done|]); by eexists.
      * injection H as <- <-. simpl. split; [done|]. by left.
    + injection H as <- <-. simpl. split; [done|]. right. split; [done|].
      exists []. by rewrite app_nil_r.
  - injection H as <- <-. simpl. split; [done|]. right. split; [done|].
    exists []. rewrite app_nil_r. split; [done|].
    by destruct (credentials _) as [[? ?]|].
Qed.

(** ** Completion notifications *)

Lemma completes_true (body : gmap string jsval) (oldTask : Task) :
  completes body oldTask = true
  <-> body !! "status" = Some (JStr "completed")
      /\ task_status oldTask ≠ Some "completed".
Proof.
  unfold completes. destruct (body !! "status") as [[]|];
    try (split; [discriminate|by intros [? _]]).
  rewrite andb_true_iff, String.eqb_eq, negb_true_iff, bool_decide_eq_false.
  split; [by intros [-> ?]|]. by intros [[= ->] ?].
Qed.

(** C3.  A successful Task Update makes exactly one notification attempt,
    with the completion text and the caller's credentials, when the
    submitted status is completed, the status before was not, and the
    caller's Config has a bot token and a chat identifier; it makes no
    attempt in every other case. *)
Theorem completion_notification (id : ObjectId) (body : gmap string jsval)
    (now : Date) (outcome : AxiosOutcome) (user : User) (w w' : World)
    (r : Response) :
  put_tasks_id id body now outcome user w = (r, w') ->
  status r = 200 ->
  exists oldTask calls,
    Task_findOne id (user_id user) (db w) = Some oldTask
    /\ outbox w' = outbox w ++ calls
    /\ (forall botToken chatId,
          body !! "status" = Some (JStr "completed") ->
          task_status oldTask ≠ Some "completed" ->
          has_credentials (user_id user) (db w) botToken chatId ->
          exists t message,
            json r = JsonTask t
            /\ completed_message (Some t) = Ok message
            /\ calls = [{| call_botToken := JStr botToken;
                           call_chat_id := JStr chatId;
                           call_text := message |}])
    /\ (~ (body !! "status" = Some (JStr "completed")
           /\ task_status oldTask ≠ Some "completed"
           /\ exists botToken chatId,
                has_credentials (user_id user) (db w) botToken chatId) ->
        calls = []).
Proof.
  intros H Hok. apply put_tasks_id_cases in H as [(_ & -> & _)|H];
    [discriminate|].
  destruct H as (oldTask & Hold & [[-> _]|H]); [discriminate|].
  destruct H as (l1 & l2 & t' & _ & _ & _ & _ & [[-> _]|H]); [discriminate|].
  destruct H as (-> & calls & Hout & Hcalls).
  exists oldTask, calls. split; [done|]. split; [done|]. split.
  - intros botToken chatId Hbody Hprior Hcred.
    apply credentials_Some in Hcred. rewrite Hcred in Hcalls.
    rewrite (proj2 (completes_true body oldTask)) in Hcalls by done.
    destruct Hcalls as (message & Hmsg & ->). by eexists _, _.
  - intros Hnot. destruct (credentials _) as [[botToken chatId]|] eqn:Hcred;
      [|done].
    destruct (completes body oldTask) eqn:Hc; [|done].
    destruct Hnot. apply completes_true in Hc as [? ?].
    apply credentials_Some in Hcred. eauto.
Qed.

(** ** How a request changes a collection *)

Lemma edit_keeps_others {A} (inserted : A -> Prop) (updated : A -> A -> Prop)
    (deleted : A -> Prop) (l l' : list A) (x : A) :
  edit inserted updated deleted l l' -> x ∈ l ->
  (forall x', ~ updated x x') -> ~ deleted x -> x ∈ l'.
Proof.
  intros Hedit Hx Hupd Hdel.
  destruct Hedit as [l|l y Hy|l1 y l2 y' Hy|l1 y l2 Hy].
  - done.
  - apply elem_of_app. by left.
  - apply elem_of_app in Hx as [Hx|Hx]; apply elem_of_app; [by left|right].
    apply elem_of_cons in Hx as [->|Hx]; [by apply Hupd in Hy|].
    by apply list_elem_of_further.
  - apply elem_of_app in Hx as [Hx|Hx]; apply elem_of_app; [by left|right].
    by apply elem_of_cons in Hx as [->|Hx].
Qed.

Lemma Task_findOneAndDelete_edit (id uid : ObjectId) (d : Db) :
  task_edit uid (DELETE_tasks_id id) (tasks d)
    (tasks (fst (Task_findOneAndDelete id uid d)))
  /\ employees (fst (Task_findOneAndDelete id uid d)) = employees d
  /\ configs (fst (Task_findOneAndDelete id uid d)) = configs d.
Proof.
  unfold Task_findOneAndDelete.
  destruct (find_first _ (tasks d)) as [t|] eqn:Hfind; simpl;
    [|by split; [constructor|]].
  apply find_first_Some in Hfind as (l1 & l2 & Hsplit & HPt & Hl1).
  rewrite Hsplit. rewrite remove_first_split by done.
  split; [|done]. constructor. apply is_doc_true in HPt as [<- ?]. done.
Qed.

Lemma Employee_findOneAndDelete_edit (id uid : ObjectId) (d : Db) :
  employee_edit uid (employees d)
    (employees (fst (Employee_findOneAndDelete id uid d)))
  /\ tasks (fst (Employee_findOneAndDelete id uid d)) = tasks d
  /\ configs (fst (Employee_findOneAndDelete id uid d)) = configs d.
Proof.
  unfold Employee_findOneAndDelete.
  destruct (find_first _ (employees d)) as [e|] eqn:Hfind; simpl;
    [|by split; [constructor|]].
  apply find_first_Some in Hfind as (l1 & l2 & Hsplit & HPe & Hl1).
  rewrite Hsplit. rewrite remove_first_split by done.
  split; [|done]. constructor. by apply is_doc_true in HPe as [? ?].
Qed.

Lemma Employee_set_id (update : gmap string jsval) (e e' : Employee) :
  Employee_set update e = Ok e' -> emp_id e' = emp_id e.
Proof. unfold Employee_set. intros H. bind_inv H. by injection H as <-. Qed.

Lemma Config_new_blank (fresh uid : ObjectId) :
  Config_new fresh
    (<["chatId" := JStr ""]>
       (<["botToken" := JStr ""]> (<["userId" := JStr uid]> ∅)))
  = Ok {| cfg_id := fresh; cfg_userId := Some uid; cfg_botToken := Some "";
          cfg_chatId := Some "" |}.
Proof.
  unfold Config_new.
  rewrite (lookup_insert_ne _ "chatId" "_id"),
    (lookup_insert_ne _ "botToken" "_id"),
    (lookup_insert_ne _ "userId" "_id"), lookup_empty by done.
  rewrite (lookup_insert_ne _ "chatId" "userId"),
    (lookup_insert_ne _ "botToken" "userId"), lookup_insert_eq by done.
  rewrite (lookup_insert_ne _ "chatId" "botToken"), lookup_insert_eq by done.
  by rewrite lookup_insert_eq.
Qed.

(** The three collections after a request of an authenticated caller
    (the Config collection: for every route but Config Update). *)
Lemma handler_edits (req : Request) (now : Date) (user : User) (w : World) :
  let w' := snd (handler req now user w) in
  employee_edit (user_id user) (employees (db w)) (employees (db w'))
  /\ task_edit (user_id user) req (tasks (db w)) (tasks (db w'))
  /\ (match req with PUT_config _ _ => False | _ => True end ->
      config_edit (user_id user) (configs (db w)) (configs (db w'))).
Proof.
  unfold employee_edit, task_edit, config_edit. destruct req; simpl.
  - (* GET /api/auth/me *) repeat split; constructor.
  - (* GET /api/employees *) repeat split; constructor.
  - (* POST /api/employees *)
    destruct (post_employees_db body now fresh user w)
      as [->|(e & -> & Hown)]; simpl; repeat split; by constructor.
  - (* PUT /api/employees/:id *)
    unfold put_employees_id.
    destruct (Employee_findOneAndUpdate _ _ _ _) as [[d oe]|] eqn:Hupd;
      [|repeat split; constructor].
    apply Employee_findOneAndUpdate_Ok in Hupd. simpl in Hupd.
    destruct oe as [e'|]; simpl.
    + destruct Hupd as (l1 & e & l2 & Hsplit & HPe & _ & Hset & ->). simpl.
      rewrite Hsplit. apply is_doc_true in HPe as [_ Hown].
      apply Employee_set_id in Hset.
      repeat split; by constructor.
    + destruct Hupd as [-> _]. repeat split; constructor.
  - (* DELETE /api/employees/:id *)
    unfold delete_employees_id. destruct (0 <? _)%nat;
      [repeat split; constructor|].
    pose proof (Employee_findOneAndDelete_edit id (user_id user) (db w))
      as (He & Ht & Hc).
    destruct (Employee_findOneAndDelete _ _ _) as [d [e|]]; simpl in *;
      rewrite Ht, Hc; repeat split; done || constructor.
  - (* GET /api/tasks *) repeat split; constructor.
  - (* POST /api/tasks *)
    destruct (post_tasks_db body now fresh outcome user w)
      as [->|(t & -> & Hown & Hhist)]; simpl; repeat split; by constructor.
  - (* PUT /api/tasks/:id *)
    destruct (put_tasks_id id body now outcome user w) as [r w'] eqn:H.
    simpl. apply put_tasks_id_cases in H as [(_ & _ & ->)|H];
      [repeat split; constructor|].
    destruct H as (oldTask & Hold & [[_ ->]|H]); [repeat split; constructor|].
    destruct H as (l1 & l2 & t' & Hsplit & _ & Happly & -> & _). simpl.
    apply find_first_Some in Hold as (_ & _ & _ & HPo & _).
    apply is_doc_true in HPo as [_ Hown].
    apply Task_applyUpdate_task_update in Happly as (_ & Hid & Hhist & _).
    rewrite Hsplit. split; [constructor|]. split; [|intros _; constructor].
    constructor. split; [done|]. split; [done|].
    rewrite Hhist. by apply prefix_app_r.
  - (* DELETE /api/tasks/:id *)
    unfold delete_tasks_id.
    pose proof (Task_findOneAndDelete_edit id (user_id user) (db w))
      as (Ht & He & Hc).
    destruct (Task_findOneAndDelete _ _ _) as [d [t|]]; simpl in *;
      rewrite He, Hc; repeat split; done || constructor.
  - (* GET /api/config *)
    unfold get_config. destruct (Config_findOne _ _); simpl;
      [repeat split; constructor|].
    rewrite Config_new_blank. unfold Config_save_new. simpl.
    repeat (case_bool_decide; simpl); repeat split; try constructor.
    done.
  - (* PUT /api/config *)
    unfold put_config.
    destruct (Config_findOne _ _) as [config|]; simpl.
    + destruct (init_path castString None (body !! "botToken")); simpl;
        [|repeat split; done || constructor].
      destruct (init_path castString None (body !! "chatId")); simpl;
        [|repeat split; done || constructor].
      unfold Config_save, Config_validate. simpl.
      destruct (required (cfg_userId config));
        simpl; repeat split; done || constructor.
    + destruct (Config_new _ _) as [config|]; simpl;
        [|repeat split; done || constructor].
      destruct (Config_save_new _ _) as [d|] eqn:Hsave; simpl;
        [|repeat split; done || constructor].
      unfold Config_save_new in Hsave.
      destruct (Config_validate config); simpl in Hsave; [|discriminate].
      repeat (case_bool_decide; simpl in Hsave; try discriminate).
      injection Hsave as <-. repeat split; done || constructor.
  - (* POST /api/config/test-telegram *)
    unfold post_config_test_telegram.
    destruct (negb _ || negb _); simpl; [repeat split; constructor|].
    destruct outcome; simpl; repeat split; constructor.
  - (* GET /api/stats *) repeat split; constructor.
Qed.

(** ** The history of a task *)

Lemma authMiddleware_inl (header : option Jwt) (now : Date) (d : Db)
    (r : Response) :
  authMiddleware header now d = inl r -> status r = 401.
Proof.
  unfold authMiddleware. intros H.
  repeat case_match; simplify_eq; done.
Qed.



Lemma post_auth_login_world (body : Credentials) (now : Date) (w : World) :
  snd (post_auth_login body now w) = w.
Proof.
  unfold post_auth_login. destruct (User_findOne_email _ _); [|done].
  by destruct (bcrypt_compare _ _) as [[]|].
Qed.


Lemma split_unique {A} (key : A -> ObjectId) (l1 l2 k1 k2 : list A) (x y : A) :
  l1 ++ x :: l2 = k1 ++ y :: k2 -> key x = key y ->
  key x ∉ map key l1 -> key x ∉ map key l2 ->
  l1 = k1 /\ x = y /\ l2 = k2.
Proof.
  revert k1. induction l1 as [|a l1 IH]; intros k1 Heq Hkey Hl1 Hl2.
  - destruct k1 as [|b k1]; simpl in Heq.
    + by injection Heq as -> ->.
    + injection Heq as -> ->. destruct Hl2. rewrite Hkey.
      apply list_elem_of_fmap_2. apply elem_of_app. right. left.
  - destruct k1 as [|b k1]; simpl in Heq.
    + injection Heq as -> _. destruct Hl1. rewrite Hkey. simpl. left.
    + injection Heq as -> Heq. simpl in Hl1.
      apply not_elem_of_cons in Hl1 as [_ Hl1].
      destruct (IH k1 Heq Hkey Hl1 Hl2) as (-> & -> & ->). done.
Qed.

(** A successful Task Update appends exactly one entry to the history of
    the task, which stays where it is in the collection. *)
Lemma put_tasks_id_appends (id : ObjectId) (body : gmap string jsval)
    (now : Date) (outcome : AxiosOutcome) (user : User) (w w' : World)
    (r : Response) :
  put_tasks_id id body now outcome user w = (r, w') -> status r = 200 ->
  exists l1 t l2 t',
    tasks (db w) = l1 ++ t :: l2 /\ tasks (db w') = l1 ++ t' :: l2
    /\ task_id t = id /\ task_id t' = id
    /\ task_userId t = Some (user_id user)
    /\ r = respond 200 (JsonTask (populate (db w') t'))
    /\ Task_applyUpdate now (task_update now body) t = Ok t'
    /\ task_history t' = task_history t ++ [updated_entry now body].
Proof.
  intros H Hok. apply put_tasks_id_cases in H as [(_ & -> & _)|H];
    [discriminate|].
  destruct H as (oldTask & Hold & [[-> _]|H]); [discriminate|].
  destruct H as (l1 & l2 & t' & Hsplit & _ & Happly & Hdb & [[-> _]|H]);
    [discriminate|].
  destruct H as (-> & _).
  apply find_first_Some in Hold as (_ & _ & _ & HPo & _).
  apply is_doc_true in HPo as [Hid Hown].
  pose proof (Task_applyUpdate_task_update _ _ _ _ Happly)
    as (_ & Hid' & Hhist & _).
  exists l1, oldTask, l2, t'. rewrite Hdb. repeat split; try done.
  congruence.
Qed.

Lemma run_updates_history (id : ObjectId) (us : list UpdateCall) :
  forall (w wN : World) (rs : list Response) (l1 l2 : list Task) (t : Task),
    tasks (db w) = l1 ++ t :: l2 -> task_id t = id ->
    id ∉ map task_id l1 -> id ∉ map task_id l2 ->
    run_updates id us w = (rs, wN) ->
    Forall (fun r => status r = 200) rs ->
    exists t', tasks (db wN) = l1 ++ t' :: l2 /\ task_id t' = id
               /\ task_history t' =
                    task_history t
                    ++ map (fun u => updated_entry (upd_now u) (upd_body u)) us.
Proof.
  induction us as [|u us IH]; intros w wN rs l1 l2 t Hsplit Hid Hl1 Hl2 Hrun Hok.
  - injection Hrun as <- <-. exists t. by rewrite app_nil_r.
  - simpl in Hrun.
    destruct (serve _ _ _ w) as [r w1] eqn:Hserve.
    destruct (run_updates id us w1) as [rs' w2] eqn:Hrest.
    injection Hrun as <- <-. apply Forall_cons in Hok as [Hr Hrs].
    unfold serve, protected in Hserve.
    destruct (authMiddleware _ _ _) as [r401|user] eqn:Hauth.
    { injection Hserve as <- <-. apply authMiddleware_inl in Hauth.
      congruence. }
    simpl in Hserve.
    apply put_tasks_id_appends in Hserve
      as (k1 & t0 & k2 & t1 & Hk & Hk' & Hid0 & Hid1 & _ & _ & _ & Hhist);
      [|done].
    rewrite Hk in Hsplit. symmetry in Hsplit.
    apply (split_unique task_id) in Hsplit as (-> & -> & ->);
      [|congruence|by rewrite Hid|by rewrite Hid].
    destruct (IH w1 w2 rs' k1 k2 t1 Hk' Hid1 Hl1 Hl2 Hrest Hrs)
      as (t' & Hfinal & Hid' & Hhist').
    exists t'. split; [done|]. split; [done|].
    rewrite Hhist', Hhist. simpl. by rewrite <- app_assoc.
Qed.







(** ** Notification failures *)

(** C8.  The helper returns a structured result for every outcome of the
    outbound call: the success flag, and on failure the description of the
    remote error payload when there is one, else the error message; and the
    response of Task Create and of Task Update, and the database they leave,
    do not depend on that outcome. *)
Theorem notification_failure_isolated :
  (forall botToken chatId message outcome w,
     db (snd (sendTelegramNotification botToken chatId message outcome w))
     = db w
     /\ fst (sendTelegramNotification botToken chatId message outcome w)
        = match outcome with
          | AxiosResolved => {| success := true; error := None |}
          | AxiosRejected description reason =>
              {| success := false;
                 error := Some (failure_reason description reason) |}
          end)
  /\ (forall body now fresh user w o1 o2,
        fst (post_tasks body now fresh o1 user w)
        = fst (post_tasks body now fresh o2 user w)
        /\ db (snd (post_tasks body now fresh o1 user w))
           = db (snd (post_tasks body now fresh o2 user w)))
  /\ (forall id body now user w o1 o2,
        fst (put_tasks_id id body now o1 user w)
        = fst (put_tasks_id id body now o2 user w)
        /\ db (snd (put_tasks_id id body now o1 user w))
           = db (snd (put_tasks_id id body now o2 user w))).
Proof.
  split; [|split].
  - intros botToken chatId message [|description reason] w; simpl; [done|].
    split; [done|]. do 2 f_equal. unfold failure_reason.
    destruct description as [d|]; simpl; [|done].
    case_decide as Hd.
    + by rewrite Hd.
    + apply String.eqb_neq in Hd. by rewrite Hd.
  - intros body now fresh user w o1 o2. unfold post_tasks.
    destruct (Task_new _ _ _) as [t|]; simpl; [|done].
    destruct (Task_save _ _) as [d|]; simpl; [|done].
    destruct (credentials _) as [[botToken chatId]|]; simpl; [|done].
    destruct (new_task_message _); simpl; [|done].
    by destruct o1, o2.
  - intros id body now user w o1 o2. unfold put_tasks_id.
    destruct (Task_findOne _ _ _) as [oldTask|]; [|done].
    destruct (Task_findOneAndUpdate _ _ _ _ _) as [[d ot]|]; [|done].
    simpl. destruct (completes _ _); [|done].
    destruct (credentials _) as [[botToken chatId]|]; simpl; [|done].
    destruct (completed_message _); simpl; [|done].
    by destruct o1, o2.
Qed.

(** ** Updates and the owner field *)

Lemma Employee_set_paths (body : gmap string jsval) (e e' : Employee) :
  Employee_set body e = Ok e' ->
  set_path castObjectId (emp_userId e) (body !! "userId") = Ok (emp_userId e')
  /\ set_path castString (emp_name e) (body !! "name") = Ok (emp_name e')
  /\ set_path castString (emp_position e) (body !! "position")
     = Ok (emp_position e')
  /\ set_path castString (emp_telegramTag e) (body !! "telegramTag")
     = Ok (emp_telegramTag e').
Proof. unfold Employee_set. intros H. bind_inv H. by injection H as <-. Qed.

(** C10.  Employee Update and Task Update store the fields of the body as
    they are submitted, the owner field included: a successful update whose
    body has a userId leaves the record with that owner, and there are such
    updates where it is not the caller. *)
Theorem update_sets_owner_from_body :
  (forall id body user w r w' other,
     put_employees_id id body user w = (r, w') -> status r = 200 ->
     body !! "userId" = Some (JStr other) ->
     exists l1 e l2 e',
       employees (db w) = l1 ++ e :: l2 /\ employees (db w') = l1 ++ e' :: l2
       /\ emp_id e = id /\ emp_userId e = Some (user_id user)
       /\ r = respond 200 (JsonEmployee e')
       /\ emp_id e' = id /\ emp_userId e' = Some other
       /\ (forall s, body !! "name" = Some (JStr s) -> emp_name e' = Some s)
       /\ (forall s, body !! "position" = Some (JStr s) ->
             emp_position e' = Some s)
       /\ (forall s, body !! "telegramTag" = Some (JStr s) ->
             emp_telegramTag e' = Some s))
  /\ (forall id body now outcome user w r w' other,
        put_tasks_id id body now outcome user w = (r, w') -> status r = 200 ->
        body !! "userId" = Some (JStr other) ->
        exists l1 t l2 t',
          tasks (db w) = l1 ++ t :: l2 /\ tasks (db w') = l1 ++ t' :: l2
          /\ task_id t = id /\ task_userId t = Some (user_id user)
          /\ r = respond 200 (JsonTask (populate (db w') t'))
          /\ task_id t' = id /\ task_userId t' = Some other
          /\ (forall s, body !! "title" = Some (JStr s) -> task_title t' = Some s)
          /\ (forall s, body !! "description" = Some (JStr s) ->
                task_description t' = Some s)
          /\ (forall s, body !! "employeeId" = Some (JStr s) ->
                task_employeeId t' = Some s)
          /\ (forall s, body !! "priority" = Some (JStr s) ->
                task_priority t' = Some s)
          /\ (forall s, body !! "status" = Some (JStr s) ->
                task_status t' = Some s)
          /\ (forall s, body !! "result" = Some (JStr s) ->
                task_result t' = Some s))
  /\ (exists id body user w other e',
        other ≠ user_id user /\ body !! "userId" = Some (JStr other)
        /\ fst (put_employees_id id body user w)
           = respond 200 (JsonEmployee e')
        /\ e' ∈ employees (db (snd (put_employees_id id body user w)))
        /\ emp_id e' = id /\ emp_userId e' = Some other)
  /\ (exists id body now outcome user w other t',
        other ≠ user_id user /\ body !! "userId" = Some (JStr other)
        /\ status (fst (put_tasks_id id body now outcome user w)) = 200
        /\ t' ∈ tasks (db (snd (put_tasks_id id body now outcome user w)))
        /\ task_id t' = id /\ task_userId t' = Some other).
Proof.
  split; [|split; [|split]].
  - intros id body user w r w' other H Hok Hbody. unfold put_employees_id in H.
    destruct (Employee_findOneAndUpdate _ _ _ _) as [[d oe]|] eqn:Hupd;
      [|injection H as <- <-; discriminate].
    apply Employee_findOneAndUpdate_Ok in Hupd. simpl in Hupd.
    destruct oe as [e'|]; [|injection H as <- <-; discriminate].
    injection H as <- <-.
    destruct Hupd as (l1 & e & l2 & Hsplit & HPe & _ & Hset & ->).
    apply is_doc_true in HPe as [Hid Hown].
    pose proof (Employee_set_id _ _ _ Hset) as Hid'.
    apply Employee_set_paths in Hset as (Hu & Hn & Hp & Ht).
    exists l1, e, l2, e'. repeat split; try done.
    + congruence.
    + by eapply set_path_JStr_id.
    + intros s. by eapply set_path_JStr_string.
    + intros s. by eapply set_path_JStr_string.
    + intros s. by eapply set_path_JStr_string.
  - intros id body now outcome user w r w' other H Hok Hbody.
    destruct (put_tasks_id_appends _ _ _ _ _ _ _ _ H Hok)
      as (l1 & t & l2 & t' & Hsplit & Hsplit' & Hid & Hid' & Hown & Hr
          & Happly & _).
    apply Task_applyUpdate_task_update in Happly
      as (_ & _ & _ & Hu & Hti & Hde & Hem & Hpr & Hst & Hre).
    exists l1, t, l2, t'. repeat split; try done.
    + by eapply set_path_JStr_id.
    + intros s. by eapply set_path_JStr_string.
    + intros s. by eapply set_path_JStr_string.
    + intros s. by eapply set_path_JStr_id.
    + intros s. by eapply set_path_JStr_string.
    + intros s. by eapply set_path_JStr_string.
    + intros s. by eapply set_path_JStr_string.
  - exists dave_id, {["userId" := JStr bob_id]}, alice, world0, bob_id.
    eexists. split; [done|]. split; [done|].
    split; [vm_compute; reflexivity|]. split; [|done].
    vm_compute. right. left.
  - exists report_id, {["userId" := JStr bob_id]}, 8000%Z, AxiosResolved, alice,
      world2, bob_id.
    eexists. split; [done|]. split; [done|].
    split; [vm_compute; reflexivity|]. split; [|split].
    + vm_compute. left.
    + done.
    + done.
Qed.

(** ** Register and Login *)

Lemma User_findOne_email_Some (email : option string) (d : Db) :
  is_Some (User_findOne_email email d) <-> email_taken email d.
Proof.
  unfold User_findOne_email, email_taken. split.
  - intros [u Hu]. apply find_first_Some in Hu as (l1 & l2 & Hsplit & HP & _).
    exists u. rewrite Hsplit. split; [apply elem_of_app; right; left|].
    by apply bool_decide_eq_true in HP.
  - intros (u & Hu & He). eapply find_first_is_Some; [done|].
    by apply bool_decide_eq_true.
Qed.

Lemma User_findOne_email_None (email : option string) (d : Db) :
  User_findOne_email email d = None <-> ~ email_taken email d.
Proof.
  rewrite <- User_findOne_email_Some.
  destruct (User_findOne_email email d) as [u|].
  - split; [done|]. intros H. destruct H. by eexists.
  - split; [|done]. intros _ [? [=]].
Qed.

(** C6, as the code has it.  Login answers 401 with one and the same body
    when no account has the submitted email, whatever else is submitted,
    and when an account has it and the submitted password does not match
    the stored hash; when an account has the email and no password is
    submitted, it answers 500.  It changes nothing in any of these cases.
    When the password matches, it answers 200 with a token for the account
    and its public view, as Register does. *)
Theorem login_outcomes (body : Credentials) (now : Date) (w : World) :
  (~ email_taken (cred_email body) (db w) ->
   post_auth_login body now w =
     (respond 401 (JsonError "Неверный email или пароль"), w))
  /\ (forall user password hash,
        User_findOne_email (cred_email body) (db w) = Some user ->
        cred_password body = Some password ->
        user_password user = Some hash ->
        ~ password_matches password hash ->
        post_auth_login body now w =
          (respond 401 (JsonError "Неверный email или пароль"), w))
  /\ (forall user,
        User_findOne_email (cred_email body) (db w) = Some user ->
        cred_password body = None ->
        post_auth_login body now w =
          (respond 500 (JsonError "Ошибка входа"), w))
  /\ (forall user password hash,
        User_findOne_email (cred_email body) (db w) = Some user ->
        cred_password body = Some password ->
        user_password user = Some hash ->
        password_matches password hash ->
        post_auth_login body now w =
          (respond 200 (JsonAuth (issued_token (user_id user) now)
                          {| view_id := user_id user;
                             view_email := user_email user;
                             view_name := user_name user;
                             view_role := user_role user |}), w))
  /\ (forall fresh salt r w',
        post_auth_register body now fresh salt w = (r, w') ->
        status r = 201 ->
        exists user,
          user ∈ users (db w')
          /\ r = respond 201 (JsonAuth (issued_token (user_id user) now)
                                {| view_id := user_id user;
                                   view_email := user_email user;
                                   view_name := user_name user;
                                   view_role := user_role user |})).
Proof.
  split; [|split; [|split; [|split]]].
  - intros Hnone. apply User_findOne_email_None in Hnone.
    unfold post_auth_login. by rewrite Hnone.
  - intros user password hash Hfind Hp Hh Hno.
    unfold post_auth_login, bcrypt_compare. rewrite Hfind, Hp, Hh.
    by rewrite (proj2 (String.eqb_neq _ _) Hno).
  - intros user Hfind Hp.
    unfold post_auth_login, bcrypt_compare. by rewrite Hfind, Hp.
  - intros user password hash Hfind Hp Hh Hyes.
    unfold post_auth_login, bcrypt_compare. rewrite Hfind, Hp, Hh.
    by rewrite (proj2 (String.eqb_eq _ _) Hyes).
  - intros fresh salt r w' H Hok. unfold post_auth_register in H.
    destruct (User_findOne_email _ _); [injection H as <- <-; discriminate|].
    destruct (bcrypt_hash _ _) as [hashedPassword|]; simpl in H;
      [|injection H as <- <-; discriminate].
    destruct (User_save _ _) as [d|] eqn:Hsave; simpl in H;
      [|injection H as <- <-; discriminate].
    injection H as <- <-.
    exists {| user_id := fresh; user_email := cred_email body;
              user_password := Some hashedPassword;
              user_name := cred_name body; user_role := Some "manager";
              user_createdAt := Some now |}.
    split; [|done].
    unfold User_save in Hsave. destruct (negb _); [discriminate|].
    repeat (case_bool_decide; try discriminate). injection Hsave as <-.
    simpl. apply elem_of_app. right. left.
Qed.

Lemma User_save_Ok (u : User) (d : Db) :
  User_validate u = true -> user_id u ∉ map user_id (users d) ->
  user_email u ∉ map user_email (users d) ->
  User_save u d = Ok (set_users d (users d ++ [u])).
Proof.
  intros Hv Hid Hemail. unfold User_save. rewrite Hv. simpl.
  by rewrite !bool_decide_eq_false_2.
Qed.

(** C5, as the code has it.  Register answers 400 and changes nothing
    whenever an account has the submitted email.  Otherwise, when email,
    password and name are all submitted, email and name are not empty and
    the generated identifier is not in use, it stores the account with the
    salted hash of the password and the role manager, and answers 201 with
    a token whose payload is the identifier of the account and which
    expires 30 days after it was issued, and with the view of the account
    (id, email, name, role); every later Register with that email answers
    400.  Otherwise again, when the password is not submitted or the email
    or the name is missing or empty, it answers 500 and changes nothing. *)
Theorem register_outcomes (body : Credentials) (now : Date) (fresh : ObjectId)
    (salt : string) (w : World) :
  (email_taken (cred_email body) (db w) ->
   post_auth_register body now fresh salt w =
     (respond 400 (JsonError "Email уже зарегистрирован"), w))
  /\ (forall email password name,
        body = {| cred_email := Some email; cred_password := Some password;
                  cred_name := Some name |} ->
        email ≠ "" -> name ≠ "" ->
        ~ email_taken (Some email) (db w) ->
        fresh ∉ map user_id (users (db w)) ->
        let user :=
          {| user_id := fresh; user_email := Some email;
             user_password :=
               Some ("$2a$10$" +:+ salt +:+ bcrypt_digest salt password);
             user_name := Some name; user_role := Some "manager";
             user_createdAt := Some now |} in
        let w' := with_db w (set_users (db w) (users (db w) ++ [user])) in
        post_auth_register body now fresh salt w =
          (respond 201
             (JsonAuth
                (JwtSigned JWT_SECRET
                   {| jwt_userId := Some fresh; jwt_iat := (now / 1000)%Z;
                      jwt_exp := Some (now / 1000 + 30 * 24 * 60 * 60)%Z |})
                {| view_id := fresh; view_email := Some email;
                   view_name := Some name; view_role := Some "manager" |}),
           w')
        /\ forall body' now' fresh' salt',
             cred_email body' = Some email ->
             post_auth_register body' now' fresh' salt' w' =
               (respond 400 (JsonError "Email уже зарегистрирован"), w'))
  /\ (~ email_taken (cred_email body) (db w) ->
      cred_password body = None \/ truthy (cred_email body) = false
      \/ truthy (cred_name body) = false ->
      post_auth_register body now fresh salt w =
        (respond 500 (JsonError "Ошибка регистрации"), w)).
Proof.
  split; [|split].
  - intros Htaken. apply User_findOne_email_Some in Htaken as [u Hu].
    unfold post_auth_register. by rewrite Hu.
  - intros email password name -> Hemail Hname Hfree Hfresh user w'.
    split.
    + unfold post_auth_register. simpl.
      rewrite (proj2 (User_findOne_email_None _ _) Hfree). simpl.
      fold user. rewrite User_save_Ok; [done| |done|].
      * unfold User_validate. simpl.
        apply String.eqb_neq in Hemail, Hname. by rewrite Hemail, Hname.
      * simpl. intros (u & He & Hu)%list_elem_of_fmap. apply Hfree.
        by exists u.
    + intros body' now' fresh' salt' Hbody'.
      unfold post_auth_register.
      destruct (User_findOne_email (cred_email body') (db w')) eqn:Hfind;
        [done|].
      apply User_findOne_email_None in Hfind. destruct Hfind.
      exists user. split; [|by rewrite Hbody'].
      subst w'. simpl. apply elem_of_app. right. left.
  - intros Hfree Hmissing. unfold post_auth_register.
    rewrite (proj2 (User_findOne_email_None _ _) Hfree).
    destruct (cred_password body) as [password|]; simpl; [|done].
    destruct Hmissing as [Hp|[He|Hn]]; [discriminate Hp| |];
      unfold User_save, User_validate, required_string; simpl.
    + by rewrite He.
    + rewrite Hn. by destruct (truthy (cred_email body)).
Qed.

(** ** Owner scoping *)

Lemma elem_of_Employee_find (uid : ObjectId) (d : Db) (e : Employee) :
  e ∈ Employee_find uid d <-> e ∈ employees d /\ emp_userId e = Some uid.
Proof. unfold Employee_find. by rewrite elem_of_List_filter, owned_by_true. Qed.

Lemma elem_of_Task_find (uid : ObjectId) (d : Db) (t : Task) :
  t ∈ Task_find uid d <-> t ∈ tasks d /\ task_userId t = Some uid.
Proof. unfold Task_find. by rewrite elem_of_List_filter, owned_by_true. Qed.

(** C1, as the code has it.  For a request of an authenticated caller
    that lists, gets, updates or deletes Employee or Task records or gets
    the Config record: every record of another owner is afterwards in its
    collection unchanged, and every Employee, Task or Config record that
    the response consists of was selected by the caller's identifier (it
    is, or for an update it was before the request, a record of the
    caller's with the same identifier).  The assignee embedded in a task of
    the response is not covered: it is looked up by identifier alone. *)
Theorem owner_scoping (req : Request) (header : option Jwt) (now : Date)
    (w : World) (caller : User) :
  reads_or_changes_records req = true ->
  authMiddleware header now (db w) = inr caller ->
  let r := fst (serve req header now w) in
  let w' := snd (serve req header now w) in
  (forall e, e ∈ employees (db w) -> emp_userId e ≠ Some (user_id caller) ->
             e ∈ employees (db w'))
  /\ (forall t, t ∈ tasks (db w) -> task_userId t ≠ Some (user_id caller) ->
                t ∈ tasks (db w'))
  /\ (forall c, c ∈ configs (db w) -> cfg_userId c ≠ Some (user_id caller) ->
                c ∈ configs (db w'))
  /\ (forall e, e ∈ employees_of (json r) ->
        exists e0, e0 ∈ employees (db w) /\ emp_id e0 = emp_id e
                   /\ emp_userId e0 = Some (user_id caller)
                   /\ ((forall id body, req ≠ PUT_employees_id id body) ->
                       e = e0))
  /\ (forall t, t ∈ tasks_of (json r) ->
        exists t0, t0 ∈ tasks (db w) /\ task_id t0 = task_id t
                   /\ task_userId t0 = Some (user_id caller)
                   /\ ((forall id body outcome,
                          req ≠ PUT_tasks_id id body outcome) -> t = t0))
  /\ (forall c, c ∈ configs_of (json r) ->
                cfg_userId c = Some (user_id caller)).
Proof.
  intros Hreq Hauth r w'. subst r w'. unfold serve, protected.
  rewrite Hauth.
  pose proof (handler_edits req now caller w) as (He & Ht & Hc).
  simpl in He, Ht, Hc.
  split; [|split; [|split]].
  { intros e Hin Hforeign. eapply edit_keeps_others; [exact He|done| |done].
    by intros e' [? _]. }
  { intros t Hin Hforeign. eapply edit_keeps_others; [exact Ht|done| |].
    - by intros t' [? _].
    - by intros [? _]. }
  { intros c Hin Hforeign.
    eapply edit_keeps_others; [apply Hc; by destruct req|done| |];
      simpl; tauto. }
  clear He Ht Hc.
  destruct req; try discriminate Hreq; simpl.
  - (* GET /api/employees *)
    split; [|split]; [|by intros ? ?%elem_of_nil..].
    intros e Hin. apply elem_of_sort_desc, elem_of_Employee_find in Hin
      as [Hin Hown].
    by exists e.
  - (* PUT /api/employees/:id *)
    unfold put_employees_id.
    destruct (Employee_findOneAndUpdate _ _ _ _) as [[d oe]|] eqn:Hupd;
      [|by split; [|split]; intros ? ?%elem_of_nil].
    apply Employee_findOneAndUpdate_Ok in Hupd. simpl in Hupd.
    destruct oe as [e'|]; simpl;
      [|by split; [|split]; intros ? ?%elem_of_nil].
    split; [|split]; [|by intros ? ?%elem_of_nil..].
    intros e Hin. apply list_elem_of_singleton in Hin as ->.
    destruct Hupd as (l1 & e & l2 & Hsplit & HPe & _ & Hset & _).
    apply is_doc_true in HPe as [Hid Hown]. apply Employee_set_id in Hset.
    exists e. rewrite Hsplit. split; [apply elem_of_app; right; left|].
    split; [done|]. split; [done|]. intros Hnot. by destruct (Hnot id body).
  - (* DELETE /api/employees/:id *)
    unfold delete_employees_id. destruct (0 <? _)%nat;
      [by split; [|split]; intros ? ?%elem_of_nil|].
    destruct (Employee_findOneAndDelete _ _ _) as [d [e|]];
      by split; [|split]; intros ? ?%elem_of_nil.
  - (* GET /api/tasks *)
    split; [|split]; [by intros ? ?%elem_of_nil| |by intros ? ?%elem_of_nil].
    intros t Hin. apply list_elem_of_fmap in Hin as (pt & -> & Hin).
    apply elem_of_sort_desc, list_elem_of_fmap in Hin as (t0 & -> & Hin).
    apply elem_of_Task_find in Hin as [Hin Hown]. by exists t0.
  - (* PUT /api/tasks/:id *)
    destruct (put_tasks_id id body now outcome caller w) as [r w'] eqn:H.
    simpl. apply put_tasks_id_cases in H as [(_ & -> & _)|H];
      [by split; [|split]; intros ? ?%elem_of_nil|].
    destruct H as (oldTask & Hold & [[-> _]|H]);
      [by split; [|split]; intros ? ?%elem_of_nil|].
    destruct H as (l1 & l2 & t' & Hsplit & _ & Happly & _ & [[-> _]|[-> _]]);
      [by split; [|split]; intros ? ?%elem_of_nil|].
    split; [|split]; [by intros ? ?%elem_of_nil| |by intros ? ?%elem_of_nil].
    intros t Hin. apply list_elem_of_singleton in Hin as ->. simpl.
    apply find_first_Some in Hold as (_ & _ & _ & HPo & _).
    apply is_doc_true in HPo as [Hid Hown].
    apply Task_applyUpdate_task_update in Happly as (_ & Hid' & _).
    exists oldTask. rewrite Hsplit. split; [apply elem_of_app; right; left|].
    split; [done|]. split; [done|].
    intros Hnot. by destruct (Hnot id body outcome).
  - (* DELETE /api/tasks/:id *)
    unfold delete_tasks_id.
    destruct (Task_findOneAndDelete _ _ _) as [d [t|]];
      by split; [|split]; intros ? ?%elem_of_nil.
  - (* GET /api/config *)
    unfold get_config.
    destruct (Config_findOne _ _) as [config|] eqn:Hfind; simpl.
    + split; [|split]; [by intros ? ?%elem_of_nil..|].
      intros c Hin. apply list_elem_of_singleton in Hin as ->.
      apply find_first_Some in Hfind as (_ & _ & _ & HP & _).
      by apply owned_by_true in HP.
    + rewrite Config_new_blank. simpl.
      destruct (Config_save_new _ _); simpl;
        (split; [|split]); try by intros ? ?%elem_of_nil.
      intros c Hin. by apply list_elem_of_singleton in Hin as ->.
  - (* GET /api/stats *)
    by split; [|split]; intros ? ?%elem_of_nil.
Qed.

(** ** Sessions *)

Lemma User_findById_Some (oid : option ObjectId) (d : Db) (u : User) :
  User_findById oid d = Some u -> oid = Some (user_id u) /\ u ∈ users d.
Proof.
  destruct oid as [id|]; simpl; [|discriminate].
  intros H. apply find_first_Some in H as (l1 & l2 & Hsplit & HP & _).
  apply bool_decide_eq_true in HP. rewrite Hsplit, HP.
  split; [done|]. apply elem_of_app. right. left.
Qed.

Lemma jwt_verify_unexpired (claims : JwtClaims) (secret : string)
    (now : Date) :
  unexpired claims now ->
  jwt_verify (JwtSigned secret claims) secret now = Ok claims.
Proof.
  intros Hexp. unfold jwt_verify. rewrite String.eqb_refl. simpl.
  destruct (jwt_exp claims) as [exp|] eqn:E; [|done].
  specialize (Hexp exp E).
  by rewrite (proj2 (Z.leb_gt _ _) Hexp).
Qed.

Lemma authMiddleware_Ok (claims : JwtClaims) (now : Date) (d : Db) (u : User) :
  unexpired claims now -> User_findById (jwt_userId claims) d = Some u ->
  authMiddleware (Some (JwtSigned JWT_SECRET claims)) now d = inr u.
Proof.
  intros Hexp Hfind. unfold authMiddleware.
  by rewrite jwt_verify_unexpired, Hfind.
Qed.

Lemma authMiddleware_inr (header : option Jwt) (now : Date) (d : Db)
    (u : User) :
  authMiddleware header now d = inr u ->
  exists claims,
    header = Some (JwtSigned JWT_SECRET claims) /\ unexpired claims now
    /\ User_findById (jwt_userId claims) d = Some u.
Proof.
  unfold authMiddleware. intros H.
  destruct header as [[s|secret claims]|]; [by destruct s| |done].
  unfold jwt_verify in H.
  destruct (String.eqb secret JWT_SECRET) eqn:Hs; simpl in H; [|done].
  apply String.eqb_eq in Hs as ->. exists claims. split; [done|].
  assert (Hexp : unexpired claims now
                 /\ match User_findById (jwt_userId claims) d with
                    | Some user => inr user
                    | None => inl (respond 401
                                     (JsonError "Пользователь не найден"))
                    end = (inr u : Response + User)).
  { unfold unexpired. destruct (jwt_exp claims) as [exp|].
    - destruct (exp <=? now / 1000)%Z eqn:Hle; [done|].
      apply Z.leb_gt in Hle. split; [|done]. by intros ? [= <-].
    - split; [|done]. by intros ? [=]. }
  destruct Hexp as [Hexp Hfind]. split; [done|].
  by destruct (User_findById (jwt_userId claims) d) as [u'|];
    [injection Hfind as <-|].
Qed.

(** X1.  The middleware lets a request through only with a token signed
    under the server's secret, not yet expired, whose payload is the
    identifier of an account of the database; the caller it resolves is
    that account. *)
Theorem auth_admits_signed_tokens_only (header : option Jwt) (now : Date)
    (d : Db) (u : User) :
  authMiddleware header now d = inr u ->
  exists claims,
    header = Some (JwtSigned JWT_SECRET claims)
    /\ unexpired claims now
    /\ jwt_userId claims = Some (user_id u)
    /\ u ∈ users d.
Proof.
  intros H. apply authMiddleware_inr in H as (claims & -> & Hexp & Hfind).
  apply User_findById_Some in Hfind as [Hid Hin].
  by exists claims.
Qed.

(** X2.  A token signed by the server for an account authenticates as that
    account at every instant before its expiry, 30 days after it was
    issued, and is refused as invalid from then on. *)
Theorem issued_token_round_trip (uid : ObjectId) (issued now : Date) (d : Db)
    (u : User) :
  User_findById (Some uid) d = Some u ->
  ((now / 1000 < issued / 1000 + 30 * 24 * 60 * 60)%Z ->
   authMiddleware (Some (jwt_sign uid JWT_SECRET issued)) now d = inr u)
  /\ ((issued / 1000 + 30 * 24 * 60 * 60 <= now / 1000)%Z ->
      authMiddleware (Some (jwt_sign uid JWT_SECRET issued)) now d
      = inl (respond 401 (JsonError "Неверный токен"))).
Proof.
  intros Hfind. split; intros Hnow.
  - apply authMiddleware_Ok; [|done].
    intros exp [= <-]. exact Hnow.
  - unfold authMiddleware, jwt_sign, jwt_verify. rewrite String.eqb_refl.
    simpl. unfold thirty_days.
    by rewrite (proj2 (Z.leb_le _ _) Hnow).
Qed.

Lemma handler_status (req : Request) (now : Date) (user : User) (w : World) :
  status (fst (handler req now user w)) ∈ handler_statuses.
Proof.
  unfold handler_statuses.
  destruct req; simpl;
    unfold get_auth_me, get_employees, post_employees, put_employees_id,
      delete_employees_id, get_tasks, post_tasks, put_tasks_id,
      delete_tasks_id, get_config, put_config, post_config_test_telegram,
      get_stats, sendTelegramNotification;
    repeat case_match; simpl; repeat constructor.
Qed.

(** X3.  An authenticated route answers 401 exactly when the middleware
    refuses the request, and then nothing has happened: the database is as
    it was and no message has been sent. *)
Theorem refused_request_changes_nothing (req : Request)
    (header : option Jwt) (now : Date) (w : World) :
  (status (fst (serve req header now w)) = 401%nat
   <-> exists r, authMiddleware header now (db w) = inl r)
  /\ (status (fst (serve req header now w)) = 401%nat ->
      snd (serve req header now w) = w).
Proof.
  unfold serve, protected.
  destruct (authMiddleware header now (db w)) as [r|user] eqn:Hauth; simpl.
  - apply authMiddleware_inl in Hauth. split; [|done].
    split; [by eexists|done].
  - pose proof (handler_status req now user w) as Hs.
    assert (Hne : status (fst (handler req now user w)) <> 401%nat).
    { intros E. rewrite E in Hs. unfold handler_statuses in Hs.
      repeat (apply elem_of_cons in Hs as [Hs|Hs]; [discriminate|]).
      by apply elem_of_nil in Hs. }
    split; [split; [done|by intros [? [=]]]|done].
Qed.

(** ** Register, then Login or a session *)

Lemma substring_append (s r : string) :
  String.substring 0 (String.length s) (s +:+ r) = s.
Proof.
  induction s as [|c s IH]; simpl; [by destruct r|]. by rewrite IH.
Qed.

Lemma salt_of_hash (salt rest : string) :
  String.length salt = 22%nat ->
  salt_of ("$2a$10$" +:+ salt +:+ rest) = salt.
Proof.
  intros H. unfold salt_of.
  change (String.substring 7 22 ("$2a$10$" +:+ salt +:+ rest))
    with (String.substring 0 22 (salt +:+ rest)).
  rewrite <- H. apply substring_append.
Qed.

Lemma bcrypt_hash_compare (salt password hash : string) :
  String.length salt = 22%nat ->
  bcrypt_hash salt (Some password) = Ok hash ->
  bcrypt_compare (Some password) (Some hash) = Ok true.
Proof.
  intros Hlen [= <-]. unfold bcrypt_compare.
  rewrite salt_of_hash by done. by rewrite String.eqb_refl.
Qed.

Lemma User_save_inv (u : User) (d d' : Db) :
  User_save u d = Ok d' ->
  d' = set_users d (users d ++ [u]) /\ User_validate u = true
  /\ (user_id u ∉ map user_id (users d))
  /\ (user_email u ∉ map user_email (users d)).
Proof.
  unfold User_save. destruct (User_validate u); simpl; [|discriminate].
  do 2 (case_bool_decide; [discriminate|]). by intros [= <-].
Qed.

Lemma find_first_snoc {A} (P : A -> bool) (l : list A) (x : A) :
  (forall y, y ∈ l -> P y = false) -> P x = true ->
  find_first P (l ++ [x]) = Some x.
Proof.
  intros Hl Hx. unfold find_first. induction l as [|y l IH]; simpl.
  - by rewrite Hx.
  - rewrite (Hl y (list_elem_of_here _ _)). apply IH.
    intros y' Hy'. apply Hl. by apply list_elem_of_further.
Qed.

Lemma find_first_app {A} (P : A -> bool) (l k : list A) (x : A) :
  find_first P l = Some x -> find_first P (l ++ k) = Some x.
Proof.
  unfold find_first. induction l as [|y l IH]; simpl; [discriminate|].
  by destruct (P y).
Qed.

(** A Register that answers 201. *)
Lemma post_auth_register_201 (body : Credentials) (now : Date)
    (fresh : ObjectId) (salt : string) (w w' : World) (r : Response) :
  post_auth_register body now fresh salt w = (r, w') -> status r = 201%nat ->
  exists password hash user,
    cred_password body = Some password
    /\ bcrypt_hash salt (Some password) = Ok hash
    /\ user = {| user_id := fresh; user_email := cred_email body;
                 user_password := Some hash; user_name := cred_name body;
                 user_role := Some "manager"; user_createdAt := Some now |}
    /\ (forall y, y ∈ users (db w) -> user_email y ≠ cred_email body)
    /\ (forall y, y ∈ users (db w) -> user_id y ≠ fresh)
    /\ w' = with_db w (set_users (db w) (users (db w) ++ [user]))
    /\ r = respond 201
             (JsonAuth (jwt_sign fresh JWT_SECRET now) (public_view user)).
Proof.
  unfold post_auth_register.
  destruct (User_findOne_email _ _) as [existing|] eqn:Hfind;
    [by intros [= <- <-]|].
  destruct (cred_password body) as [password|]; simpl;
    [|by intros [= <- <-]].
  destruct (User_save _ (db w)) as [d|] eqn:Hsave; simpl;
    [|by intros [= <- <-]].
  intros [= <- <-] _. apply User_save_inv in Hsave as (-> & _ & Hid & _).
  eexists password, _, _. split; [done|]. split; [done|]. split; [done|].
  split; [|split; [|done]].
  - intros y Hy. unfold User_findOne_email in Hfind.
    rewrite find_first_None in Hfind.
    exact (bool_decide_eq_false_1 _ (Hfind y Hy)).
  - intros y Hy <-. apply Hid. simpl. by apply list_elem_of_fmap_2.
Qed.

(** X4.  Register and Login round trip: after a Register that answers 201
    (bcrypt's salt has 22 characters), a Login with the same email and
    password answers 200 with a token for the new account and the same
    view of it, at every later instant. *)
Theorem register_then_login (body login : Credentials) (now later : Date)
    (fresh : ObjectId) (salt : string) (w w' : World) (r : Response) :
  String.length salt = 22%nat ->
  post_auth_register body now fresh salt w = (r, w') -> status r = 201%nat ->
  cred_email login = cred_email body ->
  cred_password login = cred_password body ->
  exists view,
    r = respond 201 (JsonAuth (jwt_sign fresh JWT_SECRET now) view)
    /\ view_id view = fresh /\ view_email view = cred_email body
    /\ post_auth_login login later w'
       = (respond 200 (JsonAuth (jwt_sign fresh JWT_SECRET later) view), w').
Proof.
  intros Hlen Hreg H201 Hemail Hpassword.
  apply post_auth_register_201 in Hreg
    as (password & hash & user & Hp & Hhash & Huser & Hfree & _ & -> & ->);
    [|done].
  exists (public_view user). split; [done|].
  split; [by rewrite Huser|]. split; [by rewrite Huser|].
  unfold post_auth_login, User_findOne_email. simpl.
  rewrite (find_first_snoc _ _ user).
  - rewrite Hpassword, Hp.
    replace (user_password user) with (Some hash) by (by rewrite Huser).
    rewrite (bcrypt_hash_compare salt password hash) by done.
    by rewrite Huser.
  - intros y Hy. apply bool_decide_eq_false. rewrite Hemail. by apply Hfree.
  - apply bool_decide_eq_true. by rewrite Hemail, Huser.
Qed.

(** X5.  The token that Register returns opens a session: until it
    expires, [GET /api/auth/me] with that token answers 200 with the view
    that Register returned, and changes nothing. *)
Theorem register_token_opens_session (body : Credentials) (now later : Date)
    (fresh : ObjectId) (salt : string) (w w' : World) (token : Jwt)
    (view : UserView) :
  post_auth_register body now fresh salt w
    = (respond 201 (JsonAuth token view), w') ->
  (later / 1000 < now / 1000 + 30 * 24 * 60 * 60)%Z ->
  serve GET_auth_me (Some token) later w'
    = (respond 200 (JsonUser view), w').
Proof.
  intros Hreg Hlater.
  apply post_auth_register_201 in Hreg
    as (password & hash & user & _ & _ & Huser & _ & Hid & -> & Hr); [|done].
  injection Hr as -> ->.
  unfold serve, protected, jwt_sign.
  rewrite (authMiddleware_Ok _ later _ user); [done| |].
  - intros exp [= <-]. exact Hlater.
  - simpl. apply find_first_snoc.
    + intros y Hy. apply bool_decide_eq_false. by apply Hid.
    + apply bool_decide_eq_true. by rewrite Huser.
Qed.

(** ** Accounts over a run of calls *)

Lemma Config_save_new_Ok (c : Config) (d d' : Db) :
  Config_save_new c d = Ok d' ->
  d' = set_configs d (configs d ++ [c]) /\ Config_validate c = true
  /\ (cfg_id c ∉ map cfg_id (configs d))
  /\ (cfg_userId c ∉ map cfg_userId (configs d)).
Proof.
  unfold Config_save_new. destruct (Config_validate c); simpl; [|discriminate].
  do 2 (case_bool_decide; [discriminate|]). by intros [= <-].
Qed.

Lemma Config_save_Ok (c : Config) (d d' : Db) :
  Config_save c d = Ok d' ->
  d' = set_configs d
         (replace_first (fun c' => bool_decide (cfg_id c' = cfg_id c)) c
            (configs d))
  /\ Config_validate c = true.
Proof.
  unfold Config_save. destruct (Config_validate c); simpl; [|discriminate].
  by intros [= <-].
Qed.

(** No authenticated route writes to the User collection. *)
Lemma handler_users (req : Request) (now : Date) (user : User) (w : World) :
  users (db (snd (handler req now user w))) = users (db w).
Proof.
  destruct req; simpl; try done.
  - by destruct (post_employees_db body now fresh user w) as [->|(e & -> & _)].
  - unfold put_employees_id.
    destruct (Employee_findOneAndUpdate _ _ _ _) as [[d [e|]]|] eqn:E;
      simpl; [| |done]; apply Employee_findOneAndUpdate_Ok in E; simpl in E.
    + by destruct E as (l1 & e0 & l2 & _ & _ & _ & _ & ->).
    + by destruct E as [-> _].
  - unfold delete_employees_id, Employee_findOneAndDelete.
    destruct (0 <? _)%nat; [done|]. by destruct (find_first _ _).
  - by destruct (post_tasks_db body now fresh outcome user w)
      as [->|(t & -> & _)].
  - destruct (put_tasks_id id body now outcome user w) as [r w'] eqn:E.
    apply put_tasks_id_cases in E as [(_ & _ & ->)|(t & _ & [[_ ->]|E])];
      [done..|].
    destruct E as (l1 & l2 & t' & _ & _ & _ & Hdb & _). simpl.
    by rewrite Hdb.
  - unfold delete_tasks_id, Task_findOneAndDelete.
    by destruct (find_first _ _).
  - unfold get_config. destruct (Config_findOne _ _); [done|].
    destruct (Config_new _ _); simpl; [|done].
    destruct (Config_save_new _ _) eqn:E; simpl; [|done].
    by apply Config_save_new_Ok in E as [-> _].
  - unfold put_config. destruct (Config_findOne _ _).
    + destruct (init_path _ _ (body !! "botToken")); simpl; [|done].
      destruct (init_path _ _ (body !! "chatId")); simpl; [|done].
      destruct (Config_save _ _) eqn:E; simpl; [|done].
      by apply Config_save_Ok in E as [-> _].
    + destruct (Config_new _ _); simpl; [|done].
      destruct (Config_save_new _ _) eqn:E; simpl; [|done].
      by apply Config_save_new_Ok in E as [-> _].
  - unfold post_config_test_telegram.
    destruct (negb _ || negb _); [done|]. by destruct outcome.
Qed.

Lemma app_users_prefix (c : Call) (now : Date) (w : World) :
  users (db w) `prefix_of` users (db (snd (app c now w))).
Proof.
  destruct c as [body fresh salt|body| |req header]; simpl.
  - unfold post_auth_register. destruct (User_findOne_email _ _); [done|].
    destruct (bcrypt_hash _ _); simpl; [|done].
    destruct (User_save _ _) eqn:E; simpl; [|done].
    apply User_save_inv in E as [-> _]. simpl. by apply prefix_app_r.
  - by rewrite post_auth_login_world.
  - done.
  - unfold serve, protected.
    destruct (authMiddleware header now (db w)); simpl; [done|].
    by rewrite handler_users.
Qed.

Lemma run_users_prefix (cs : list (Call * Date)) (w : World) :
  users (db w) `prefix_of` users (db (run cs w)).
Proof.
  revert w. induction cs as [|[c now] cs IH]; intros w; simpl; [done|].
  etrans; [apply app_users_prefix|apply IH].
Qed.

(** X6.  No call removes or rewrites an account: over every run of calls
    the User collection only grows at its end.  So a token that
    authenticates a caller keeps authenticating that same caller after any
    run of calls, until it expires; no call revokes it. *)
Theorem accounts_are_append_only (cs : list (Call * Date)) (w : World) :
  users (db w) `prefix_of` users (db (run cs w))
  /\ forall (header : option Jwt) (now later : Date) (u : User),
       authMiddleware header now (db w) = inr u ->
       (forall claims, header = Some (JwtSigned JWT_SECRET claims) ->
                       unexpired claims later) ->
       authMiddleware header later (db (run cs w)) = inr u.
Proof.
  pose proof (run_users_prefix cs w) as Hprefix. split; [done|].
  intros header now later u Hauth Hlater.
  apply authMiddleware_inr in Hauth as (claims & -> & _ & Hfind).
  apply authMiddleware_Ok; [by apply Hlater|].
  destruct (jwt_userId claims) as [id|]; simpl in *; [|done].
  destruct Hprefix as [k ->]. by apply find_first_app.
Qed.

(** ** The lists of employees and of tasks *)

Lemma date_leb_not_newer (a b : option Date) :
  date_leb a b = true <-> not_newer a b.
Proof.
  destruct a as [x|], b as [y|]; simpl; [apply Z.leb_le| |done..].
  split; [discriminate|done].
Qed.

Lemma not_newer_total (a b : option Date) : not_newer a b \/ not_newer b a.
Proof. destruct a as [x|], b as [y|]; simpl; [lia|by right|by left..]. Qed.

Lemma not_newer_trans (a b c : option Date) :
  not_newer a b -> not_newer b c -> not_newer a c.
Proof. destruct a as [x|], b as [y|], c as [z|]; simpl; try done. lia. Qed.

Lemma newest_first_cons {A} (key : A -> option Date) (x : A) (l : list A) :
  newest_first key (x :: l)
  <-> Forall (fun y => not_newer (key y) (key x)) l /\ newest_first key l.
Proof.
  unfold newest_first. split.
  - intros H. split.
    + apply Forall_forall. intros y Hy.
      apply list_elem_of_lookup in Hy as [j Hj].
      apply (H 0%nat (S j) x y); [lia|done..].
    + intros i j a b Hij Hi Hj. apply (H (S i) (S j) a b); [lia|done..].
  - intros [Hx Hl] i j a b Hij Hi Hj.
    destruct j as [|j]; [lia|]. simpl in Hj. destruct i as [|i]; simpl in Hi.
    + injection Hi as <-. rewrite Forall_forall in Hx. apply Hx.
      by apply list_elem_of_lookup_2 in Hj.
    + apply (Hl i j a b); [lia|done..].
Qed.

Lemma insert_desc_newest_first {A} (key : A -> option Date) (x : A)
    (l : list A) :
  newest_first key l -> newest_first key (insert_desc key x l).
Proof.
  induction l as [|y l IH]; simpl; intros Hl.
  - apply newest_first_cons. split; [constructor|done].
  - pose proof Hl as Hyl. apply newest_first_cons in Hyl as [Hy Hl'].
    destruct (date_leb (key y) (key x)) eqn:Hle.
    + apply date_leb_not_newer in Hle.
      apply newest_first_cons. split; [|done]. constructor; [done|].
      eapply Forall_impl; [exact Hy|]. simpl. intros z Hz.
      by eapply not_newer_trans.
    + apply newest_first_cons. split; [|by apply IH].
      rewrite insert_desc_perm. constructor; [|done].
      destruct (not_newer_total (key x) (key y)) as [H|H]; [done|].
      apply date_leb_not_newer in H. congruence.
Qed.

Lemma sort_desc_newest_first {A} (key : A -> option Date) (l : list A) :
  newest_first key (sort_desc key l).
Proof.
  unfold sort_desc. induction l as [|x l IH]; simpl.
  - intros i j a b _ Hi. by rewrite lookup_nil in Hi.
  - by apply insert_desc_newest_first.
Qed.

Lemma List_filter_filter {A} (b : A -> bool) (P : A -> Prop)
    `{!forall x, Decision (P x)} (l : list A) :
  (forall x, b x = true <-> P x) -> List.filter b l = filter P l.
Proof.
  intros Hb. induction l as [|x l IH]; [done|].
  rewrite filter_cons. simpl. destruct (b x) eqn:Hx.
  - rewrite decide_True by (by apply Hb). by rewrite IH.
  - rewrite decide_False; [done|]. intros HP. apply Hb in HP. congruence.
Qed.

(** X7.  The two List routes answer 200 with exactly the records whose
    owner is the caller, each once (a task with the employee that its
    assignee reference resolves to), newest first by creation instant, and
    change nothing. *)
Theorem lists_are_own_records_newest_first (user : User) (w : World) :
  (exists l,
     get_employees user w = (respond 200 (JsonEmployees l), w)
     /\ l ≡ₚ filter (fun e => emp_userId e = Some (user_id user))
               (employees (db w))
     /\ newest_first emp_createdAt l)
  /\ (exists l,
        get_tasks user w = (respond 200 (JsonTasks l), w)
        /\ l ≡ₚ map (populate (db w))
                  (filter (fun t => task_userId t = Some (user_id user))
                     (tasks (db w)))
        /\ newest_first (fun t => task_createdAt (pt_task t)) l).
Proof.
  split.
  - eexists. split; [reflexivity|]. split.
    + rewrite sort_desc_perm. unfold Employee_find.
      rewrite (List_filter_filter _
                 (fun e => emp_userId e = Some (user_id user))); [done|].
      intros e. apply owned_by_true.
    + apply sort_desc_newest_first.
  - eexists. split; [reflexivity|]. split.
    + rewrite sort_desc_perm. unfold Task_find.
      rewrite (List_filter_filter _
                 (fun t => task_userId t = Some (user_id user))); [done|].
      intros t. apply owned_by_true.
    + apply sort_desc_newest_first.
Qed.

(** ** What Create stores *)

Lemma Employee_save_fresh (e : Employee) (d d' : Db) :
  Employee_save e d = Ok d' -> emp_id e ∉ map emp_id (employees d).
Proof.
  unfold Employee_save. destruct (Employee_validate e); simpl; [|discriminate].
  by case_bool_decide.
Qed.

Lemma Employee_new_paths (fresh : ObjectId) (now : Date)
    (obj : gmap string jsval) (e : Employee) :
  Employee_new fresh now obj = Ok e ->
  init_id fresh (obj !! "_id") = Ok (emp_id e)
  /\ init_path castString None (obj !! "name") = Ok (emp_name e)
  /\ init_path castString None (obj !! "position") = Ok (emp_position e)
  /\ init_path castString None (obj !! "telegramTag")
     = Ok (emp_telegramTag e)
  /\ init_path castDate (Some now) (obj !! "createdAt")
     = Ok (emp_createdAt e).
Proof. unfold Employee_new. intros H. bind_inv H. by injection H as <-. Qed.

Lemma Task_new_paths (fresh : ObjectId) (now : Date)
    (obj : gmap string jsval) (t : Task) :
  Task_new fresh now obj = Ok t ->
  init_id fresh (obj !! "_id") = Ok (task_id t)
  /\ init_path castString None (obj !! "title") = Ok (task_title t)
  /\ init_path castString None (obj !! "description")
     = Ok (task_description t)
  /\ init_path castObjectId None (obj !! "employeeId")
     = Ok (task_employeeId t)
  /\ init_path castDate None (obj !! "deadline") = Ok (task_deadline t)
  /\ init_path castString (Some "medium") (obj !! "priority")
     = Ok (task_priority t)
  /\ init_path castString (Some "new") (obj !! "status") = Ok (task_status t)
  /\ init_path castString None (obj !! "result") = Ok (task_result t)
  /\ init_path castDate None (obj !! "completedAt")
     = Ok (task_completedAt t)
  /\ init_path castDate (Some now) (obj !! "createdAt")
     = Ok (task_createdAt t)
  /\ init_path castDate (Some now) (obj !! "updatedAt")
     = Ok (task_updatedAt t).
Proof. unfold Task_new. intros H. bind_inv H. by injection H as <-. Qed.

(** The outcomes of Employee Create. *)
Lemma post_employees_cases (body : gmap string jsval) (now : Date)
    (fresh : ObjectId) (user : User) (w w' : World) (r : Response) :
  post_employees body now fresh user w = (r, w') ->
  (r = respond 500 (JsonError "Ошибка создания сотрудника") /\ w' = w)
  \/ exists e,
       Employee_new fresh now (employee_doc body (user_id user)) = Ok e
       /\ Employee_validate e = true
       /\ (emp_id e ∉ map emp_id (employees (db w)))
       /\ emp_userId e = Some (user_id user)
       /\ r = respond 201 (JsonEmployee e)
       /\ w' = with_db w (set_employees (db w) (employees (db w) ++ [e])).
Proof.
  unfold post_employees, employee_doc.
  destruct (Employee_new _ _ _) as [e|] eqn:Hnew; simpl;
    [|intros [= <- <-]; by left].
  destruct (Employee_save e (db w)) as [d|] eqn:Hsave; simpl;
    [|intros [= <- <-]; by left].
  intros [= <- <-]. right. exists e.
  pose proof (Employee_save_fresh _ _ _ Hsave) as Hid.
  apply Employee_save_Ok in Hsave as [-> Hv].
  by apply Employee_new_userId in Hnew.
Qed.

(** The outcomes of Task Create. *)
Lemma post_tasks_cases (body : gmap string jsval) (now : Date)
    (fresh : ObjectId) (outcome : AxiosOutcome) (user : User) (w w' : World)
    (r : Response) :
  post_tasks body now fresh outcome user w = (r, w') ->
  (r = respond 500 (JsonError "Ошибка создания задачи") /\ w' = w)
  \/ exists t,
       Task_new fresh now (task_doc body (user_id user)) = Ok t
       /\ Task_validate t = true
       /\ (task_id t ∉ map task_id (tasks (db w)))
       /\ task_userId t = Some (user_id user)
       /\ db w' = set_tasks (db w) (tasks (db w) ++ [t])
       /\ ((r = respond 500 (JsonError "Ошибка создания задачи")
            /\ outbox w' = outbox w)
           \/ (r = respond 201 (JsonTask (populate (db w') t))
               /\ exists calls,
                    outbox w' = outbox w ++ calls
                    /\ match credentials (Config_findOne (user_id user) (db w))
                       with
                       | Some (botToken, chatId) =>
                           exists message,
                             new_task_message (populate (db w') t) = Ok message
                             /\ calls = [{| call_botToken := JStr botToken;
                                            call_chat_id := JStr chatId;
                                            call_text := message |}]
                       | None => calls = []
                       end)).
Proof.
  unfold post_tasks, task_doc.
  destruct (Task_new _ _ _) as [t|] eqn:Hnew; simpl;
    [|intros [= <- <-]; by left].
  destruct (Task_save t (db w)) as [d|] eqn:Hsave; simpl;
    [|intros [= <- <-]; by left].
  apply Task_save_Ok in Hsave as (-> & Hv & Hid).
  apply Task_new_userId_history in Hnew as [Hu _].
  rewrite Config_findOne_set_tasks.
  intros H. right. exists t. do 4 (split; [done|]).
  destruct (credentials _) as [[botToken chatId]|]; simpl in H.
  - destruct (new_task_message _) as [message|] eqn:Hm; simpl in H.
    + injection H as <- <-. split; [by destruct outcome|]. right.
      split; [by destruct outcome|]. eexists. split; [by destruct outcome|].
      exists message. split; [|done]. by destruct outcome.
    + injection H as <- <-. split; [done|]. by left.
  - injection H as <- <-. split; [done|]. right. split; [done|].
    exists []. by rewrite app_nil_r.
Qed.

Lemma in_enum_true (values : list string) (s : option string) :
  in_enum values s = true <-> forall v, s = Some v -> v ∈ values.
Proof.
  destruct s as [v|]; simpl.
  - rewrite bool_decide_eq_true. split; [by intros ? ? [= <-]|auto].
  - split; [by intros _ ? [=]|done].
Qed.

Lemma required_true {A} (x : option A) : required x = true <-> is_Some x.
Proof.
  destruct x; simpl; [by split; [eexists|]|].
  split; [discriminate|by intros [? [=]]].
Qed.

Lemma Task_validate_true (t : Task) :
  Task_validate t = true ->
  (exists title, task_title t = Some title /\ title ≠ "")
  /\ is_Some (task_employeeId t) /\ is_Some (task_deadline t)
  /\ (forall p, task_priority t = Some p -> p ∈ priority_enum)
  /\ (forall s, task_status t = Some s -> s ∈ status_enum).
Proof.
  unfold Task_validate, required_string.
  rewrite !andb_true_iff, !required_true, !in_enum_true, truthy_Some.
  by intros [[[[[_ ?] ?] ?] ?] ?].
Qed.

(** X8.  A Task Create that answers 201 has stored, at the end of the
    collection and under an identifier that was not in use, a task of the
    caller's that meets the schema: a non-empty title, an assignee
    reference, a deadline, and a priority and a status that, when set, are
    among the listed values. *)
Theorem created_task_meets_schema (body : gmap string jsval) (now : Date)
    (fresh : ObjectId) (outcome : AxiosOutcome) (user : User) (w w' : World)
    (r : Response) :
  post_tasks body now fresh outcome user w = (r, w') -> status r = 201%nat ->
  exists t title eid deadline,
    r = respond 201 (JsonTask (populate (db w') t))
    /\ tasks (db w') = tasks (db w) ++ [t]
    /\ (task_id t ∉ map task_id (tasks (db w)))
    /\ task_userId t = Some (user_id user)
    /\ task_title t = Some title /\ title ≠ ""
    /\ task_employeeId t = Some eid /\ task_deadline t = Some deadline
    /\ (forall p, task_priority t = Some p -> p ∈ priority_enum)
    /\ (forall s, task_status t = Some s -> s ∈ status_enum).
Proof.
  intros H H201.
  apply post_tasks_cases in H as [[-> _]|(t & _ & Hv & Hid & Hu & Hdb & H)];
    [discriminate|].
  destruct H as [[-> _]|[-> _]]; [discriminate|].
  apply Task_validate_true
    in Hv as ((title & Ht & Hne) & [eid He] & [deadline Hd] & Hp & Hs).
  exists t, title, eid, deadline. rewrite Hdb. done.
Qed.

(** X9.  Create validates before it stores: Employee Create without a
    name, and Task Create without a title, an assignee or a deadline, or
    with a priority or a status outside the listed values, answer 500 and
    change nothing. *)
Theorem create_rejects_invalid_body (body : gmap string jsval) (now : Date)
    (fresh : ObjectId) (outcome : AxiosOutcome) (user : User) (w : World) :
  (body !! "name" = None \/ body !! "name" = Some (JStr "") ->
   post_employees body now fresh user w
   = (respond 500 (JsonError "Ошибка создания сотрудника"), w))
  /\ (body !! "title" = None \/ body !! "title" = Some (JStr "")
      \/ body !! "employeeId" = None \/ body !! "deadline" = None
      \/ (exists p, body !! "priority" = Some (JStr p) /\ p ∉ priority_enum)
      \/ (exists s, body !! "status" = Some (JStr s) /\ s ∉ status_enum) ->
      post_tasks body now fresh outcome user w
      = (respond 500 (JsonError "Ошибка создания задачи"), w)).
Proof.
  split; intros Hbody.
  - destruct (post_employees body now fresh user w) as [r w'] eqn:H.
    apply post_employees_cases in H
      as [[-> ->]|(e & Hnew & Hv & _)]; [done|].
    apply Employee_new_paths in Hnew as (_ & Hname & _).
    rewrite employee_doc_lookup in Hname by done.
    unfold Employee_validate in Hv. apply andb_true_iff in Hv as [_ Hv].
    apply truthy_Some in Hv as (name & Hn & Hne).
    destruct Hbody as [Hb|Hb]; rewrite Hb in Hname; simpl in Hname;
      congruence.
  - destruct (post_tasks body now fresh outcome user w) as [r w'] eqn:H.
    apply post_tasks_cases in H as [[-> ->]|(t & Hnew & Hv & _)]; [done|].
    apply Task_new_paths in Hnew
      as (_ & Htitle & _ & Heid & Hdeadline & Hpriority & Hstatus & _).
    rewrite task_doc_lookup in Htitle, Heid, Hdeadline, Hpriority, Hstatus
      by done.
    apply Task_validate_true
      in Hv as ((title & Ht & Hne) & [eid He] & [deadline Hd] & Hp & Hs).
    destruct Hbody as [Hb|[Hb|[Hb|[Hb|[(p & Hb & Hout)|(s & Hb & Hout)]]]]].
    + rewrite Hb in Htitle. simpl in Htitle. congruence.
    + rewrite Hb in Htitle. simpl in Htitle. congruence.
    + rewrite Hb in Heid. simpl in Heid. congruence.
    + rewrite Hb in Hdeadline. simpl in Hdeadline. congruence.
    + rewrite Hb in Hpriority. simpl in Hpriority. destruct Hout.
      apply Hp. congruence.
    + rewrite Hb in Hstatus. simpl in Hstatus. destruct Hout.
      apply Hs. congruence.
Qed.

(** X10.  A Task Create that answers 201 fills what the body leaves out
    with the defaults of the schema: the status new, the priority medium,
    the instant of the request as creation and update instant, a generated
    identifier, and no result and no completion instant; an identifier or
    a creation instant that the body does carry is stored as submitted. *)
Theorem created_task_defaults (body : gmap string jsval) (now : Date)
    (fresh : ObjectId) (outcome : AxiosOutcome) (user : User) (w w' : World)
    (r : Response) :
  post_tasks body now fresh outcome user w = (r, w') -> status r = 201%nat ->
  exists t,
    r = respond 201 (JsonTask (populate (db w') t))
    /\ (body !! "status" = None -> task_status t = Some "new")
    /\ (body !! "priority" = None -> task_priority t = Some "medium")
    /\ (body !! "createdAt" = None -> task_createdAt t = Some now)
    /\ (body !! "updatedAt" = None -> task_updatedAt t = Some now)
    /\ (body !! "result" = None -> task_result t = None)
    /\ (body !! "completedAt" = None -> task_completedAt t = None)
    /\ (body !! "_id" = None -> task_id t = fresh)
    /\ (forall i, body !! "_id" = Some (JStr i) -> task_id t = i)
    /\ (forall ms, body !! "createdAt" = Some (JNum ms) ->
                   task_createdAt t = Some ms).
Proof.
  intros H H201.
  apply post_tasks_cases in H as [[-> _]|(t & Hnew & _ & _ & _ & _ & H)];
    [discriminate|].
  destruct H as [[-> _]|[-> _]]; [discriminate|].
  apply Task_new_paths in Hnew
    as (Hid & _ & _ & _ & _ & Hpriority & Hstatus & Hresult & Hcompleted
        & Hcreated & Hupdated).
  rewrite task_doc_lookup in Hid, Hpriority, Hstatus, Hresult, Hcompleted,
    Hcreated, Hupdated by done.
  exists t. split; [done|].
  repeat split.
  - intros Hb. rewrite Hb in Hstatus. simpl in Hstatus. congruence.
  - intros Hb. rewrite Hb in Hpriority. simpl in Hpriority. congruence.
  - intros Hb. rewrite Hb in Hcreated. simpl in Hcreated. congruence.
  - intros Hb. rewrite Hb in Hupdated. simpl in Hupdated. congruence.
  - intros Hb. rewrite Hb in Hresult. simpl in Hresult. congruence.
  - intros Hb. rewrite Hb in Hcompleted. simpl in Hcompleted. congruence.
  - intros Hb. rewrite Hb in Hid. simpl in Hid. congruence.
  - intros i Hb. rewrite Hb in Hid. simpl in Hid. congruence.
  - intros ms Hb. rewrite Hb in Hcreated. simpl in Hcreated.
    destruct (Z.abs ms <=? max_time)%Z; congruence.
Qed.

(** X11.  A Task Create that answers 201 has made exactly one notification
    attempt, addressed with the token and the chat identifier of the
    caller's Config, when that Config has both; it has made none when the
    caller has no Config or one of the two is missing or empty. *)
Theorem task_create_notification (body : gmap string jsval) (now : Date)
    (fresh : ObjectId) (outcome : AxiosOutcome) (user : User) (w w' : World)
    (r : Response) :
  post_tasks body now fresh outcome user w = (r, w') -> status r = 201%nat ->
  exists t calls,
    r = respond 201 (JsonTask t)
    /\ outbox w' = outbox w ++ calls
    /\ (forall botToken chatId,
          has_credentials (user_id user) (db w) botToken chatId ->
          exists message,
            calls = [{| call_botToken := JStr botToken;
                        call_chat_id := JStr chatId;
                        call_text := message |}])
    /\ ((forall botToken chatId,
           ~ has_credentials (user_id user) (db w) botToken chatId) ->
        calls = []).
Proof.
  intros H H201.
  apply post_tasks_cases in H as [[-> _]|(t & _ & _ & _ & _ & _ & H)];
    [discriminate|].
  destruct H as [[-> _]|(-> & calls & Hout & Hcalls)]; [discriminate|].
  exists (populate (db w') t), calls. split; [done|]. split; [done|].
  destruct (credentials _) as [[tok chat]|] eqn:Hc.
  - apply credentials_Some in Hc. split.
    + intros botToken chatId Hcred.
      destruct Hc as (c & Hfind & Ht & _ & Hch & _).
      destruct Hcred as (c' & Hfind' & Ht' & _ & Hch' & _).
      assert (c' = c) as -> by congruence.
      assert (botToken = tok) as -> by congruence.
      assert (chatId = chat) as -> by congruence.
      destruct Hcalls as (message & _ & ->). by exists message.
    + intros Hnone. by destruct (Hnone tok chat).
  - split; [|done]. intros botToken chatId Hcred.
    apply credentials_Some in Hcred. congruence.
Qed.

(** X12.  Create, then List: after an Employee Create or a Task Create
    that answers 201, the List of the same caller holds the new record
    besides the records it held before. *)
Theorem create_then_list (body : gmap string jsval) (now : Date)
    (fresh : ObjectId) (outcome : AxiosOutcome) (user : User) (w : World) :
  (forall e w',
     post_employees body now fresh user w
     = (respond 201 (JsonEmployee e), w') ->
     employees_of (json (fst (get_employees user w')))
     ≡ₚ e :: employees_of (json (fst (get_employees user w))))
  /\ (forall t w',
        post_tasks body now fresh outcome user w
        = (respond 201 (JsonTask t), w') ->
        tasks_of (json (fst (get_tasks user w')))
        ≡ₚ pt_task t :: tasks_of (json (fst (get_tasks user w)))).
Proof.
  split.
  - intros e w' H.
    apply post_employees_cases in H
      as [[[=] _]|(e' & _ & _ & _ & Hu & [= <-] & ->)].
    simpl. rewrite !sort_desc_perm. unfold Employee_find. simpl.
    rewrite List.filter_app. simpl.
    rewrite (proj2 (owned_by_true _ _) Hu).
    by rewrite <- Permutation_cons_append.
  - intros t w' H.
    apply post_tasks_cases in H
      as [[[=] _]|(t' & _ & _ & _ & Hu & Hdb & [[[=] _]|([= ->] & _)])].
    simpl. rewrite !sort_desc_perm. unfold Task_find. rewrite Hdb. simpl.
    rewrite List.filter_app. simpl.
    rewrite (proj2 (owned_by_true _ _) Hu).
    rewrite !map_app, !map_map. simpl.
    by rewrite <- Permutation_cons_append.
Qed.

(** X13.  A task protects its assignee: after a Task Create that answers
    201 for the assignee [eid], the caller's Employee Delete of [eid]
    answers 400 and changes nothing. *)
Theorem assigned_employee_is_kept (body : gmap string jsval) (now : Date)
    (fresh : ObjectId) (outcome : AxiosOutcome) (user : User) (w w' : World)
    (r : Response) (eid : ObjectId) :
  post_tasks body now fresh outcome user w = (r, w') -> status r = 201%nat ->
  body !! "employeeId" = Some (JStr eid) ->
  delete_employees_id eid user w'
  = (respond 400 (JsonError "Нельзя удалить сотрудника с активными задачами"),
     w').
Proof.
  intros H H201 Hbody.
  apply post_tasks_cases in H as [[-> _]|(t & Hnew & _ & _ & Hu & Hdb & _)];
    [discriminate|].
  apply Task_new_paths in Hnew as (_ & _ & _ & Heid & _).
  rewrite task_doc_lookup, Hbody in Heid by done. simpl in Heid.
  unfold delete_employees_id.
  rewrite (proj2 (Task_countDocuments_pos (user_id user) eid (db w'))); [done|].
  exists t. rewrite Hdb. simpl. split; [|split; [done|congruence]].
  apply elem_of_app. right. left.
Qed.

(** ** Update and Delete of one record *)

Lemma has_employee_find (uid id : ObjectId) (d : Db) :
  has_employee uid id d
  <-> is_Some (find_first (fun e => is_doc id uid (emp_id e) (emp_userId e))
                 (employees d)).
Proof.
  unfold has_employee. split.
  - intros (e & He & Hid & Hu). eapply find_first_is_Some; [done|].
    by apply is_doc_true.
  - intros [e He]. apply find_first_Some in He as (l1 & l2 & -> & HP & _).
    apply is_doc_true in HP as [? ?]. exists e.
    split; [apply elem_of_app; right; left|done].
Qed.

Lemma has_task_find (uid id : ObjectId) (d : Db) :
  has_task uid id d <-> is_Some (Task_findOne id uid d).
Proof.
  unfold has_task, Task_findOne. split.
  - intros (t & Ht & Hid & Hu). eapply find_first_is_Some; [done|].
    by apply is_doc_true.
  - intros [t Ht]. apply find_first_Some in Ht as (l1 & l2 & -> & HP & _).
    apply is_doc_true in HP as [? ?]. exists t.
    split; [apply elem_of_app; right; left|done].
Qed.

Lemma not_is_Some_None {A} (x : option A) : ~ is_Some x -> x = None.
Proof. destruct x; [|done]. intros H. destruct H. by eexists. Qed.

(** The outcomes of Employee Update. *)
Lemma put_employees_id_cases (id : ObjectId) (body : gmap string jsval)
    (user : User) (w w' : World) (r : Response) :
  put_employees_id id body user w = (r, w') ->
  let P := fun e => is_doc id (user_id user) (emp_id e) (emp_userId e) in
  (r = respond 500 (JsonError "Ошибка обновления сотрудника") /\ w' = w)
  \/ (r = respond 404 (JsonError "Сотрудник не найден") /\ w' = w
      /\ find_first P (employees (db w)) = None)
  \/ exists l1 e l2 e',
       employees (db w) = l1 ++ e :: l2 /\ P e = true
       /\ (forall y, y ∈ l1 -> P y = false)
       /\ Employee_set body e = Ok e'
       /\ r = respond 200 (JsonEmployee e')
       /\ w' = with_db w (set_employees (db w) (l1 ++ e' :: l2)).
Proof.
  intros H P. unfold put_employees_id in H.
  destruct (Employee_findOneAndUpdate _ _ _ _) as [[d [e'|]]|] eqn:E;
    [| |left; by injection H as <- <-];
    apply Employee_findOneAndUpdate_Ok in E; simpl in E;
    injection H as <- <-.
  - destruct E as (l1 & e & l2 & Hsplit & HPe & Hl1 & Hset & ->).
    right. right. by exists l1, e, l2, e'.
  - destruct E as [-> Hnone]. right. left. by rewrite with_db_id.
Qed.

(** X14.  For an identifier in canonical form, Task Delete removes the
    task with that identifier when the caller owns one, keeps every other
    task in place and answers 200; otherwise it answers 404 and changes
    nothing.  Where task identifiers are unique, a second Delete of the
    same task answers 404. *)
Theorem task_delete_outcomes (id : ObjectId) (user : User) (w : World) :
  canonical_id id = true ->
  (has_task (user_id user) id (db w) ->
   exists l1 t l2,
     tasks (db w) = l1 ++ t :: l2
     /\ task_id t = id /\ task_userId t = Some (user_id user)
     /\ (forall t', t' ∈ l1 ->
           ~ (task_id t' = id /\ task_userId t' = Some (user_id user)))
     /\ delete_tasks_id id user w
        = (respond 200 (JsonMessage "Задача удалена"),
           with_db w (set_tasks (db w) (l1 ++ l2))))
  /\ (~ has_task (user_id user) id (db w) ->
      delete_tasks_id id user w
      = (respond 404 (JsonError "Задача не найдена"), w))
  /\ (NoDup (map task_id (tasks (db w))) ->
      delete_tasks_id id user (snd (delete_tasks_id id user w))
      = (respond 404 (JsonError "Задача не найдена"),
         snd (delete_tasks_id id user w))).
Proof.
  intros _.
  assert (Hnone : forall w0, ~ has_task (user_id user) id (db w0) ->
            delete_tasks_id id user w0
            = (respond 404 (JsonError "Задача не найдена"), w0)).
  { intros w0 H. rewrite has_task_find in H. apply not_is_Some_None in H.
    unfold delete_tasks_id, Task_findOneAndDelete.
    unfold Task_findOne in H. rewrite H. by rewrite with_db_id. }
  assert (Hsome : has_task (user_id user) id (db w) ->
            exists l1 t l2,
              tasks (db w) = l1 ++ t :: l2
              /\ task_id t = id /\ task_userId t = Some (user_id user)
              /\ (forall t', t' ∈ l1 ->
                    ~ (task_id t' = id
                       /\ task_userId t' = Some (user_id user)))
              /\ delete_tasks_id id user w
                 = (respond 200 (JsonMessage "Задача удалена"),
                    with_db w (set_tasks (db w) (l1 ++ l2)))).
  { intros H. apply has_task_find in H as [t Ht].
    unfold delete_tasks_id, Task_findOneAndDelete.
    unfold Task_findOne in Ht. rewrite Ht.
    apply find_first_Some in Ht as (l1 & l2 & Hsplit & HP & Hl1).
    exists l1, t, l2. destruct (proj1 (is_doc_true _ _ _ _) HP) as [Hid Hu].
    do 3 (split; [done|]). split.
    - intros t' Ht'. apply is_doc_false. by apply Hl1.
    - rewrite Hsplit at 1. by rewrite remove_first_split. }
  split; [done|]. split; [by apply Hnone|].
  intros Hdup. apply Hnone.
  assert (Hdec : has_task (user_id user) id (db w)
                 \/ ~ has_task (user_id user) id (db w)).
  { rewrite has_task_find.
    destruct (Task_findOne id (user_id user) (db w)); [left; by eexists|].
    right. by intros [? [=]]. }
  destruct Hdec as [H|H].
  - destruct (Hsome H) as (l1 & t & l2 & Hsplit & Hid & _ & _ & ->).
    simpl. intros (t' & Ht' & Hid' & _). simpl in Ht'.
    rewrite Hsplit, map_app in Hdup. simpl in Hdup.
    apply NoDup_app in Hdup as (_ & Hl1 & Hl2).
    apply NoDup_cons in Hl2 as [Hl2 _].
    apply elem_of_app in Ht' as [Ht'|Ht'].
    + apply (Hl1 id); [|rewrite Hid; left].
      rewrite <- Hid'. by apply list_elem_of_fmap_2.
    + apply Hl2. rewrite Hid, <- Hid'. by apply list_elem_of_fmap_2.
  - by rewrite (Hnone w H).
Qed.

(** X15.  An Update, under an identifier in canonical form, of a record
    that the caller does not own or that does not exist changes nothing.
    Task Update answers 404, whatever the body.  Employee Update answers
    404 or 500, whatever the body: 404 when the keys of the body name
    fields, its values are scalars and it names no identifier, owner or
    creation instant; 500 when the creation instant in the body is a
    string that is not a date (the cast of the update precedes the
    query). *)
Theorem update_of_missing_record (id : ObjectId) (body : gmap string jsval)
    (now : Date) (outcome : AxiosOutcome) (user : User) (w : World) :
  canonical_id id = true ->
  (~ has_task (user_id user) id (db w) ->
   put_tasks_id id body now outcome user w
   = (respond 404 (JsonError "Задача не найдена"), w))
  /\ (~ has_employee (user_id user) id (db w) ->
      (put_employees_id id body user w
       = (respond 404 (JsonError "Сотрудник не найден"), w)
       \/ put_employees_id id body user w
          = (respond 500 (JsonError "Ошибка обновления сотрудника"), w))
      /\ (plain_keys body -> flat body ->
          body !! "_id" = None -> body !! "userId" = None ->
          body !! "createdAt" = None ->
          put_employees_id id body user w
          = (respond 404 (JsonError "Сотрудник не найден"), w))
      /\ (forall s,
            body !! "createdAt" = Some (JStr s) -> s ≠ "" ->
            Date_parse s = None ->
            put_employees_id id body user w
            = (respond 500 (JsonError "Ошибка обновления сотрудника"), w))).
Proof.
  intros _. split.
  - intros H. rewrite has_task_find in H. apply not_is_Some_None in H.
    unfold put_tasks_id. by rewrite H.
  - intros H. rewrite has_employee_find in H. apply not_is_Some_None in H.
    assert (Hcases :
      put_employees_id id body user w
      = (match Employee_set body blank_employee with
         | Ok _ => respond 404 (JsonError "Сотрудник не найден")
         | Throw _ => respond 500 (JsonError "Ошибка обновления сотрудника")
         end, w)).
    { unfold put_employees_id, Employee_findOneAndUpdate.
      destruct (Employee_set body blank_employee); simpl; [|done].
      rewrite H. by rewrite with_db_id. }
    rewrite Hcases. split; [|split].
    + destruct (Employee_set body blank_employee); [by left|by right].
    + intros _ Hflat Hid Huid Hcreated.
      assert (Hstr : forall k stored,
                 exists x, set_path castString stored (body !! k) = Ok x).
      { intros k stored. destruct (body !! k) as [v|] eqn:Hv; simpl;
          [|by eexists].
        specialize (Hflat k v Hv). simpl in Hflat.
        destruct v as [|[|]| | | | |]; simpl; try discriminate; by eexists. }
      unfold Employee_set. rewrite Huid, Hcreated. simpl.
      destruct (Hstr "name" None) as [x1 ->].
      destruct (Hstr "position" None) as [x2 ->].
      destruct (Hstr "telegramTag" None) as [x3 ->]. done.
    + intros s Hcreated Hne Hparse.
      unfold Employee_set. rewrite Hcreated. simpl.
      rewrite (proj2 (String.eqb_neq _ _) Hne), Hparse.
      destruct (set_path castObjectId _ _); simpl; [|done].
      destruct (set_path castString _ (body !! "name")); simpl; [|done].
      destruct (set_path castString _ (body !! "position")); simpl; [|done].
      by destruct (set_path castString _ (body !! "telegramTag")).
Qed.

Lemma Employee_set_createdAt (body : gmap string jsval) (e e' : Employee) :
  Employee_set body e = Ok e' ->
  set_path castDate (emp_createdAt e) (body !! "createdAt")
  = Ok (emp_createdAt e').
Proof. unfold Employee_set. intros H. bind_inv H. by injection H as <-. Qed.

Lemma Task_applyUpdate_task_update_dates (now : Date)
    (body : gmap string jsval) (t t' : Task) :
  Task_applyUpdate now (task_update now body) t = Ok t' ->
  set_path castDate (task_deadline t) (body !! "deadline")
  = Ok (task_deadline t')
  /\ set_path castDate (task_completedAt t) (body !! "completedAt")
     = Ok (task_completedAt t')
  /\ set_path castDate (task_createdAt t) (body !! "createdAt")
     = Ok (task_createdAt t')
  /\ task_updatedAt t' = Some now.
Proof.
  unfold Task_applyUpdate. rewrite castPush_task_update. simpl.
  rewrite (task_update_lookup now body "history") by done.
  destruct (body !! "history") as [v|] eqn:Hh; simpl; [discriminate|].
  destruct (Task_set now (task_update now body) t) as [a|] eqn:E; simpl;
    [|discriminate].
  intros [= <-]. unfold Task_set in E.
  rewrite (task_update_lookup now body "deadline"),
    (task_update_lookup now body "completedAt"),
    (task_update_lookup now body "history"),
    (task_update_lookup now body "createdAt") in E by done.
  assert (Hupd : task_update now body !! "updatedAt" = Some (JDate now)).
  { unfold task_update, spread_then.
    rewrite lookup_insert_ne by done. by rewrite lookup_insert_eq. }
  rewrite Hupd, Hh in E. simpl in E. bind_inv E. by injection E as <-.
Qed.

Lemma set_path_absent {A} (cast : jsval -> result (option A))
    (stored new : option A) (given : option jsval) :
  set_path cast stored given = Ok new -> given = None -> new = stored.
Proof. intros H ->. simpl in H. by injection H. Qed.

(** X16.  A successful Update, under an identifier in canonical form and
    with a body whose keys name fields, leaves every path that the body
    does not name as it was, the owner included, and keeps the record in
    its place in the collection; Task Update also stamps the instant of
    the request as update instant, whatever the body says. *)
Theorem update_keeps_unnamed_paths :
  (forall id body user w r w',
     canonical_id id = true -> plain_keys body ->
     put_employees_id id body user w = (r, w') -> status r = 200%nat ->
     exists l1 e l2 e',
       employees (db w) = l1 ++ e :: l2 /\ employees (db w') = l1 ++ e' :: l2
       /\ emp_id e = id /\ emp_id e' = id
       /\ r = respond 200 (JsonEmployee e')
       /\ (body !! "userId" = None -> emp_userId e' = Some (user_id user))
       /\ (body !! "name" = None -> emp_name e' = emp_name e)
       /\ (body !! "position" = None -> emp_position e' = emp_position e)
       /\ (body !! "telegramTag" = None ->
           emp_telegramTag e' = emp_telegramTag e)
       /\ (body !! "createdAt" = None -> emp_createdAt e' = emp_createdAt e))
  /\ (forall id body now outcome user w r w',
        canonical_id id = true -> plain_keys body ->
        put_tasks_id id body now outcome user w = (r, w') ->
        status r = 200%nat ->
        exists l1 t l2 t',
          tasks (db w) = l1 ++ t :: l2 /\ tasks (db w') = l1 ++ t' :: l2
          /\ task_id t = id /\ task_id t' = id
          /\ r = respond 200 (JsonTask (populate (db w') t'))
          /\ task_updatedAt t' = Some now
          /\ (body !! "userId" = None ->
              task_userId t' = Some (user_id user))
          /\ (body !! "title" = None -> task_title t' = task_title t)
          /\ (body !! "description" = None ->
              task_description t' = task_description t)
          /\ (body !! "employeeId" = None ->
              task_employeeId t' = task_employeeId t)
          /\ (body !! "deadline" = None -> task_deadline t' = task_deadline t)
          /\ (body !! "priority" = None -> task_priority t' = task_priority t)
          /\ (body !! "status" = None -> task_status t' = task_status t)
          /\ (body !! "result" = None -> task_result t' = task_result t)
          /\ (body !! "completedAt" = None ->
              task_completedAt t' = task_completedAt t)
          /\ (body !! "createdAt" = None ->
              task_createdAt t' = task_createdAt t)).
Proof.
  split.
  - intros id body user w r w' _ _ H H200.
    apply put_employees_id_cases in H as [[-> _]|[(-> & _)|H]];
      [discriminate..|].
    destruct H as (l1 & e & l2 & e' & Hsplit & HP & _ & Hset & -> & ->).
    apply is_doc_true in HP as [Hid Hu].
    pose proof (Employee_set_id _ _ _ Hset) as Hid'.
    pose proof (Employee_set_createdAt _ _ _ Hset) as Hc.
    apply Employee_set_paths in Hset as (Huid & Hn & Hp & Htag).
    exists l1, e, l2, e'. do 2 (split; [done|]).
    split; [done|]. split; [congruence|]. split; [done|].
    repeat split; intros Hb.
    + rewrite <- Hu. by eapply set_path_absent.
    + by eapply set_path_absent.
    + by eapply set_path_absent.
    + by eapply set_path_absent.
    + by eapply set_path_absent.
  - intros id body now outcome user w r w' _ _ H H200.
    apply put_tasks_id_appends in H
      as (l1 & t & l2 & t' & Hsplit & Hsplit' & Hid & Hid' & Hu & -> & Hset
          & _); [|done].
    pose proof (Task_applyUpdate_task_update_dates _ _ _ _ Hset)
      as (Hdl & Hco & Hcr & Hup).
    apply Task_applyUpdate_task_update in Hset
      as (_ & _ & _ & Huid & Hti & Hde & Hei & Hpr & Hst & Hre).
    exists l1, t, l2, t'. do 6 (split; [done|]).
    repeat split; intros Hb.
    + rewrite <- Hu. by eapply set_path_absent.
    + by eapply set_path_absent.
    + by eapply set_path_absent.
    + by eapply set_path_absent.
    + by eapply set_path_absent.
    + by eapply set_path_absent.
    + by eapply set_path_absent.
    + by eapply set_path_absent.
    + by eapply set_path_absent.
    + by eapply set_path_absent.
Qed.

(** ** The Config of a caller *)

Lemma Config_findOne_None (uid : ObjectId) (d : Db) :
  Config_findOne uid d = None ->
  Some uid ∉ map cfg_userId (configs d).
Proof.
  unfold Config_findOne. rewrite find_first_None. intros H Hin.
  apply list_elem_of_fmap in Hin as (c & Hc & Hin).
  specialize (H c Hin). apply not_true_iff_false in H. apply H.
  by apply owned_by_true.
Qed.

Lemma Config_findOne_snoc (uid : ObjectId) (d : Db) (c : Config) :
  Config_findOne uid d = None ->
  Config_findOne uid (set_configs d (configs d ++ [c]))
  = if bool_decide (cfg_userId c = Some uid) then Some c else None.
Proof.
  unfold Config_findOne. simpl. intros H.
  rewrite find_first_None in H. case_bool_decide as Hc.
  - apply find_first_snoc; [done|]. by apply owned_by_true.
  - apply find_first_None. intros y [Hy|Hy]%elem_of_app; [by apply H|].
    apply list_elem_of_singleton in Hy as ->.
    apply not_true_iff_false. by rewrite owned_by_true.
Qed.

Lemma find_first_replace_first {A} (P Q : A -> bool) (x c : A)
    (l1 l2 : list A) :
  (forall y, y ∈ l1 -> Q y = false) -> P c = true -> Q x = true ->
  find_first Q (replace_first P x (l1 ++ c :: l2)) = Some x.
Proof.
  intros Hl1 Hc Hx. unfold find_first.
  induction l1 as [|y l1 IH]; simpl.
  - rewrite Hc. simpl. by rewrite Hx.
  - destruct (P y); simpl.
    + by rewrite Hx.
    + rewrite (Hl1 y (list_elem_of_here _ _)). apply IH.
      intros y' Hy'. apply Hl1. by apply list_elem_of_further.
Qed.

Lemma Config_new_paths (fresh : ObjectId) (obj : gmap string jsval)
    (c : Config) :
  Config_new fresh obj = Ok c ->
  init_id fresh (obj !! "_id") = Ok (cfg_id c)
  /\ init_path castObjectId None (obj !! "userId") = Ok (cfg_userId c)
  /\ init_path castString None (obj !! "botToken") = Ok (cfg_botToken c)
  /\ init_path castString None (obj !! "chatId") = Ok (cfg_chatId c).
Proof. unfold Config_new. intros H. bind_inv H. by injection H as <-. Qed.

Lemma then_spread_lookup (k k' : string) (v : jsval)
    (a : gmap string jsval) :
  k' ≠ k -> then_spread k v a !! k' = a !! k'.
Proof.
  intros H. unfold then_spread. apply lookup_union_l.
  by apply lookup_singleton_ne.
Qed.

(** The outcomes of Config Update. *)
Lemma put_config_cases (body : gmap string jsval) (fresh : ObjectId)
    (user : User) (w w' : World) (r : Response) :
  put_config body fresh user w = (r, w') ->
  (r = respond 500 (JsonError "Ошибка обновления конфигурации") /\ w' = w)
  \/ (exists c0 c,
        Config_findOne (user_id user) (db w) = Some c0
        /\ cfg_id c = cfg_id c0 /\ cfg_userId c = cfg_userId c0
        /\ init_path castString None (body !! "botToken")
           = Ok (cfg_botToken c)
        /\ init_path castString None (body !! "chatId") = Ok (cfg_chatId c)
        /\ r = respond 200 (JsonConfig c)
        /\ w' = with_db w
                  (set_configs (db w)
                     (replace_first
                        (fun c' => bool_decide (cfg_id c' = cfg_id c)) c
                        (configs (db w)))))
  \/ (exists c,
        Config_findOne (user_id user) (db w) = None
        /\ Config_new fresh (then_spread "userId" (JStr (user_id user)) body)
           = Ok c
        /\ (cfg_id c ∉ map cfg_id (configs (db w)))
        /\ (cfg_userId c ∉ map cfg_userId (configs (db w)))
        /\ r = respond 200 (JsonConfig c)
        /\ w' = with_db w (set_configs (db w) (configs (db w) ++ [c]))).
Proof.
  unfold put_config.
  destruct (Config_findOne _ _) as [c0|] eqn:Hfind.
  - destruct (init_path _ _ (body !! "botToken")) as [tok|] eqn:Ht; simpl;
      [|intros [= <- <-]; by left].
    destruct (init_path _ _ (body !! "chatId")) as [chat|] eqn:Hc; simpl;
      [|intros [= <- <-]; by left].
    destruct (Config_save _ _) as [d|] eqn:Hsave; simpl;
      [|intros [= <- <-]; by left].
    intros [= <- <-]. right. left.
    apply Config_save_Ok in Hsave as [-> _].
    by exists c0, {| cfg_id := cfg_id c0; cfg_userId := cfg_userId c0;
                     cfg_botToken := tok; cfg_chatId := chat |}.
  - destruct (Config_new _ _) as [c|] eqn:Hnew; simpl;
      [|intros [= <- <-]; by left].
    destruct (Config_save_new _ _) as [d|] eqn:Hsave; simpl;
      [|intros [= <- <-]; by left].
    intros [= <- <-]. right. right.
    apply Config_save_new_Ok in Hsave as (-> & _ & Hid & Hu).
    by exists c.
Qed.

(** X17.  Config Get creates the caller's Config on first use and only
    then: with a free identifier it answers 200 with a Config of the
    caller's; when the caller had none, that is a new record with an empty
    token and an empty chat identifier, stored at the end of the
    collection, and otherwise nothing changes; every further Get answers
    with the same record and changes nothing. *)
Theorem config_get_creates_once (fresh : ObjectId) (user : User) (w : World) :
  fresh ∉ map cfg_id (configs (db w)) ->
  exists c w',
    get_config fresh user w = (respond 200 (JsonConfig c), w')
    /\ cfg_userId c = Some (user_id user)
    /\ (Config_findOne (user_id user) (db w) = None ->
        c = {| cfg_id := fresh; cfg_userId := Some (user_id user);
               cfg_botToken := Some ""; cfg_chatId := Some "" |}
        /\ w' = with_db w (set_configs (db w) (configs (db w) ++ [c])))
    /\ (is_Some (Config_findOne (user_id user) (db w)) -> w' = w)
    /\ forall fresh',
         get_config fresh' user w' = (respond 200 (JsonConfig c), w').
Proof.
  intros Hfresh. unfold get_config.
  destruct (Config_findOne (user_id user) (db w)) as [c|] eqn:Hfind.
  - exists c, w. split; [done|]. split.
    { unfold Config_findOne in Hfind.
      apply find_first_Some in Hfind as (_ & _ & _ & HP & _).
      by apply owned_by_true in HP. }
    split; [done|]. split; [done|]. intros fresh'. by rewrite Hfind.
  - rewrite Config_new_blank. simpl.
    set (c := {| cfg_id := fresh; cfg_userId := Some (user_id user);
                 cfg_botToken := Some ""; cfg_chatId := Some "" |}).
    assert (Hsave : Config_save_new c (db w)
                    = Ok (set_configs (db w) (configs (db w) ++ [c]))).
    { unfold Config_save_new. simpl.
      rewrite bool_decide_eq_false_2 by done.
      by rewrite bool_decide_eq_false_2 by (by apply Config_findOne_None). }
    rewrite Hsave. simpl. eexists c, _. split; [done|]. split; [done|].
    split; [done|]. split; [by intros [? [=]]|].
    intros fresh'. simpl. rewrite Config_findOne_snoc by done.
    by rewrite bool_decide_eq_true_2.
Qed.

(** X18.  Config Update, then Config Get: when the caller has a Config, or
    the body carries no userId, an Update that answers 200 stores the
    token and the chat identifier of the body as the caller's (a key that
    the body lacks leaves the stored value unset), and every later Get
    answers with that record and changes nothing. *)
Theorem config_update_then_get (body : gmap string jsval) (fresh : ObjectId)
    (user : User) (w w' : World) (r : Response) :
  put_config body fresh user w = (r, w') -> status r = 200%nat ->
  is_Some (Config_findOne (user_id user) (db w)) \/ body !! "userId" = None ->
  exists c,
    r = respond 200 (JsonConfig c)
    /\ cfg_userId c = Some (user_id user)
    /\ (forall s, body !! "botToken" = Some (JStr s) -> cfg_botToken c = Some s)
    /\ (forall s, body !! "chatId" = Some (JStr s) -> cfg_chatId c = Some s)
    /\ (body !! "botToken" = None -> cfg_botToken c = None)
    /\ (body !! "chatId" = None -> cfg_chatId c = None)
    /\ forall fresh',
         get_config fresh' user w' = (respond 200 (JsonConfig c), w').
Proof.
  intros H H200 Hcase.
  assert (Hpaths : forall c : Config,
            init_path castString None (body !! "botToken")
            = Ok (cfg_botToken c) ->
            init_path castString None (body !! "chatId") = Ok (cfg_chatId c) ->
            (forall s, body !! "botToken" = Some (JStr s) ->
                       cfg_botToken c = Some s)
            /\ (forall s, body !! "chatId" = Some (JStr s) ->
                          cfg_chatId c = Some s)
            /\ (body !! "botToken" = None -> cfg_botToken c = None)
            /\ (body !! "chatId" = None -> cfg_chatId c = None)).
  { intros c Ht Hc. repeat split.
    - intros s Hb. rewrite Hb in Ht. simpl in Ht. congruence.
    - intros s Hb. rewrite Hb in Hc. simpl in Hc. congruence.
    - intros Hb. rewrite Hb in Ht. simpl in Ht. congruence.
    - intros Hb. rewrite Hb in Hc. simpl in Hc. congruence. }
  apply put_config_cases in H as [[-> _]|[H|H]]; [discriminate| |].
  - destruct H as (c0 & c & Hfind & Hid & Hu & Ht & Hc & -> & ->).
    unfold Config_findOne in Hfind.
    apply find_first_Some in Hfind as (l1 & l2 & Hsplit & HP & Hl1).
    assert (Hown : cfg_userId c = Some (user_id user)).
    { rewrite Hu. by apply owned_by_true. }
    exists c. split; [done|]. split; [done|].
    destruct (Hpaths c Ht Hc) as (? & ? & ? & ?). do 4 (split; [done|]).
    intros fresh'. unfold get_config, Config_findOne. simpl.
    rewrite Hsplit, (find_first_replace_first _ _ c c0); [done..| |].
    + apply bool_decide_eq_true. congruence.
    + by apply owned_by_true.
  - destruct H as (c & Hfind & Hnew & _ & _ & -> & ->).
    destruct Hcase as [[c0 Hc0]|Hbody]; [congruence|].
    apply Config_new_paths in Hnew as (_ & Hu & Ht & Hc).
    rewrite then_spread_lookup in Ht, Hc by done.
    assert (Hown : cfg_userId c = Some (user_id user)).
    { unfold then_spread in Hu.
      rewrite lookup_union_r, lookup_singleton_eq in Hu by done.
      simpl in Hu. congruence. }
    exists c. split; [done|]. split; [done|].
    destruct (Hpaths c Ht Hc) as (? & ? & ? & ?). do 4 (split; [done|]).
    intros fresh'. unfold get_config. simpl.
    rewrite Config_findOne_snoc by done.
    by rewrite bool_decide_eq_true_2.
Qed.


Lemma truthy_failure_reason (description : option string) (message : string) :
  (if truthy description then default "" description else message)
  = failure_reason description message.
Proof.
  unfold failure_reason. destruct description as [d|]; simpl; [|done].
  case_decide as Hd.
  - by rewrite Hd.
  - apply String.eqb_neq in Hd. by rewrite Hd.
Qed.

(** X20.  The Telegram test never touches the database.  Without a token
    or a chat identifier in the body it answers 400 and sends nothing;
    with both it makes exactly one call, with the credentials of the body
    and the test text, and answers 200 when the call succeeds and 400 with
    the reason of the failure when it does not. *)
Theorem test_telegram_outcomes (body : gmap string jsval)
    (outcome : AxiosOutcome) (user : User) (w : World) :
  db (snd (post_config_test_telegram body outcome user w)) = db w
  /\ (body !! "botToken" = None \/ body !! "botToken" = Some (JStr "")
      \/ body !! "chatId" = None \/ body !! "chatId" = Some (JStr "") ->
      post_config_test_telegram body outcome user w
      = (respond 400 (JsonError "Укажите токен бота и ID чата"), w))
  /\ (forall botToken chatId,
        body !! "botToken" = Some (JStr botToken) -> botToken ≠ "" ->
        body !! "chatId" = Some (JStr chatId) -> chatId ≠ "" ->
        post_config_test_telegram body outcome user w
        = (match outcome with
           | AxiosResolved =>
               respond 200 (JsonMessage "Сообщение отправлено успешно!")
           | AxiosRejected description message =>
               respond 400 (JsonError (failure_reason description message))
           end,
           {| db := db w;
              outbox :=
                outbox w
                ++ [{| call_botToken := JStr botToken;
                       call_chat_id := JStr chatId;
                       call_text :=
                         "🎉 <b>Тестовое сообщение</b>" +:+ LF +:+ LF
                         +:+ "Интеграция Telegram работает корректно!" |}]
           |})).
Proof.
  unfold post_config_test_telegram. split; [|split].
  - destruct (negb _ || negb _); [done|]. by destruct outcome.
  - intros [Hb|[Hb|[Hb|Hb]]]; rewrite Hb; simpl; [done..| |];
      by rewrite orb_true_r.
  - intros botToken chatId Ht Hnt Hc Hnc. rewrite Ht, Hc. simpl.
    rewrite (proj2 (String.eqb_neq _ _) Hnt), (proj2 (String.eqb_neq _ _) Hnc).
    simpl. destruct outcome as [|description message]; simpl; [done|].
    by rewrite truthy_failure_reason.
Qed.

(** ** The unique indexes *)

Lemma NoDup_snoc_key {A K} (key : A -> K) (l : list A) (x : A) :
  NoDup (map key l) -> key x ∉ map key l -> NoDup (map key (l ++ [x])).
Proof.
  intros Hl Hx. rewrite map_app. simpl. apply NoDup_app.
  split; [done|]. split; [|apply NoDup_singleton].
  by intros k Hk ->%list_elem_of_singleton.
Qed.

Lemma map_key_replace {A K} (key : A -> K) (l1 l2 : list A) (x x' : A) :
  key x' = key x -> map key (l1 ++ x' :: l2) = map key (l1 ++ x :: l2).
Proof. intros H. rewrite !map_app. simpl. by rewrite H. Qed.

Lemma NoDup_remove_key {A K} (key : A -> K) (l1 l2 : list A) (x : A) :
  NoDup (map key (l1 ++ x :: l2)) -> NoDup (map key (l1 ++ l2)).
Proof.
  rewrite !map_app. simpl. rewrite <- Permutation_middle.
  apply NoDup_cons_1_2.
Qed.

Lemma NoDup_key_before {A K} (key : A -> K) (l1 l2 : list A) (x y : A) :
  NoDup (map key (l1 ++ x :: l2)) -> y ∈ l1 -> key y ≠ key x.
Proof.
  rewrite map_app. simpl. intros (_ & H & _)%NoDup_app Hy Heq.
  apply (H (key y)); [by apply list_elem_of_fmap_2|]. rewrite Heq. left.
Qed.

Lemma handler_unique_indexes (req : Request) (now : Date) (user : User)
    (w : World) :
  unique_indexes (db w) -> unique_indexes (db (snd (handler req now user w))).
Proof.
  intros Hwf. pose proof Hwf as (Hu & Hue & He & Ht & Hc & Hcu).
  destruct req; simpl; try done.
  - destruct (post_employees body now fresh user w) as [r w'] eqn:E. simpl.
    apply post_employees_cases in E
      as [[_ ->]|(e & _ & _ & Hid & _ & _ & ->)]; [done|].
    unfold unique_indexes. simpl. repeat split; try done.
    by apply NoDup_snoc_key.
  - destruct (put_employees_id id body user w) as [r w'] eqn:E. simpl.
    apply put_employees_id_cases in E as [[_ ->]|[(_ & -> & _)|E]];
      [done..|].
    destruct E as (l1 & e & l2 & e' & Hsplit & _ & _ & Hset & _ & ->).
    apply Employee_set_id in Hset.
    unfold unique_indexes. simpl. repeat split; try done.
    rewrite (map_key_replace emp_id _ _ e) by done. by rewrite <- Hsplit.
  - unfold delete_employees_id, Employee_findOneAndDelete.
    destruct (0 <? _)%nat; [done|].
    destruct (find_first _ _) as [e|] eqn:Hf; [|done]. simpl.
    apply find_first_Some in Hf as (l1 & l2 & Hsplit & HP & Hl1).
    unfold unique_indexes. simpl. repeat split; try done.
    rewrite Hsplit, remove_first_split by done.
    rewrite Hsplit in He. by apply NoDup_remove_key in He.
  - destruct (post_tasks body now fresh outcome user w) as [r w'] eqn:E.
    simpl.
    apply post_tasks_cases in E
      as [[_ ->]|(t & _ & _ & Hid & _ & Hdb & _)]; [done|].
    rewrite Hdb. unfold unique_indexes. simpl. repeat split; try done.
    by apply NoDup_snoc_key.
  - destruct (put_tasks_id id body now outcome user w) as [r w'] eqn:E.
    simpl.
    apply put_tasks_id_cases in E as [(_ & _ & ->)|(t & _ & [[_ ->]|E])];
      [done..|].
    destruct E as (l1 & l2 & t' & Hsplit & _ & Happly & Hdb & _).
    apply Task_applyUpdate_task_update in Happly as (_ & Hid & _).
    rewrite Hdb. unfold unique_indexes. simpl. repeat split; try done.
    rewrite (map_key_replace task_id _ _ t) by done. by rewrite <- Hsplit.
  - unfold delete_tasks_id, Task_findOneAndDelete.
    destruct (find_first _ _) as [t|] eqn:Hf; [|done]. simpl.
    apply find_first_Some in Hf as (l1 & l2 & Hsplit & HP & Hl1).
    unfold unique_indexes. simpl. repeat split; try done.
    rewrite Hsplit, remove_first_split by done.
    rewrite Hsplit in Ht. by apply NoDup_remove_key in Ht.
  - unfold get_config. destruct (Config_findOne _ _); [done|].
    destruct (Config_new _ _) as [c|]; simpl; [|done].
    destruct (Config_save_new _ _) as [d|] eqn:E; simpl; [|done].
    apply Config_save_new_Ok in E as (-> & _ & Hid & Hown).
    unfold unique_indexes. simpl. repeat split; try done;
      by apply NoDup_snoc_key.
  - destruct (put_config body fresh user w) as [r w'] eqn:E. simpl.
    apply put_config_cases in E as [[_ ->]|[E|E]]; [done| |].
    + destruct E as (c0 & c & Hfind & Hid & Hown & _ & _ & _ & ->).
      unfold Config_findOne in Hfind.
      apply find_first_Some in Hfind as (l1 & l2 & Hsplit & _ & _).
      rewrite Hsplit in Hc, Hcu.
      assert (Hrep : replace_first
                       (fun c' => bool_decide (cfg_id c' = cfg_id c)) c
                       (configs (db w)) = l1 ++ c :: l2).
      { rewrite Hsplit. apply replace_first_split.
        - apply bool_decide_eq_true. congruence.
        - intros y Hy. apply bool_decide_eq_false. rewrite Hid.
          by eapply NoDup_key_before. }
      unfold unique_indexes. simpl. rewrite Hrep.
      repeat split; try done.
      * by rewrite (map_key_replace cfg_id _ _ c0).
      * by rewrite (map_key_replace cfg_userId _ _ c0).
    + destruct E as (c & _ & _ & Hid & Hown & _ & ->).
      unfold unique_indexes. simpl. repeat split; try done;
        by apply NoDup_snoc_key.
  - unfold post_config_test_telegram.
    destruct (negb _ || negb _); [done|]. by destruct outcome.
Qed.

Lemma app_unique_indexes (c : Call) (now : Date) (w : World) :
  unique_indexes (db w) -> unique_indexes (db (snd (app c now w))).
Proof.
  intros Hwf. destruct c as [body fresh salt|body| |req header]; simpl.
  - unfold post_auth_register. destruct (User_findOne_email _ _); [done|].
    destruct (bcrypt_hash _ _); simpl; [|done].
    destruct (User_save _ _) eqn:E; simpl; [|done].
    apply User_save_inv in E as (-> & _ & Hid & Hemail).
    destruct Hwf as (Hu & Hue & He & Ht & Hc & Hcu).
    unfold unique_indexes. simpl. repeat split; try done;
      by apply NoDup_snoc_key.
  - by rewrite post_auth_login_world.
  - done.
  - unfold serve, protected.
    destruct (authMiddleware header now (db w)); simpl; [done|].
    by apply handler_unique_indexes.
Qed.

(** X21.  The unique indexes are an invariant of the application: if no
    two records of a collection share an identifier, no two accounts an
    email and no two Configs an owner, then the same holds after every run
    of calls. *)
Theorem unique_indexes_are_kept (cs : list (Call * Date)) (w : World) :
  unique_indexes (db w) -> unique_indexes (db (run cs w)).
Proof.
  revert w. induction cs as [|[c now] cs IH]; intros w Hwf; simpl; [done|].
  apply IH. by apply app_unique_indexes.
Qed.

(** ** The counts of Stats *)

Lemma status_counts_le (l : list Task) :
  (length (List.filter (fun t => bool_decide (task_status t = Some "new")) l)
   + length (List.filter
               (fun t => bool_decide (task_status t = Some "in_progress")) l)
   + length (List.filter
               (fun t => bool_decide (task_status t = Some "completed")) l)
   <= length l)%nat.
Proof.
  induction l as [|t l IH]; simpl; [lia|].
  repeat case_bool_decide; simpl; try lia; congruence.
Qed.

Lemma status_counts_eq (l : list Task) :
  (forall t, t ∈ l -> exists s, task_status t = Some s /\ s ∈ status_enum) ->
  (length (List.filter (fun t => bool_decide (task_status t = Some "new")) l)
   + length (List.filter
               (fun t => bool_decide (task_status t = Some "in_progress")) l)
   + length (List.filter
               (fun t => bool_decide (task_status t = Some "completed")) l)
   = length l)%nat.
Proof.
  induction l as [|t l IH]; simpl; intros Hl; [done|].
  assert (IH' := IH (fun t' Ht' => Hl t' (list_elem_of_further _ _ _ Ht'))).
  destruct (Hl t (list_elem_of_here _ _)) as (s & Hs & Hin).
  unfold status_enum in Hin.
  repeat (apply elem_of_cons in Hin as [->|Hin]);
    [..|by apply elem_of_nil in Hin];
    rewrite Hs; repeat case_bool_decide; simpl; try lia; congruence.
Qed.

Lemma overdue_count_le (now : Date) (l : list Task) :
  (length (List.filter
             (fun t => negb (bool_decide (task_status t = Some "completed"))
                       && (deadline_instant t <? now)%Z) l)
   + length (List.filter
               (fun t => bool_decide (task_status t = Some "completed")) l)
   <= length l)%nat.
Proof.
  induction l as [|t l IH]; simpl; [lia|].
  case_bool_decide; simpl; [lia|].
  destruct (deadline_instant t <? now)%Z; simpl; lia.
Qed.

(** X22.  The counts of Stats fit together: the counts per status never
    add up to more than the total, and add up to it exactly when every
    task of the caller's has one of the three listed statuses; the overdue
    tasks and the completed tasks together are at most the total. *)
Theorem stats_counts_fit (now : Date) (user : User) (w : World) :
  exists s,
    get_stats now user w = (respond 200 (JsonStats s), w)
    /\ (stats_new s + stats_inProgress s + stats_completed s
        <= stats_total s)%nat
    /\ (stats_overdue s + stats_completed s <= stats_total s)%nat
    /\ ((forall t, t ∈ tasks (db w) -> task_userId t = Some (user_id user) ->
                   exists st, task_status t = Some st /\ st ∈ status_enum) ->
        (stats_new s + stats_inProgress s + stats_completed s
         = stats_total s)%nat).
Proof.
  eexists. split; [reflexivity|]. simpl.
  split; [apply status_counts_le|]. split; [apply overdue_count_le|].
  intros Hl. apply status_counts_eq. intros t Ht.
  apply elem_of_Task_find in Ht as [Ht Hu]. by apply Hl.
Qed.

(** ** Login, then a session *)

Lemma find_first_unique {A} (key : A -> ObjectId) (l : list A) (x : A) :
  NoDup (map key l) -> x ∈ l ->
  find_first (fun y => bool_decide (key y = key x)) l = Some x.
Proof.
  intros Hdup Hx. apply list_elem_of_split in Hx as (l1 & l2 & ->).
  unfold find_first. induction l1 as [|y l1 IH]; simpl.
  - by rewrite bool_decide_eq_true_2.
  - rewrite bool_decide_eq_false_2.
    + apply IH. simpl in Hdup. by apply NoDup_cons_1_2 in Hdup.
    + eapply (NoDup_key_before key (y :: l1)); [done|left].
Qed.

(** X23.  The token that Login returns opens a session: where account
    identifiers are unique, [GET /api/auth/me] with that token answers 200
    with the view that Login returned, until the token expires, and
    changes nothing. *)
Theorem login_token_opens_session (body : Credentials) (now later : Date)
    (w w' : World) (token : Jwt) (view : UserView) :
  NoDup (map user_id (users (db w))) ->
  post_auth_login body now w = (respond 200 (JsonAuth token view), w') ->
  (later / 1000 < now / 1000 + 30 * 24 * 60 * 60)%Z ->
  w' = w
  /\ serve GET_auth_me (Some token) later w'
     = (respond 200 (JsonUser view), w').
Proof.
  intros Hdup H Hlater. unfold post_auth_login in H.
  destruct (User_findOne_email _ _) as [user|] eqn:Hfind; [|by injection H].
  destruct (bcrypt_compare _ _) as [[]|]; [|by injection H..].
  injection H as <- <- <-. split; [done|].
  unfold User_findOne_email in Hfind.
  apply find_first_Some in Hfind as (l1 & l2 & Hsplit & _ & _).
  unfold serve, protected, jwt_sign.
  rewrite (authMiddleware_Ok _ later _ user); [done| |].
  - intros exp [= <-]. exact Hlater.
  - simpl. apply (find_first_unique user_id); [done|].
    rewrite Hsplit. apply elem_of_app. right. left.
Qed.

(** ** A task whose assignee is not on record *)


End Server.

(** * The theorems at sample requests *)


Lemma stats_counts_witness :
  stats_overdue
    (stats_spec (user_id alice) 7000
       (set_tasks (db world0) (tasks (db world0) ++ [report])))
  = S (stats_overdue (stats_spec (user_id alice) 7000 (db world0))).
Proof.
  pose proof (stats_counts 7000 alice world0) as [_ H].
  destruct (H report 5000%Z eq_refl eq_refl) as [Hnew _]; [reflexivity|].
  exact (Hnew eq_refl).
Defined.

Lemma create_attaches_caller_witness :
  (exists e,
     post_employees no_dates forged_employee_body 9100 frank_id alice world0
     = (respond 201 (JsonEmployee e),
        with_db world0
          (set_employees (db world0) (employees (db world0) ++ [e])))
     /\ emp_id e = frank_id /\ emp_userId e = Some (user_id alice)
     /\ emp_name e = Some "Frank" /\ emp_createdAt e = Some 9100%Z)
  /\ (exists t,
        db (snd (post_tasks no_dates plain_date forged_body 6000 memo_id
                   AxiosResolved alice world0))
        = set_tasks (db world0) (tasks (db world0) ++ [t])
        /\ task_id t = memo_id /\ task_userId t = Some (user_id alice)
        /\ task_history t = []
        /\ task_title t = Some "Report" /\ task_employeeId t = Some dave_id
        /\ task_deadline t = Some 5000%Z
        /\ ((forall botToken chatId,
               ~ has_credentials (user_id alice) (db world0) botToken chatId) ->
            fst (post_tasks no_dates plain_date forged_body 6000 memo_id
                   AxiosResolved alice world0)
            = respond 201
                (JsonTask
                   (populate
                      (set_tasks (db world0) (tasks (db world0) ++ [t])) t)))).
Proof.
  split.
  - apply (proj1 (proj2 (proj2 (create_attaches_caller no_dates plain_date
                                  forged_employee_body 9100 frank_id
                                  AxiosResolved alice world0))) "Frank").
    + apply (bool_decide_unpack _). by vm_compute.
    + reflexivity.
    + discriminate.
    + by left.
    + by left.
    + reflexivity.
    + reflexivity.
    + apply (bool_decide_unpack _). by vm_compute.
  - apply (proj2 (proj2 (proj2 (create_attaches_caller no_dates plain_date
                                  forged_body 6000 memo_id AxiosResolved alice
                                  world0))) "Report" dave_id 5000%Z).
    + apply (bool_decide_unpack _). by vm_compute.
    + reflexivity.
    + discriminate.
    + reflexivity.
    + reflexivity.
    + reflexivity.
    + by vm_compute.
    + by left.
    + by left.
    + right. exists "high". split; [reflexivity|].
      apply (bool_decide_unpack _). by vm_compute.
    + by left.
    + reflexivity.
    + reflexivity.
    + reflexivity.
    + reflexivity.
    + apply not_elem_of_nil.
Defined.

Lemma completion_notification_witness :
  exists oldTask calls,
    Task_findOne report_id (user_id alice) (db world2) = Some oldTask
    /\ outbox (snd (put_tasks_id no_dates report_id completed_body 8000
                      AxiosResolved alice world2))
       = outbox world2 ++ calls
    /\ (forall botToken chatId,
          completed_body !! "status" = Some (JStr "completed") ->
          task_status oldTask ≠ Some "completed" ->
          has_credentials (user_id alice) (db world2) botToken chatId ->
          exists t message,
            json (fst (put_tasks_id no_dates report_id completed_body 8000
                         AxiosResolved alice world2)) = JsonTask t
            /\ completed_message (Some t) = Ok message
            /\ calls = [{| call_botToken := JStr botToken;
                           call_chat_id := JStr chatId;
                           call_text := message |}])
    /\ (~ (completed_body !! "status" = Some (JStr "completed")
           /\ task_status oldTask ≠ Some "completed"
           /\ exists botToken chatId,
                has_credentials (user_id alice) (db world2) botToken chatId) ->
        calls = []).
Proof.
  apply (completion_notification no_dates report_id completed_body 8000
           AxiosResolved alice world2
           (snd (put_tasks_id no_dates report_id completed_body 8000 AxiosResolved
                   alice world2))
           (fst (put_tasks_id no_dates report_id completed_body 8000 AxiosResolved
                   alice world2))).
  - apply surjective_pairing.
  - vm_compute. reflexivity.
Defined.


Lemma notification_failure_isolated_witness :
  fst (post_tasks no_dates plain_date (task_body dave_id 5000) 6000 memo_id
         (AxiosRejected None "timeout") alice world1)
  = fst (post_tasks no_dates plain_date (task_body dave_id 5000) 6000 memo_id
           AxiosResolved alice world1).
Proof.
  pose proof (notification_failure_isolated no_dates plain_date) as (_ & H & _).
  apply H.
Defined.

Lemma update_sets_owner_from_body_witness :
  exists l1 e l2 e',
    employees (db world0) = l1 ++ e :: l2
    /\ employees (db (snd (put_employees_id no_dates dave_id reassign_body alice
                             world0))) = l1 ++ e' :: l2
    /\ emp_id e = dave_id /\ emp_userId e = Some (user_id alice)
    /\ fst (put_employees_id no_dates dave_id reassign_body alice world0)
       = respond 200 (JsonEmployee e')
    /\ emp_id e' = dave_id /\ emp_userId e' = Some bob_id
    /\ (forall s, reassign_body !! "name" = Some (JStr s) ->
          emp_name e' = Some s)
    /\ (forall s, reassign_body !! "position" = Some (JStr s) ->
          emp_position e' = Some s)
    /\ (forall s, reassign_body !! "telegramTag" = Some (JStr s) ->
          emp_telegramTag e' = Some s).
Proof.
  pose proof (update_sets_owner_from_body no_dates) as (H & _).
  apply (H dave_id reassign_body alice world0).
  - apply surjective_pairing.
  - vm_compute. reflexivity.
  - reflexivity.
Defined.

Lemma login_outcomes_witness :
  post_auth_login None plain_digest unknown_login 9000 world0 =
    (respond 401 (JsonError "Неверный email или пароль"), world0)
  /\ post_auth_login None plain_digest wrong_login 9000 world0 =
       (respond 401 (JsonError "Неверный email или пароль"), world0)
  /\ post_auth_login None plain_digest passwordless_known 9000 world0 =
       (respond 500 (JsonError "Ошибка входа"), world0).
Proof.
  split; [|split].
  - apply (proj1 (login_outcomes None plain_digest unknown_login 9000 world0)).
    intros (u & Hu & He).
    apply elem_of_cons in Hu as [->|Hu]; [discriminate He|].
    apply elem_of_cons in Hu as [->|Hu]; [discriminate He|].
    by apply elem_of_nil in Hu.
  - apply (proj1 (proj2 (login_outcomes None plain_digest wrong_login 9000
                           world0)))
      with alice "guess" "$2a$10$saltAdigestA".
    + reflexivity.
    + reflexivity.
    + reflexivity.
    + intros H. vm_compute in H. discriminate H.
  - apply (proj1 (proj2 (proj2 (login_outcomes None plain_digest
                                  passwordless_known 9000 world0))))
      with alice.
    + reflexivity.
    + reflexivity.
Defined.

Lemma register_outcomes_witness :
  post_auth_register None plain_digest erin_registration 9000 erin_id "pepper"
    world0 =
    (respond 201
       (JsonAuth
          (JwtSigned (JWT_SECRET None)
             {| jwt_userId := Some erin_id; jwt_iat := (9000 / 1000)%Z;
                jwt_exp := Some (9000 / 1000 + 30 * 24 * 60 * 60)%Z |})
          {| view_id := erin_id; view_email := Some "erin@example.org";
             view_name := Some "Erin"; view_role := Some "manager" |}),
     world4)
  /\ forall body' now' fresh' salt',
       cred_email body' = Some "erin@example.org" ->
       post_auth_register None plain_digest body' now' fresh' salt' world4 =
         (respond 400 (JsonError "Email уже зарегистрирован"), world4).
Proof.
  pose proof (register_outcomes None plain_digest erin_registration 9000
                erin_id "pepper" world0) as (_ & H & _).
  apply (H "erin@example.org" "secret" "Erin").
  - reflexivity.
  - discriminate.
  - discriminate.
  - intros (u & Hu & He).
    apply elem_of_cons in Hu as [->|Hu]; [discriminate He|].
    apply elem_of_cons in Hu as [->|Hu]; [discriminate He|].
    by apply elem_of_nil in Hu.
  - intros Hin. simpl in Hin.
    apply elem_of_cons in Hin as [Hin|Hin]; [discriminate Hin|].
    apply elem_of_cons in Hin as [Hin|Hin]; [discriminate Hin|].
    by apply elem_of_nil in Hin.
Defined.

Lemma owner_scoping_witness :
  (forall e, e ∈ employees (db world3) -> emp_userId e ≠ Some (user_id alice) ->
             e ∈ employees
                   (db (snd (serve no_dates None plain_date
                               (PUT_employees_id carol_id reassign_body)
                               (Some alice_token) 7000 world3))))
  /\ (forall t,
        t ∈ tasks_of (json (fst (serve no_dates None plain_date GET_tasks
                                   (Some alice_token) 7000 world3))) ->
        exists t0, t0 ∈ tasks (db world3) /\ task_id t0 = task_id t
                   /\ task_userId t0 = Some (user_id alice)
                   /\ ((forall id body outcome,
                          GET_tasks ≠ PUT_tasks_id id body outcome) -> t = t0)).
Proof.
  split.
  - pose proof (owner_scoping no_dates None plain_date
                  (PUT_employees_id carol_id reassign_body) (Some alice_token)
                  7000 world3 alice eq_refl eq_refl) as (H & _).
    exact H.
  - pose proof (owner_scoping no_dates None plain_date GET_tasks
                  (Some alice_token) 7000 world3 alice eq_refl eq_refl)
      as (_ & _ & _ & _ & H & _).
    exact H.
Defined.

(** Alice creates a task assigned to Carol, an employee of Bob's; the list
    of her tasks then discloses Carol's record. *)
Lemma task_list_discloses_foreign_assignee :
  snd (post_tasks no_dates plain_date (task_body carol_id 5000) 6000 audit_id
         AxiosResolved alice world0) = world3
  /\ authMiddleware None (Some alice_token) 7000 (db world3) = inr alice
  /\ ~ discloses_own_employees_only (user_id alice)
         (fst (serve no_dates None plain_date GET_tasks (Some alice_token)
                 7000 world3)).
Proof.
  split; [vm_compute; reflexivity|]. split; [vm_compute; reflexivity|].
  intros H. specialize (H carol). discriminate H.
  apply elem_of_app. right. vm_compute. left.
Qed.

(** Registering without a name: no account has the email, and the answer
    is 500, not 201. *)
Lemma register_without_name_fails :
  User_findOne_email (cred_email nameless_registration) (db world0) = None
  /\ post_auth_register None plain_digest nameless_registration 9000 erin_id
       "pepper" world0 =
       (respond 500 (JsonError "Ошибка регистрации"), world0)
  /\ status (fst (post_auth_register None plain_digest nameless_registration
                    9000 erin_id "pepper" world0)) ≠ 201.
Proof. repeat split; vm_compute; (reflexivity || discriminate). Qed.


(** A Login without a password answers 500 for an email that has an
    account and 401 for one that has none. *)
Lemma login_without_password_tells_accounts_apart :
  post_auth_login None plain_digest passwordless_known 9000 world0
  = (respond 500 (JsonError "Ошибка входа"), world0)
  /\ post_auth_login None plain_digest passwordless_unknown 9000 world0
     = (respond 401 (JsonError "Неверный email или пароль"), world0).
Proof. split; vm_compute; reflexivity. Qed.

(** ** Further behaviour of the routes *)

(** Config Update spreads the body after the owner: a caller without a
    Config who submits a userId creates the Config of that owner. *)
Lemma put_config_owner_from_body :
  put_config (<["botToken" := JStr "42:XYZ"]> reassign_body) other_config_id alice world0 =
    (respond 200
       (JsonConfig {| cfg_id := other_config_id; cfg_userId := Some bob_id;
                      cfg_botToken := Some "42:XYZ"; cfg_chatId := None |}),
     with_db world0
       (set_configs db0
          [{| cfg_id := other_config_id; cfg_userId := Some bob_id;
              cfg_botToken := Some "42:XYZ"; cfg_chatId := None |}])).
Proof. vm_compute. reflexivity. Qed.

(** Task Create for an assignee that does not exist, by a caller with
    credentials: the task is stored, the text of the notification cannot be
    built, and the answer is 500; no call is made. *)
Lemma post_tasks_missing_assignee :
  fst (post_tasks no_dates plain_date (task_body nobody_id 5000) 6000 draft_id
         AxiosResolved alice world1)
  = respond 500 (JsonError "Ошибка создания задачи")
  /\ length (tasks (db (snd (post_tasks no_dates plain_date
                               (task_body nobody_id 5000) 6000 draft_id AxiosResolved
                               alice world1)))) = 1
  /\ outbox (snd (post_tasks no_dates plain_date (task_body nobody_id 5000) 6000
                    draft_id AxiosResolved alice world1)) = [].
Proof. repeat split; vm_compute; reflexivity. Qed.

(** Task Update to completed of a task whose assignee does not exist, by a
    caller with credentials: the update is stored with its history entry,
    the text of the notification cannot be built, and the answer is 500. *)
Lemma put_tasks_id_missing_assignee :
  fst (put_tasks_id no_dates draft_id completed_body 8000 AxiosResolved alice
         world5)
  = respond 500 (JsonError "Ошибка обновления задачи")
  /\ map (fun t => (task_status t, length (task_history t)))
         (tasks (db (snd (put_tasks_id no_dates draft_id completed_body 8000
                            AxiosResolved alice world5))))
     = [(Some "completed", 1)].
Proof. split; vm_compute; reflexivity. Qed.

(** ** Sessions at sample requests *)

Lemma auth_admits_signed_tokens_only_witness :
  exists claims,
    Some alice_token = Some (JwtSigned (JWT_SECRET None) claims)
    /\ unexpired claims 7000
    /\ jwt_userId claims = Some (user_id alice)
    /\ alice ∈ users db0.
Proof.
  apply (auth_admits_signed_tokens_only None (Some alice_token) 7000 db0 alice).
  reflexivity.
Defined.

Lemma issued_token_round_trip_witness :
  authMiddleware None (Some (jwt_sign alice_id (JWT_SECRET None) 6000)) 7000
    db0 = inr alice
  /\ authMiddleware None (Some (jwt_sign alice_id (JWT_SECRET None) 6000))
       2592006000 db0
     = inl (respond 401 (JsonError "Неверный токен")).
Proof.
  split.
  - apply (issued_token_round_trip None alice_id 6000 7000 db0 alice).
    + reflexivity.
    + by vm_compute.
  - apply (issued_token_round_trip None alice_id 6000 2592006000 db0 alice).
    + reflexivity.
    + by vm_compute.
Defined.

Lemma refused_request_changes_nothing_witness :
  snd (serve no_dates None plain_date (DELETE_tasks_id report_id) None 7000
         world2) = world2.
Proof.
  apply (refused_request_changes_nothing no_dates None plain_date
           (DELETE_tasks_id report_id) None 7000 world2).
  reflexivity.
Defined.

Lemma register_then_login_witness :
  exists view,
    fst (post_auth_register None plain_digest erin_registration 9000 erin_id
           salt22 world0)
    = respond 201 (JsonAuth (jwt_sign erin_id (JWT_SECRET None) 9000) view)
    /\ view_id view = erin_id
    /\ view_email view = cred_email erin_registration
    /\ post_auth_login None plain_digest erin_registration 9500
         (snd (post_auth_register None plain_digest erin_registration 9000
                 erin_id salt22 world0))
       = (respond 200 (JsonAuth (jwt_sign erin_id (JWT_SECRET None) 9500) view),
          snd (post_auth_register None plain_digest erin_registration 9000
                 erin_id salt22 world0)).
Proof.
  apply (register_then_login None plain_digest erin_registration
           erin_registration 9000 9500 erin_id salt22 world0
           (snd (post_auth_register None plain_digest erin_registration 9000
                   erin_id salt22 world0))
           (fst (post_auth_register None plain_digest erin_registration 9000
                   erin_id salt22 world0))).
  - reflexivity.
  - apply surjective_pairing.
  - vm_compute. reflexivity.
  - reflexivity.
  - reflexivity.
Defined.

Lemma register_token_opens_session_witness :
  serve no_dates None plain_date GET_auth_me (Some erin_token) 9500
    (snd (post_auth_register None plain_digest erin_registration 9000 erin_id
            salt22 world0))
  = (respond 200 (JsonUser erin_view),
     snd (post_auth_register None plain_digest erin_registration 9000 erin_id
            salt22 world0)).
Proof.
  apply (register_token_opens_session no_dates None plain_digest plain_date
           erin_registration 9000 9500 erin_id salt22 world0).
  - vm_compute. reflexivity.
  - by vm_compute.
Defined.

Lemma accounts_are_append_only_witness :
  users (db world0)
  `prefix_of` users (db (run no_dates None plain_digest plain_date sample_run
                           world0))
  /\ authMiddleware None (Some alice_token) 9999
       (db (run no_dates None plain_digest plain_date sample_run world0))
     = inr alice.
Proof.
  pose proof (accounts_are_append_only no_dates None plain_digest plain_date
                sample_run world0) as [H1 H2].
  split; [exact H1|].
  apply (H2 (Some alice_token) 7000%Z 9999%Z alice); [reflexivity|].
  intros claims Hclaims exp Hexp.
  assert (claims = {| jwt_userId := Some alice_id; jwt_iat := 6%Z;
                      jwt_exp := Some 2592006%Z |}) as ->.
  { unfold alice_token in Hclaims. congruence. }
  injection Hexp as <-. by vm_compute.
Defined.

Lemma login_token_opens_session_witness :
  snd (post_auth_register None plain_digest erin_registration 9000 erin_id
         salt22 world0)
  = snd (post_auth_register None plain_digest erin_registration 9000 erin_id
           salt22 world0)
  /\ serve no_dates None plain_date GET_auth_me (Some erin_token) 9600
       (snd (post_auth_register None plain_digest erin_registration 9000
               erin_id salt22 world0))
     = (respond 200 (JsonUser erin_view),
        snd (post_auth_register None plain_digest erin_registration 9000
               erin_id salt22 world0)).
Proof.
  apply (login_token_opens_session no_dates None plain_digest plain_date
           erin_registration 9500 9600).
  - apply (bool_decide_unpack _). by vm_compute.
  - vm_compute. reflexivity.
  - by vm_compute.
Defined.

(** ** Create at sample requests *)

Lemma created_task_meets_schema_witness :
  exists t title eid deadline,
    fst (post_tasks no_dates plain_date (task_body dave_id 5000) 6000
           report_id AxiosResolved alice world1)
    = respond 201
        (JsonTask
           (populate
              (db (snd (post_tasks no_dates plain_date (task_body dave_id 5000)
                          6000 report_id AxiosResolved alice world1))) t))
    /\ tasks (db (snd (post_tasks no_dates plain_date (task_body dave_id 5000)
                         6000 report_id AxiosResolved alice world1)))
       = tasks (db world1) ++ [t]
    /\ (task_id t ∉ map task_id (tasks (db world1)))
    /\ task_userId t = Some (user_id alice)
    /\ task_title t = Some title /\ title ≠ ""
    /\ task_employeeId t = Some eid /\ task_deadline t = Some deadline
    /\ (forall p, task_priority t = Some p -> p ∈ priority_enum)
    /\ (forall s, task_status t = Some s -> s ∈ status_enum).
Proof.
  apply (created_task_meets_schema no_dates plain_date (task_body dave_id 5000)
           6000 report_id AxiosResolved alice world1).
  - apply surjective_pairing.
  - vm_compute. reflexivity.
Defined.

Lemma create_rejects_invalid_body_witness :
  post_employees no_dates ∅ 6000 frank_id alice world0
  = (respond 500 (JsonError "Ошибка создания сотрудника"), world0)
  /\ post_tasks no_dates plain_date in_progress_body 6000 report_id
       AxiosResolved alice world1
     = (respond 500 (JsonError "Ошибка создания задачи"), world1).
Proof.
  split.
  - apply (create_rejects_invalid_body no_dates plain_date ∅ 6000 frank_id
             AxiosResolved alice world0).
    left. reflexivity.
  - apply (create_rejects_invalid_body no_dates plain_date in_progress_body
             6000 report_id AxiosResolved alice world1).
    left. reflexivity.
Defined.

Lemma created_task_defaults_witness :
  exists t,
    fst (post_tasks no_dates plain_date (task_body dave_id 5000) 6000
           report_id AxiosResolved alice world1)
    = respond 201
        (JsonTask
           (populate
              (db (snd (post_tasks no_dates plain_date (task_body dave_id 5000)
                          6000 report_id AxiosResolved alice world1))) t))
    /\ task_status t = Some "new"
    /\ task_createdAt t = Some 6000%Z
    /\ task_updatedAt t = Some 6000%Z
    /\ task_id t = report_id.
Proof.
  destruct (created_task_defaults no_dates plain_date (task_body dave_id 5000)
              6000 report_id AxiosResolved alice world1
              (snd (post_tasks no_dates plain_date (task_body dave_id 5000)
                      6000 report_id AxiosResolved alice world1))
              (fst (post_tasks no_dates plain_date (task_body dave_id 5000)
                      6000 report_id AxiosResolved alice world1)))
    as (t & Hr & Hstatus & _ & Hcreated & Hupdated & _ & _ & Hid & _).
  - apply surjective_pairing.
  - vm_compute. reflexivity.
  - exists t. split; [exact Hr|].
    split; [apply Hstatus; reflexivity|].
    split; [apply Hcreated; reflexivity|].
    split; [apply Hupdated; reflexivity|].
    apply Hid; reflexivity.
Defined.

Lemma task_create_notification_witness :
  exists t calls,
    fst (post_tasks no_dates plain_date (task_body dave_id 5000) 6000
           report_id AxiosResolved alice world1)
    = respond 201 (JsonTask t)
    /\ outbox (snd (post_tasks no_dates plain_date (task_body dave_id 5000)
                      6000 report_id AxiosResolved alice world1))
       = outbox world1 ++ calls
    /\ (forall botToken chatId,
          has_credentials (user_id alice) (db world1) botToken chatId ->
          exists message,
            calls = [{| call_botToken := JStr botToken;
                        call_chat_id := JStr chatId;
                        call_text := message |}])
    /\ ((forall botToken chatId,
           ~ has_credentials (user_id alice) (db world1) botToken chatId) ->
        calls = []).
Proof.
  apply (task_create_notification no_dates plain_date (task_body dave_id 5000)
           6000 report_id AxiosResolved alice world1).
  - apply surjective_pairing.
  - vm_compute. reflexivity.
Defined.

Lemma create_then_list_witness :
  employees_of
    (json (fst (get_employees alice
                  (snd (post_employees no_dates employee_body 9100 frank_id
                          alice world0)))))
  ≡ₚ frank :: employees_of (json (fst (get_employees alice world0))).
Proof.
  apply (create_then_list no_dates plain_date employee_body 9100 frank_id
           AxiosResolved alice world0).
  vm_compute. reflexivity.
Defined.

Lemma assigned_employee_is_kept_witness :
  delete_employees_id dave_id alice
    (snd (post_tasks no_dates plain_date (task_body dave_id 5000) 6000
            report_id AxiosResolved alice world1))
  = (respond 400 (JsonError "Нельзя удалить сотрудника с активными задачами"),
     snd (post_tasks no_dates plain_date (task_body dave_id 5000) 6000
            report_id AxiosResolved alice world1)).
Proof.
  apply (assigned_employee_is_kept no_dates plain_date (task_body dave_id 5000)
           6000 report_id AxiosResolved alice world1
           (snd (post_tasks no_dates plain_date (task_body dave_id 5000) 6000
                   report_id AxiosResolved alice world1))
           (fst (post_tasks no_dates plain_date (task_body dave_id 5000) 6000
                   report_id AxiosResolved alice world1))).
  - apply surjective_pairing.
  - vm_compute. reflexivity.
  - reflexivity.
Defined.


(** ** Update, Delete and Config at sample requests *)

Lemma task_delete_outcomes_witness :
  delete_tasks_id audit_id bob world3
  = (respond 404 (JsonError "Задача не найдена"), world3)
  /\ delete_tasks_id report_id alice
       (snd (delete_tasks_id report_id alice world2))
     = (respond 404 (JsonError "Задача не найдена"),
        snd (delete_tasks_id report_id alice world2)).
Proof.
  split.
  - apply (proj1 (proj2 (task_delete_outcomes audit_id bob world3 eq_refl))).
    intros (t & Ht & _ & Hu).
    apply elem_of_cons in Ht as [->|Ht]; [discriminate|].
    by apply elem_of_nil in Ht.
  - apply (proj2 (proj2 (task_delete_outcomes report_id alice world2
                           eq_refl))).
    apply (bool_decide_unpack _). by vm_compute.
Defined.

Lemma update_of_missing_record_witness :
  put_tasks_id no_dates audit_id completed_body 8000 AxiosResolved bob world3
  = (respond 404 (JsonError "Задача не найдена"), world3)
  /\ put_employees_id no_dates dave_id employee_body bob world0
     = (respond 404 (JsonError "Сотрудник не найден"), world0)
  /\ put_employees_id no_dates dave_id undated_employee_body bob world0
     = (respond 500 (JsonError "Ошибка обновления сотрудника"), world0).
Proof.
  assert (Hnone : ~ has_employee (user_id bob) dave_id (db world0)).
  { intros (e & He & Hid & Hu).
    apply elem_of_cons in He as [->|He]; [discriminate|].
    apply elem_of_cons in He as [->|He]; [discriminate|].
    by apply elem_of_nil in He. }
  split; [|split].
  - apply (proj1 (update_of_missing_record no_dates audit_id completed_body
                    8000 AxiosResolved bob world3 eq_refl)).
    intros (t & Ht & _ & Hu).
    apply elem_of_cons in Ht as [->|Ht]; [discriminate|].
    by apply elem_of_nil in Ht.
  - apply (proj1 (proj2 (proj2 (update_of_missing_record no_dates dave_id
                                  employee_body 8000 AxiosResolved bob world0
                                  eq_refl) Hnone))).
    + apply (bool_decide_unpack _). by vm_compute.
    + apply (bool_decide_unpack _). by vm_compute.
    + reflexivity.
    + reflexivity.
    + reflexivity.
  - apply (proj2 (proj2 (proj2 (update_of_missing_record no_dates dave_id
                                  undated_employee_body 8000 AxiosResolved bob
                                  world0 eq_refl) Hnone)) "soon").
    + reflexivity.
    + discriminate.
    + reflexivity.
Defined.

Lemma update_keeps_unnamed_paths_witness :
  exists l1 t l2 t',
    tasks (db world2) = l1 ++ t :: l2
    /\ tasks (db (snd (put_tasks_id no_dates report_id in_progress_body 8000
                         AxiosResolved alice world2))) = l1 ++ t' :: l2
    /\ task_id t' = report_id
    /\ task_updatedAt t' = Some 8000%Z
    /\ task_userId t' = Some (user_id alice)
    /\ task_title t' = task_title t
    /\ task_employeeId t' = task_employeeId t
    /\ task_deadline t' = task_deadline t
    /\ task_createdAt t' = task_createdAt t.
Proof.
  pose proof (update_keeps_unnamed_paths no_dates) as [_ H].
  destruct (H report_id in_progress_body 8000%Z AxiosResolved alice world2
              (fst (put_tasks_id no_dates report_id in_progress_body 8000
                      AxiosResolved alice world2))
              (snd (put_tasks_id no_dates report_id in_progress_body 8000
                      AxiosResolved alice world2)))
    as (l1 & t & l2 & t' & Hsplit & Hsplit' & _ & Hid & _ & Hupdated & Huid
        & Htitle & _ & Heid & Hdeadline & _ & _ & _ & _ & Hcreated).
  - reflexivity.
  - apply (bool_decide_unpack _). by vm_compute.
  - apply surjective_pairing.
  - vm_compute. reflexivity.
  - exists l1, t, l2, t'. do 4 (split; [done|]).
    split; [apply Huid; reflexivity|].
    split; [apply Htitle; reflexivity|].
    split; [apply Heid; reflexivity|].
    split; [apply Hdeadline; reflexivity|].
    apply Hcreated; reflexivity.
Defined.

Lemma config_get_creates_once_witness :
  exists c w',
    get_config alice_config_id alice world0 = (respond 200 (JsonConfig c), w')
    /\ cfg_userId c = Some (user_id alice)
    /\ (Config_findOne (user_id alice) (db world0) = None ->
        c = {| cfg_id := alice_config_id; cfg_userId := Some (user_id alice);
               cfg_botToken := Some ""; cfg_chatId := Some "" |}
        /\ w' = with_db world0
                  (set_configs (db world0) (configs (db world0) ++ [c])))
    /\ (is_Some (Config_findOne (user_id alice) (db world0)) -> w' = world0)
    /\ forall fresh',
         get_config fresh' alice w' = (respond 200 (JsonConfig c), w').
Proof.
  apply (config_get_creates_once alice_config_id alice world0).
  simpl. apply not_elem_of_nil.
Defined.

Lemma config_update_then_get_witness :
  exists c,
    fst (put_config bot_body other_config_id alice world1)
    = respond 200 (JsonConfig c)
    /\ cfg_userId c = Some (user_id alice)
    /\ (forall s, bot_body !! "botToken" = Some (JStr s) ->
                  cfg_botToken c = Some s)
    /\ (forall s, bot_body !! "chatId" = Some (JStr s) -> cfg_chatId c = Some s)
    /\ (bot_body !! "botToken" = None -> cfg_botToken c = None)
    /\ (bot_body !! "chatId" = None -> cfg_chatId c = None)
    /\ forall fresh',
         get_config fresh' alice
           (snd (put_config bot_body other_config_id alice world1))
         = (respond 200 (JsonConfig c),
            snd (put_config bot_body other_config_id alice world1)).
Proof.
  apply (config_update_then_get bot_body other_config_id alice world1).
  - apply surjective_pairing.
  - vm_compute. reflexivity.
  - left. by eexists.
Defined.


Lemma test_telegram_outcomes_witness :
  post_config_test_telegram bot_body
    (AxiosRejected (Some "chat not found") "Request failed") alice world1
  = (respond 400
       (JsonError (failure_reason (Some "chat not found") "Request failed")),
     {| db := db world1;
        outbox :=
          outbox world1
          ++ [{| call_botToken := JStr "999:XYZ";
                 call_chat_id := JStr "-2002";
                 call_text :=
                   "🎉 <b>Тестовое сообщение</b>" +:+ LF +:+ LF
                   +:+ "Интеграция Telegram работает корректно!" |}] |}).
Proof.
  apply (test_telegram_outcomes bot_body
           (AxiosRejected (Some "chat not found") "Request failed") alice
           world1).
  - reflexivity.
  - discriminate.
  - reflexivity.
  - discriminate.
Defined.

Lemma unique_indexes_are_kept_witness :
  unique_indexes
    (db (run no_dates None plain_digest plain_date sample_run world0)).
Proof.
  apply (unique_indexes_are_kept no_dates None plain_digest plain_date
           sample_run world0).
  repeat split; apply (bool_decide_unpack _); by vm_compute.
Defined.
